(** * Py-Hydra: the wrapper around thc-hydra, embedded and verified

    A shallow embedding of [src/phydra.py] (class [Hydra]),
    [src/modules/hydraparser.py] (class [HydraParser]) and the exception
    classes of [src/errors/], followed by the properties of the wrapper's
    contract.

    Conventions of the embedding.
    - Python text is a [string] of 8-bit characters, the UTF-8 encoding of
      the [str].  On ASCII text [str.lower] and [int] are computed; on text
      with other characters they follow the Unicode tables of the
      interpreter and are taken from the environment.  [str.split] is
      computed for ASCII whitespace; properties that name every word of a
      command line are stated for ASCII commands.
    - Arguments are typed: a parameter annotated [str] is a [string], [int]
      is a [Z], [bool] is a [bool], [Optional[str]] is an [option string].
      The [isinstance] checks of the entry points therefore always pass and
      are not repeated; [port], which may be an [int] or a [str], keeps both
      shapes.
    - Python exceptions are values of [exn]: a class and the argument the
      exception was built with.  A computation is a function from the state
      of the world to a [result] and a new state.
    - The world holds the files on disk, the [threads] attribute of the
      [Hydra] instance and the trace of what the call did: calls to
      [logging], creation and deletion of the temporary file, and launches
      of the external process. *)

From Stdlib Require Import ZArith Ascii String List Bool.
From stdpp Require Import base option list gmap strings pretty.

Open Scope string_scope.
Open Scope Z_scope.

(** ** Text *)

Module Text.

Definition lower_ascii (c : ascii) : ascii :=
  let n := N_of_ascii c in
  if ((65 <=? n) && (n <=? 90))%N then ascii_of_N (n + 32) else c.

(** [str.lower()] on ASCII text *)
Fixpoint lower (s : string) : string :=
  match s with
  | EmptyString => EmptyString
  | String c s' => String (lower_ascii c) (lower s')
  end.

(** [s.startswith(p)] *)
Fixpoint startswith (s p : string) : bool :=
  match p, s with
  | EmptyString, _ => true
  | String _ _, EmptyString => false
  | String b p', String a s' => if Ascii.eqb a b then startswith s' p' else false
  end.

(** [sub in s] *)
Fixpoint contains (sub s : string) : bool :=
  startswith s sub ||
  match s with
  | EmptyString => false
  | String _ s' => contains sub s'
  end.

(** [s.split(sep)] for a one-character separator: never the empty list,
    empty fields are kept. *)
Fixpoint split_on (sep : ascii) (s : string) : list string :=
  match s with
  | EmptyString => [EmptyString]
  | String c s' =>
      if Ascii.eqb c sep then EmptyString :: split_on sep s'
      else match split_on sep s' with
           | [] => [String c EmptyString]
           | w :: ws => String c w :: ws
           end
  end.

Definition newline : ascii := ascii_of_N 10.

Definition is_whitespace (c : ascii) : bool :=
  let n := N_of_ascii c in
  ((9 <=? n) && (n <=? 13) || (28 <=? n) && (n <=? 32))%N.

(** [s.split()]: fields separated by runs of whitespace, no empty field. *)
Fixpoint split_ws_go (cur : string) (s : string) : list string :=
  let flush := match cur with EmptyString => [] | _ => [String.rev cur] end in
  match s with
  | EmptyString => flush
  | String c s' =>
      if is_whitespace c then flush ++ split_ws_go EmptyString s'
      else split_ws_go (String c cur) s'
  end.

Definition split (s : string) : list string := split_ws_go EmptyString s.

(** [str(n)] for an [int] *)
Definition str (n : Z) : string := pretty n.

Definition is_digit (c : ascii) : bool :=
  let n := N_of_ascii c in ((48 <=? n) && (n <=? 57))%N.

Definition digit_val (c : ascii) : Z := Z.of_N (N_of_ascii c) - 48.

(** Decimal digits with single underscores allowed between digits. *)
Fixpoint digits_go (acc : Z) (after_digit : bool) (s : string) : option Z :=
  match s with
  | EmptyString => if after_digit then Some acc else None
  | String c s' =>
      if is_digit c then digits_go (10 * acc + digit_val c) true s'
      else if Ascii.eqb c "_"
           then if after_digit then digits_go acc false s' else None
           else None
  end.

(** The whitespace that [int] skips at both ends of ASCII text: blank, tab,
    line feed, vertical tab, form feed and carriage return. *)
Definition is_space (c : ascii) : bool :=
  let n := N_of_ascii c in
  ((9 <=? n) && (n <=? 13) || (n =? 32))%N.

Fixpoint lstrip (s : string) : string :=
  match s with
  | String c s' => if is_space c then lstrip s' else s
  | EmptyString => EmptyString
  end.

Definition strip (s : string) : string :=
  String.rev (lstrip (String.rev (lstrip s))).

(** [s.isascii()] *)
Fixpoint is_ascii (s : string) : bool :=
  match s with
  | EmptyString => true
  | String c s' => (N_of_ascii c <? 128)%N && is_ascii s'
  end.

(** [int(s)] for an ASCII [str] in base ten: surrounding whitespace, an
    optional sign, digits.  [None] stands for [ValueError]. *)
Definition int_of_str (s : string) : option Z :=
  match strip s with
  | String "-" d => Z.opp <$> digits_go 0 false d
  | String "+" d => digits_go 0 false d
  | d => digits_go 0 false d
  end.

End Text.

(** ** Exceptions ([src/errors/errors.py], [src/errors/exceptions.py]) *)

Inductive exn_class :=
  | TypeError | ValueError | KeyError | OSError
  | UnicodeDecodeError | JSONDecodeError | RecursionError
  | HydraError | UnknownHydraError | HydraDecodeError
  | HydraUnsupportedServiceError | HydraUnknownServiceError
  | HydraFileDoesNotExist | HydraNoWordlistGiven.

Global Instance exn_class_eq_dec : EqDecision exn_class := ltac:(solve_decision).

(** The argument an exception or a log record is built with:
    [UnknownHydraError] is raised with the list of captured lines, every
    other one with a message. *)
Inductive payload :=
  | Msg (s : string)
  | Lines (l : list string).

Global Instance payload_eq_dec : EqDecision payload := ltac:(solve_decision).

Record exn := Exn { cls : exn_class; arg : payload }.

(** The classes of [errors.py] all derive from [HydraError], which derives
    from [CriticalException]. *)
Definition is_hydra_error (c : exn_class) : bool :=
  match c with
  | HydraError | UnknownHydraError | HydraDecodeError
  | HydraUnsupportedServiceError | HydraUnknownServiceError
  | HydraFileDoesNotExist | HydraNoWordlistGiven => true
  | _ => false
  end.

(** [issubclass(c, d)] on the classes above; [JSONDecodeError] and
    [UnicodeDecodeError] derive from [ValueError]. *)
Definition subclass (c d : exn_class) : bool :=
  bool_decide (c = d) ||
  match d with
  | HydraError => is_hydra_error c
  | ValueError => bool_decide (c = JSONDecodeError) || bool_decide (c = UnicodeDecodeError)
  | _ => false
  end.

Inductive result (A : Type) :=
  | Ok (a : A)
  | Raise (e : exn).
Arguments Ok {A} a.
Arguments Raise {A} e.

(** ** The world *)

#[local] Set Warnings "-register-all".

(** JSON as [json.load] returns it.  An object is the list of the items of
    the decoded [dict] in insertion order; numbers are Python [int]s
    (literals with a fraction or an exponent are not represented). *)
Inductive json :=
  | JNull
  | JBool (b : bool)
  | JInt (n : Z)
  | JStr (s : string)
  | JArr (l : list json)
  | JObj (o : list (string * json)).

(** A file on disk, by what [open(..., encoding="utf-8")] followed by
    [json.load] makes of it. *)
Inductive file :=
  | Undecodable            (* bytes that are not UTF-8 *)
  | Malformed              (* text that is not JSON, the empty file included *)
  | Document (v : json)    (* JSON text, decoded to [v] *)
  | HugeNumber             (* JSON text with an integer of more digits than
                              the interpreter converts: [ValueError] *)
  | TooDeep.               (* JSON text nested deeper than the interpreter
                              recurses: [RecursionError] *)

Inductive level := DEBUG | INFO | WARNING | CRITICAL.

Inductive event :=
  | Log (lv : level) (m : payload)
  | TmpCreate (name : string)
  | TmpDelete (name : string)
  | Launch (argv : list string).

Global Instance level_eq_dec : EqDecision level := ltac:(solve_decision).
Global Instance event_eq_dec : EqDecision event := ltac:(solve_decision).

Record state := State {
  fs : gmap string file;       (* regular files, by path *)
  self_threads : Z;            (* [self.threads] *)
  trace : list event;          (* oldest event first *)
}.

(** ** Computations *)

Definition M (A : Type) : Type := state -> result A * state.

Global Instance M_ret : MRet M := fun A a st => (Ok a, st).

Global Instance M_bind : MBind M := fun A B k m st =>
  match m st with
  | (Ok a, st') => k a st'
  | (Raise e, st') => (Raise e, st')
  end.

(** The state after one more event. *)
Definition record (e : event) (st : state) : state :=
  State (fs st) (self_threads st) (trace st ++ [e]).

Definition emit (e : event) : M unit := fun st => (Ok tt, record e st).

Definition logging (lv : level) (m : string) : M unit := emit (Log lv (Msg m)).

(** [raise c(a)].  [CriticalException.__init__] passes its arguments to
    [logging.critical], so building an exception of [errors.py] leaves a
    log record. *)
Definition raise {A} (c : exn_class) (a : payload) : M A :=
  fun st =>
    (Raise (Exn c a), if is_hydra_error c then record (Log CRITICAL a) st else st).

(** A result computed without touching the world. *)
Definition lift {A} (r : result A) : M A := fun st => (r, st).

(** [try: body / except c: handler] *)
Definition try_except {A} (body : M A) (c : exn_class) (handler : exn -> M A) : M A :=
  fun st =>
    match body st with
    | (Raise e, st') => if subclass (cls e) c then handler e st' else (Raise e, st')
    | r => r
    end.

Definition get_fs : M (gmap string file) := fun st => (Ok (fs st), st).

Definition set_fs (f : gmap string file) : M unit :=
  fun st => (Ok tt, State f (self_threads st) (trace st)).

Definition set_self_threads (n : Z) : M unit :=
  fun st => (Ok tt, State (fs st) n (trace st)).

Definition is_file (files : gmap string file) (p : string) : bool :=
  bool_decide (is_Some (files !! p)).

(** [os.path.isfile] *)
Definition isfile (p : string) : M bool := fun st => (Ok (is_file (fs st) p), st).

(** ** Python values decoded from JSON *)

Module Py.

(** [type(v).__name__] *)
Definition type_name (v : json) : string :=
  match v with
  | JNull => "NoneType" | JBool _ => "bool" | JInt _ => "int"
  | JStr _ => "str" | JArr _ => "list" | JObj _ => "dict"
  end.

Fixpoint assoc (k : string) (o : list (string * json)) : option json :=
  match o with
  | [] => None
  | (k', v) :: o' => if String.eqb k' k then Some v else assoc k o'
  end.

(** [v[k]] for a [str] key [k]: only a [dict] can be subscripted by a
    string; a missing key is a [KeyError], any other receiver a
    [TypeError].  The texts of the [TypeError]s are those of CPython 3.10;
    later versions word some of them differently, the class is the same. *)
Definition getitem (v : json) (k : string) : result json :=
  match v with
  | JObj o =>
      match assoc k o with
      | Some x => Ok x
      | None => Raise (Exn KeyError (Msg k))
      end
  | JArr _ => Raise (Exn TypeError (Msg "list indices must be integers or slices, not str"))
  | JStr _ => Raise (Exn TypeError (Msg "string indices must be integers"))
  | _ => Raise (Exn TypeError (Msg ("'" +:+ type_name v +:+ "' object is not subscriptable")))
  end.

Fixpoint chars (s : string) : list json :=
  match s with
  | EmptyString => []
  | String c s' => JStr (String c EmptyString) :: chars s'
  end.

(** The items [for x in v] goes through: the elements of a [list], the
    keys of a [dict], the characters of a [str]. *)
Definition iter (v : json) : result (list json) :=
  match v with
  | JArr l => Ok l
  | JObj o => Ok (map (fun kv => JStr (fst kv)) o)
  | JStr s => Ok (chars s)
  | _ => Raise (Exn TypeError (Msg ("'" +:+ type_name v +:+ "' object is not iterable")))
  end.

(** [[f(x) for x in l]]: the first exception ends the comprehension. *)
Fixpoint comprehension {A B} (f : A -> result B) (l : list A) : result (list B) :=
  match l with
  | [] => Ok []
  | x :: l' =>
      match f x with
      | Raise e => Raise e
      | Ok y =>
          match comprehension f l' with
          | Raise e => Raise e
          | Ok ys => Ok (y :: ys)
          end
      end
  end.

(** A [dict] whose keys are decoded JSON values: its items in insertion
    order, no two keys equal. *)
Definition dict : Type := list (json * json).

Definition hashable (k : json) : bool :=
  match k with
  | JArr _ | JObj _ => false
  | _ => true
  end.

(** [a == b] on hashable values: [True == 1] and [False == 0]. *)
Definition key_eqb (a b : json) : bool :=
  match a, b with
  | JNull, JNull => true
  | JBool x, JBool y => Bool.eqb x y
  | JBool x, JInt n | JInt n, JBool x => (n =? (if x then 1 else 0))%Z
  | JInt m, JInt n => (m =? n)%Z
  | JStr s, JStr t => String.eqb s t
  | _, _ => false
  end.

(** [d[k] = v]: an equal key keeps its place and its key object, and takes
    the new value; a new key goes last. *)
Fixpoint setitem (k v : json) (d : dict) : dict :=
  match d with
  | [] => [(k, v)]
  | (k', v') :: d' =>
      if key_eqb k' k then (k', v) :: d' else (k', v') :: setitem k v d'
  end.

Fixpoint getkey (k : json) (d : dict) : option json :=
  match d with
  | [] => None
  | (k', v) :: d' => if key_eqb k' k then Some v else getkey k d'
  end.

(** [dict(pairs)], starting from the items inserted so far. *)
Fixpoint dict_from (d : dict) (pairs : list (json * json)) : result dict :=
  match pairs with
  | [] => Ok d
  | (k, v) :: pairs' =>
      if hashable k then dict_from (setitem k v d) pairs'
      else Raise (Exn TypeError (Msg ("unhashable type: '" +:+ type_name k +:+ "'")))
  end.

Definition dict_of (pairs : list (json * json)) : result dict := dict_from [] pairs.

End Py.

(** ** [class HydraParser] ([src/modules/hydraparser.py]) *)

Module HydraParser.

(** [with open(json_path, "r", encoding="utf-8") as f: json.load(f)] *)
Definition json_load (json_path : string) : M json :=
  files ← get_fs;
  match files !! json_path with
  | None => raise OSError (Msg json_path)
  | Some Undecodable => raise UnicodeDecodeError (Msg "invalid start byte")
  | Some Malformed => raise JSONDecodeError (Msg "Expecting value")
  | Some (Document v) => mret v
  | Some HugeNumber =>
      raise ValueError (Msg "Exceeds the limit for integer string conversion")
  | Some TooDeep => raise RecursionError (Msg "maximum recursion depth exceeded")
  end.

Definition json_opener (json_path : string) : M json :=
  try_except
    (json_load json_path)
    JSONDecodeError
    (fun _ => raise HydraDecodeError
       (Msg ("Can't open the given file : " +:+ json_path +:+
             ". Please make sure it is a JSON file."))).

(** [[x[field] for x in hydra_output["results"]]] *)
Definition field_of_results (hydra_output : json) (field : string) : result (list json) :=
  match Py.getitem hydra_output "results" with
  | Raise e => Raise e
  | Ok results =>
      match Py.iter results with
      | Raise e => Raise e
      | Ok entries => Py.comprehension (fun x => Py.getitem x field) entries
      end
  end.

Definition json2dict (json_path : string) : M Py.dict :=
  hydra_output ← json_opener json_path;
  try_except
    (login ← lift (field_of_results hydra_output "login");
     password ← lift (field_of_results hydra_output "password");
     lift (Py.dict_of (zip login password)))
    KeyError
    (fun _ => raise HydraDecodeError
       (Msg ("Couldn't parse any Hydra information from the json file: " +:+ json_path))).

End HydraParser.

(** ** [class Hydra] ([src/phydra.py]) *)

(** What [__init__] leaves on the instance and no method changes.  The two
    registries are read from [services/supported_services] and
    [services/special_services], one name per line. *)
Record Hydra := {
  ip : string;                         (* [str(self.ip)] *)
  hydra_path : string;
  supported_services : list string;
  unsupported_services : list string;
}.

(** [self.hydra_args] *)
Module Args.
Definition UserWordlist := "-L".
Definition Username := "-l".
Definition PassWordlist := "-P".
Definition Password := "-p".
Definition Threads := "-t".
Definition OutputFilename := "-o".
Definition OutputType := "-b".
Definition IgnoreRestoreFile := "-I".
Definition Port := "-s".
Definition UserPassWordlist := "-C".
End Args.

Definition valid_outputs : list string := ["text"; "json"; "jsonv1"].

Definition service_without_user : list string :=
  ["redis"; "adam6500"; "cisco"; "oracle-listener"; "s7-300"; "snmp"; "vnc"].

(** [port: Union[int, str]] *)
Inductive port_arg :=
  | PortInt (n : Z)
  | PortStr (s : string).

(** The bytes captured from standard error, by what [stderr.decode()]
    makes of them. *)
Inductive captured :=
  | Utf8 (text : string)   (* bytes that are UTF-8, decoded to [text] *)
  | NotUtf8.               (* any other bytes: [UnicodeDecodeError] *)

(** What lies outside the program: the name [tempfile] picks, the working
    directory behind [os.path.abspath], and the external process, which
    given its arguments and the files on disk either cannot be started or
    exits with a code, the bytes on its standard error, and the files it
    leaves; and of the interpreter, [str.lower] and [int] on text that is
    not ASCII, and whether removing a temporary file that is already gone
    raises [FileNotFoundError] when the file is closed (it does up to
    CPython 3.11, and is ignored from 3.12 on). *)
Inductive spawned :=
  | SpawnFails
  | Exits (exit_code : Z) (stderr : captured) (files : gmap string file).

Record Env := {
  tmp_name : string;
  abspath : string -> string;
  popen : list string -> gmap string file -> spawned;
  unicode_lower : string -> string;
  unicode_int : string -> option Z;
  unlink_missing_raises : bool;
}.

Section Hydra.

Context (self : Hydra) (env : Env).

(** [tempfile.NamedTemporaryFile()]: an empty file is created. *)
Definition tmp_created (name : string) (st : state) : state :=
  record (TmpCreate name)
    (State (<[name := Malformed]> (fs st)) (self_threads st) (trace st)).

(** Closing the temporary file removes it. *)
Definition tmp_deleted (name : string) (st : state) : state :=
  record (TmpDelete name)
    (State (delete name (fs st)) (self_threads st) (trace st)).

(** How the block ends once the file is closed: with the outcome of its
    body, unless the file was already gone and its removal raises, in which
    case the [FileNotFoundError] takes the place of that outcome. *)
Definition closed {A} (files : gmap string file) (name : string) (r : result A)
    : result A :=
  if is_file files name || negb (unlink_missing_raises env) then r
  else Raise (Exn OSError (Msg name)).

(** [with tempfile.NamedTemporaryFile() as tmp_file: body(tmp_file.name)]:
    the file is closed when the block is left, by return or by exception. *)
Definition NamedTemporaryFile {A} (body : string -> M A) : M A :=
  fun st =>
    let name := tmp_name env in
    let '(r, st') := body name (tmp_created name st) in
    (closed (fs st') name r, tmp_deleted name st').

(** [s.lower()] *)
Definition lower (s : string) : string :=
  if Text.is_ascii s then Text.lower s else unicode_lower env s.

(** [int(port)]; [None] stands for [ValueError]. *)
Definition int (port : port_arg) : option Z :=
  match port with
  | PortInt n => Some n
  | PortStr s => if Text.is_ascii s then Text.int_of_str s else unicode_int env s
  end.

(** [f"{port}"] *)
Definition format_port (port : port_arg) : string :=
  match port with
  | PortInt n => Text.str n
  | PortStr s => s
  end.

(** [port = int(port)] with its [except ValueError] (lines 159-162) *)
Definition int_of_port (port : port_arg) : M Z :=
  match int port with
  | Some n => mret n
  | None => raise ValueError
      (Msg ("The port number should be an integer, " +:+ format_port port +:+ " was given."))
  end.

(** [threads] and [export_type] are never [None] here, so their flags are
    always present. *)
Definition _default_string_generator (threads : Z) (output_file_name : option string)
    (export_type : string) (ignore_restore_file : bool) : string :=
  let command_string := "" in
  let command_string :=
    command_string +:+ " " +:+ Args.Threads +:+ " " +:+ Text.str threads in
  let command_string :=
    match output_file_name with
    | Some name => command_string +:+ " " +:+ Args.OutputFilename +:+ " " +:+ name
    | None => command_string
    end in
  let command_string :=
    command_string +:+ " " +:+ Args.OutputType +:+ " " +:+ export_type in
  let command_string :=
    if ignore_restore_file
    then command_string +:+ " " +:+ Args.IgnoreRestoreFile
    else command_string in
  command_string.

(** [f"{self.hydra_path} {service}://{self.ip}:{port} -w {wait_time}"] *)
Definition base_command (service : string) (port wait_time : Z) : string :=
  let hydra_target := service +:+ "://" +:+ ip self +:+ ":" +:+ Text.str port in
  hydra_path self +:+ " " +:+ hydra_target +:+ " -w " +:+ Text.str wait_time.

Definition _userpass_wordlist_string_generator (threads wait_time : Z)
    (service : string) (port : Z) (export_type : string)
    (ignore_restore_file : bool) (userpass_wordlist : string)
    (output_file_name : string) : M string :=
  let command_string := base_command service port wait_time in
  is_file ← isfile userpass_wordlist;
  command_string ←
    (if is_file : bool
     then mret (command_string +:+ " " +:+ Args.UserPassWordlist +:+ " " +:+ userpass_wordlist)
     else raise HydraFileDoesNotExist (Msg "Unable to find the file"));
  mret (command_string +:+
        _default_string_generator threads (Some output_file_name) export_type
          ignore_restore_file).

Definition _user_and_pass_wordlists_string_generator (threads wait_time : Z)
    (service : string) (port : Z) (export_type : string)
    (ignore_restore_file : bool) (user_wordlist pass_wordlist : option string)
    (output_file_name : option string) : M string :=
  let command_string := base_command service port wait_time in
  command_string ←
    (if bool_decide (service ∈ service_without_user)
     then
       logging INFO "This service doesn't need a user wordlist, removing it.";;
       mret command_string
     else
       match user_wordlist with
       | Some user_wordlist =>
           is_file ← isfile user_wordlist;
           if is_file : bool
           then mret (command_string +:+ " " +:+ Args.UserWordlist +:+ " " +:+ user_wordlist)
           else
             logging DEBUG ("Unable to find the file : " +:+ user_wordlist +:+
                            ", using it as a username");;
             mret (command_string +:+ " " +:+ Args.Username +:+ " " +:+ user_wordlist)
       | None => raise HydraNoWordlistGiven (Msg "user_wordlist is None")
       end);
  command_string ←
    match pass_wordlist with
    | Some pass_wordlist =>
        is_file ← isfile pass_wordlist;
        if is_file : bool
        then mret (command_string +:+ " " +:+ Args.PassWordlist +:+ " " +:+ pass_wordlist)
        else
          logging DEBUG ("Unable to find the file : " +:+ pass_wordlist +:+
                         ", using it as a password");;
          mret (command_string +:+ " " +:+ Args.Password +:+ " " +:+ pass_wordlist)
    | None => raise HydraNoWordlistGiven (Msg "pass_wordlist is None")
    end;
  mret (command_string +:+
        _default_string_generator threads output_file_name export_type
          ignore_restore_file).

(** The first loop of [_running_command]: warnings are logged. *)
Fixpoint log_warnings (hydra_messages : list string) : M unit :=
  match hydra_messages with
  | [] => mret tt
  | hydra_message :: rest =>
      (if Text.startswith hydra_message "[WARNING]"
       then logging WARNING hydra_message
       else mret tt);;
      log_warnings rest
  end.

(** The second loop, entered when the exit code is not zero: the first
    line that starts with the error marker is raised. *)
Fixpoint raise_first_error (hydra_messages : list string) : M unit :=
  match hydra_messages with
  | [] => mret tt
  | hydra_error :: rest =>
      (if Text.contains "only using the -p or -P option" hydra_error
       then logging WARNING
              "Service doesn't need a user wordlist. Restarting the command without it..."
       else mret tt);;
      (if Text.startswith hydra_error "[ERROR]"
       then raise HydraError (Msg hydra_error)
       else mret tt);;
      raise_first_error rest
  end.

(** [stderr.decode()] *)
Definition decode (stderr : captured) : M string :=
  match stderr with
  | Utf8 text => mret text
  | NotUtf8 => raise UnicodeDecodeError (Msg "invalid start byte")
  end.

(** The process is started with the whitespace-separated words of the
    command; once it has exited, its standard error is decoded and cut
    into lines. *)
Definition _running_command (command_string : string) : M unit :=
  logging INFO ("Running thc-hydra with following command : " +:+ command_string);;
  files ← get_fs;
  let argv := Text.split command_string in
  emit (Launch argv);;
  match popen env argv files with
  | SpawnFails => raise OSError (Msg (hd "" argv))
  | Exits exit_code stderr files' =>
      set_fs files';;
      text ← decode stderr;
      let hydra_messages := Text.split_on Text.newline text in
      log_warnings hydra_messages;;
      if (exit_code =? 0)%Z then mret tt
      else
        raise_first_error hydra_messages;;
        raise UnknownHydraError (Lines hydra_messages)
  end.

(** Lines 178-182 and 292-296, which differ in the level of the log record:
    [self.threads] takes the clamped value. *)
Definition clamp_threads (lv : level) (threads : Z) : M unit :=
  if (65 <=? threads)%Z
  then
    logging lv ("Threads given is too high, " +:+ Text.str threads +:+ ", reducing to 64.");;
    set_self_threads 64
  else set_self_threads threads.

(** Lines 175-176 and 289-290. *)
Definition check_export_type (export_type : string) : M unit :=
  if bool_decide (export_type ∈ valid_outputs) then mret tt
  else raise ValueError
         (Msg (export_type +:+ " is not a valid export type, use 'text', 'json' or 'jsonv1'")).

(** Lines 187-191 and 301-305: check if the given service is supported. *)
Definition check_service (service : string) : M unit :=
  if bool_decide (service ∈ supported_services self) then mret tt
  else if bool_decide (service ∈ unsupported_services self)
       then raise HydraUnsupportedServiceError (Msg ("Unsupported service given : " +:+ service))
       else raise HydraUnknownServiceError (Msg ("Unknown service: " +:+ service)).

Definition bruteforce (service : string) (port : port_arg)
    (user_wordlist pass_wordlist : option string) (threads : Z)
    (export_type : string) (ignore_restore_file : bool) (wait_time : Z) : M Py.dict :=
  (if user_wordlist is None then logging WARNING "No user wordlist given" else mret tt);;
  (if pass_wordlist is None then logging WARNING "No pass wordlist given" else mret tt);;
  port ← int_of_port port;
  check_export_type export_type;;
  clamp_threads INFO threads;;
  let service := lower service in
  let export_type := lower export_type in
  check_service service;;
  NamedTemporaryFile (fun tmp_file_name =>
    command_string ←
      _user_and_pass_wordlists_string_generator threads wait_time service port
        export_type ignore_restore_file user_wordlist pass_wordlist (Some tmp_file_name);
    _running_command command_string;;
    HydraParser.json2dict tmp_file_name).

Definition bruteforce_with_userpass_wordlist (service : string) (port : port_arg)
    (userpass_wordlist_path : string) (threads : Z) (export_type : string)
    (ignore_restore_file : bool) (wait_time : Z) : M Py.dict :=
  is_file ← isfile (abspath env userpass_wordlist_path);
  (if is_file : bool then mret tt else raise TypeError (Msg "Wordlist path does not exist"));;
  let userpass_wordlist_path := abspath env userpass_wordlist_path in
  port ← int_of_port port;
  check_export_type export_type;;
  clamp_threads WARNING threads;;
  let service := lower service in
  let export_type := lower export_type in
  check_service service;;
  NamedTemporaryFile (fun tmp_file_name =>
    command_string ←
      _userpass_wordlist_string_generator threads wait_time service port
        export_type ignore_restore_file userpass_wordlist_path tmp_file_name;
    _running_command command_string;;
    HydraParser.json2dict tmp_file_name).

End Hydra.

(** ** The entry points on arguments of any type *)

(** The entry points above take arguments of the annotated types.  Here
    they take any Python value, and make the [isinstance] checks of lines
    141-173 and 260-287 with the messages of [ExceptionMessages]
    ([src/errors/exceptions.py]).  A [bool] is an [int] for [isinstance], so
    the thread count and the wait time may be booleans; they are printed as
    Python prints them. *)
Module Dyn.

(** A Python value: [None], a [bool], an [int], a [str], or an object of
    another class, known by the name of its class (classes that derive from
    [str] or [int] are not represented). *)
Inductive pyval :=
  | PNone
  | PBool (b : bool)
  | PInt (n : Z)
  | PStr (s : string)
  | POther (class_name : string).

(** [type(v).__name__] *)
Definition class_name_of (v : pyval) : string :=
  match v with
  | PNone => "NoneType" | PBool _ => "bool" | PInt _ => "int" | PStr _ => "str"
  | POther c => c
  end.

(** How a class is printed in an f-string: [<class 'int'>]. *)
Definition class_repr (name : string) : string := "<class '" +:+ name +:+ "'>".

(** [ExceptionMessages.invalid_type]; [expected_type] is given as it is
    printed. *)
Definition invalid_type (param_name : string) (object_ : pyval) (expected_type : string)
    : string :=
  param_name +:+ " is " +:+ class_repr (class_name_of object_) +:+ ", expected " +:+
  expected_type.

(** What passes [isinstance(v, int)]. *)
Inductive intlike :=
  | IInt (n : Z)
  | IBool (b : bool).

(** The value of an int-like in comparisons and in [int(v)]. *)
Definition int_value (v : intlike) : Z :=
  match v with
  | IInt n => n
  | IBool b => if b then 1 else 0
  end.

(** [f"{v}"] *)
Definition format (v : intlike) : string :=
  match v with
  | IInt n => Text.str n
  | IBool b => if b then "True" else "False"
  end.

(** [if v is None: logging.warning(...)] / [else: if not isinstance(v, str):
    raise TypeError(...)] *)
Definition optional_str (param_name warning : string) (v : pyval) : M (option string) :=
  match v with
  | PNone => logging WARNING warning;; mret None
  | PStr s => mret (Some s)
  | _ => raise TypeError (Msg (invalid_type param_name v (class_repr "str")))
  end.

(** [if not isinstance(v, str): raise TypeError(...)] *)
Definition required_str (param_name : string) (v : pyval) : M string :=
  match v with
  | PStr s => mret s
  | _ => raise TypeError (Msg (invalid_type param_name v (class_repr "str")))
  end.

(** [if not isinstance(v, int): raise TypeError(...)] *)
Definition required_int (param_name : string) (v : pyval) : M intlike :=
  match v with
  | PInt n => mret (IInt n)
  | PBool b => mret (IBool b)
  | _ => raise TypeError (Msg (invalid_type param_name v (class_repr "int")))
  end.

(** [if not isinstance(v, bool): raise TypeError(...)] *)
Definition required_bool (param_name : string) (v : pyval) : M bool :=
  match v with
  | PBool b => mret b
  | _ => raise TypeError (Msg (invalid_type param_name v (class_repr "bool")))
  end.

Section Methods.

Context (self : Hydra) (env : Env).

(** The type check of the port, then [port = int(port)] with its
    [except ValueError]. *)
Definition int_of_port (port : pyval) : M Z :=
  match port with
  | PInt n => mret n
  | PBool b => mret (if b then 1 else 0)
  | PStr s =>
      match int env (PortStr s) with
      | Some n => mret n
      | None => raise ValueError
          (Msg ("The port number should be an integer, " +:+ s +:+ " was given."))
      end
  | _ => raise TypeError (Msg (invalid_type "port" port "str or int"))
  end.

Definition _default_string_generator (threads : intlike) (output_file_name : option string)
    (export_type : string) (ignore_restore_file : bool) : string :=
  let command_string := "" in
  let command_string :=
    command_string +:+ " " +:+ Args.Threads +:+ " " +:+ format threads in
  let command_string :=
    match output_file_name with
    | Some name => command_string +:+ " " +:+ Args.OutputFilename +:+ " " +:+ name
    | None => command_string
    end in
  let command_string :=
    command_string +:+ " " +:+ Args.OutputType +:+ " " +:+ export_type in
  let command_string :=
    if ignore_restore_file
    then command_string +:+ " " +:+ Args.IgnoreRestoreFile
    else command_string in
  command_string.

Definition base_command (service : string) (port : Z) (wait_time : intlike) : string :=
  let hydra_target := service +:+ "://" +:+ ip self +:+ ":" +:+ Text.str port in
  hydra_path self +:+ " " +:+ hydra_target +:+ " -w " +:+ format wait_time.

Definition _userpass_wordlist_string_generator (threads wait_time : intlike)
    (service : string) (port : Z) (export_type : string)
    (ignore_restore_file : bool) (userpass_wordlist : string)
    (output_file_name : string) : M string :=
  let command_string := base_command service port wait_time in
  is_file ← isfile userpass_wordlist;
  command_string ←
    (if is_file : bool
     then mret (command_string +:+ " " +:+ Args.UserPassWordlist +:+ " " +:+ userpass_wordlist)
     else raise HydraFileDoesNotExist (Msg "Unable to find the file"));
  mret (command_string +:+
        _default_string_generator threads (Some output_file_name) export_type
          ignore_restore_file).

Definition _user_and_pass_wordlists_string_generator (threads wait_time : intlike)
    (service : string) (port : Z) (export_type : string)
    (ignore_restore_file : bool) (user_wordlist pass_wordlist : option string)
    (output_file_name : option string) : M string :=
  let command_string := base_command service port wait_time in
  command_string ←
    (if bool_decide (service ∈ service_without_user)
     then
       logging INFO "This service doesn't need a user wordlist, removing it.";;
       mret command_string
     else
       match user_wordlist with
       | Some user_wordlist =>
           is_file ← isfile user_wordlist;
           if is_file : bool
           then mret (command_string +:+ " " +:+ Args.UserWordlist +:+ " " +:+ user_wordlist)
           else
             logging DEBUG ("Unable to find the file : " +:+ user_wordlist +:+
                            ", using it as a username");;
             mret (command_string +:+ " " +:+ Args.Username +:+ " " +:+ user_wordlist)
       | None => raise HydraNoWordlistGiven (Msg "user_wordlist is None")
       end);
  command_string ←
    match pass_wordlist with
    | Some pass_wordlist =>
        is_file ← isfile pass_wordlist;
        if is_file : bool
        then mret (command_string +:+ " " +:+ Args.PassWordlist +:+ " " +:+ pass_wordlist)
        else
          logging DEBUG ("Unable to find the file : " +:+ pass_wordlist +:+
                         ", using it as a password");;
          mret (command_string +:+ " " +:+ Args.Password +:+ " " +:+ pass_wordlist)
    | None => raise HydraNoWordlistGiven (Msg "pass_wordlist is None")
    end;
  mret (command_string +:+
        _default_string_generator threads output_file_name export_type
          ignore_restore_file).

(** Lines 178-182 and 292-296; [self.threads] holds the value of the count. *)
Definition clamp_threads (lv : level) (threads : intlike) : M unit :=
  if (65 <=? int_value threads)%Z
  then
    logging lv ("Threads given is too high, " +:+ format threads +:+ ", reducing to 64.");;
    set_self_threads 64
  else set_self_threads (int_value threads).

Definition bruteforce (service port user_wordlist pass_wordlist threads export_type
    ignore_restore_file wait_time : pyval) : M Py.dict :=
  user_wordlist ← optional_str "user_wordlist" "No user wordlist given" user_wordlist;
  pass_wordlist ← optional_str "pass_wordlist" "No pass wordlist given" pass_wordlist;
  service ← required_str "service" service;
  port ← int_of_port port;
  threads ← required_int "threads" threads;
  export_type ← required_str "export_type" export_type;
  ignore_restore_file ← required_bool "ignore_restore_file" ignore_restore_file;
  wait_time ← required_int "wait_time" wait_time;
  check_export_type export_type;;
  clamp_threads INFO threads;;
  let service := lower env service in
  let export_type := lower env export_type in
  check_service self service;;
  NamedTemporaryFile env (fun tmp_file_name =>
    command_string ←
      _user_and_pass_wordlists_string_generator threads wait_time service port
        export_type ignore_restore_file user_wordlist pass_wordlist (Some tmp_file_name);
    _running_command env command_string;;
    HydraParser.json2dict tmp_file_name).

Definition bruteforce_with_userpass_wordlist (service port userpass_wordlist_path
    threads export_type ignore_restore_file wait_time : pyval) : M Py.dict :=
  userpass_wordlist_path ← required_str "userpass_wordlist_path" userpass_wordlist_path;
  is_file ← isfile (abspath env userpass_wordlist_path);
  (if is_file : bool then mret tt else raise TypeError (Msg "Wordlist path does not exist"));;
  let userpass_wordlist_path := abspath env userpass_wordlist_path in
  service ← required_str "service" service;
  port ← int_of_port port;
  threads ← required_int "threads" threads;
  export_type ← required_str "export_type" export_type;
  ignore_restore_file ← required_bool "ignore_restore_file" ignore_restore_file;
  wait_time ← required_int "wait_time" wait_time;
  check_export_type export_type;;
  clamp_threads WARNING threads;;
  let service := lower env service in
  let export_type := lower env export_type in
  check_service self service;;
  NamedTemporaryFile env (fun tmp_file_name =>
    command_string ←
      _userpass_wordlist_string_generator threads wait_time service port
        export_type ignore_restore_file userpass_wordlist_path tmp_file_name;
    _running_command env command_string;;
    HydraParser.json2dict tmp_file_name).

End Methods.

(** The typed arguments as Python values. *)
Definition of_port (port : port_arg) : pyval :=
  match port with
  | PortInt n => PInt n
  | PortStr s => PStr s
  end.

Definition of_optional (v : option string) : pyval :=
  match v with
  | Some s => PStr s
  | None => PNone
  end.

End Dyn.

(** ** A concrete world, used to run the model *)

Module Demo.

Definition hydra : Hydra := {|
  ip := "10.0.0.5";
  hydra_path := "/usr/bin/hydra";
  supported_services := ["ssh"; "ftp"; "redis"; "mysql"];
  unsupported_services := ["http-form"; "smb2"];
|}.

Definition found : json :=
  JObj [("results",
         JArr [JObj [("login", JStr "a"); ("password", JStr "1")];
               JObj [("login", JStr "b"); ("password", JStr "2")]])].

(** The process writes [out] to the file named after [-o], and exits with
    [code] after printing [err]. *)
Fixpoint output_file (argv : list string) : option string :=
  match argv with
  | "-o" :: name :: _ => Some name
  | _ :: rest => output_file rest
  | [] => None
  end.

Definition process (code : Z) (err : captured) (out : file)
    (argv : list string) (files : gmap string file) : spawned :=
  Exits code err
    (match output_file argv with
     | Some name => <[name := out]> files
     | None => files
     end).

(** An interpreter in which closing a temporary file that is gone raises,
    with a process that prints text. *)
Definition env (code : Z) (err : string) (out : file) : Env := {|
  tmp_name := "/tmp/tmpk3x9";
  abspath := fun p => if Text.startswith p "/" then p else "/home/user/" +:+ p;
  popen := process code (Utf8 err) out;
  unicode_lower := fun s => s;
  unicode_int := fun _ => None;
  unlink_missing_raises := true;
|}.

(** The same, with a process whose standard error is not UTF-8. *)
Definition garbled (code : Z) (out : file) : Env := {|
  tmp_name := "/tmp/tmpk3x9";
  abspath := fun p => if Text.startswith p "/" then p else "/home/user/" +:+ p;
  popen := process code NotUtf8 out;
  unicode_lower := fun s => s;
  unicode_int := fun _ => None;
  unlink_missing_raises := true;
|}.

Definition disk : gmap string file :=
  {[ "users.txt" := Malformed; "pass.txt" := Malformed;
     "/home/user/combo.txt" := Malformed ]}.

Definition start : state := State disk 4 [].

End Demo.

(** ** Vocabulary of the properties *)

Section Vocabulary.

Import Py HydraParser.

(** What [json2dict] computes from the decoded document, before its
    [except KeyError]. *)
Definition credentials_of (hydra_output : json) : result dict :=
  match field_of_results hydra_output "login" with
  | Raise e => Raise e
  | Ok login =>
      match field_of_results hydra_output "password" with
      | Raise e => Raise e
      | Ok password => dict_of (zip login password)
      end
  end.

Definition parse_failure (json_path : string) : exn :=
  Exn HydraDecodeError
    (Msg ("Couldn't parse any Hydra information from the json file: " +:+ json_path)).

Definition open_failure (json_path : string) : exn :=
  Exn HydraDecodeError
    (Msg ("Can't open the given file : " +:+ json_path +:+
          ". Please make sure it is a JSON file.")).

(** One entry of the results array of a well-formed output file: an object
    with a string under "login" and a value under "password". *)
Definition credential (entry : json) (cred : string * json) : Prop :=
  exists fields, entry = JObj fields /\
    assoc "login" fields = Some (JStr cred.1) /\
    assoc "password" fields = Some cred.2.

Definition is_object (v : json) : bool :=
  match v with JObj _ => true | _ => false end.

Definition has_key (k : string) (v : json) : bool :=
  match v with
  | JObj fields => bool_decide (is_Some (assoc k fields))
  | _ => false
  end.

(** A decoded document of the expected layout, an object whose entries are
    objects, in which an expected key is absent: no "results", or an entry
    of the results array without "login" or without "password". *)
Definition lacks_expected_key (v : json) : bool :=
  match v with
  | JObj o =>
      match assoc "results" o with
      | None => true
      | Some (JArr entries) =>
          forallb is_object entries &&
          existsb (fun e => negb (has_key "login" e && has_key "password" e)) entries
      | Some _ => false
      end
  | _ => false
  end.

(** The events of a call that took the world from [st] to [st']. *)
Definition during (st st' : state) : list event :=
  drop (length (trace st)) (trace st').

(** The argument vectors of the processes started, in order. *)
Fixpoint launches (t : list event) : list (list string) :=
  match t with
  | [] => []
  | Launch argv :: t' => argv :: launches t'
  | _ :: t' => launches t'
  end.

Definition is_log (e : event) : bool :=
  match e with Log _ _ => true | _ => false end.

(** The word that follows [flag] on a command line. *)
Fixpoint flag_value (flag : string) (argv : list string) : option string :=
  match argv with
  | f :: (v :: _) as rest => if String.eqb f flag then Some v else flag_value flag rest
  | _ => None
  end.

(** Every event a computation adds to the trace satisfies [p]. *)
Definition emits_only {A} (p : event -> bool) (m : M A) : Prop :=
  forall st, exists t, trace (m st).2 = (trace st ++ t)%list /\ forallb p t = true.

(** Every exception a computation ends with has a class that satisfies [ok]. *)
Definition raises_only {A} (ok : exn_class -> bool) (m : M A) : Prop :=
  forall st e, (m st).1 = Raise e -> ok (cls e) = true.

(** The state after the warnings for absent wordlists (lines 141-148). *)
Definition warned (user_wordlist pass_wordlist : option string) (st : state) : state :=
  let st := if user_wordlist is None
            then record (Log WARNING (Msg "No user wordlist given")) st else st in
  if pass_wordlist is None
  then record (Log WARNING (Msg "No pass wordlist given")) st else st.

(** The state after the thread count was stored on the instance. *)
Definition clamped (lv : level) (threads : Z) (st : state) : state :=
  if (65 <=? threads)%Z
  then State (fs st) 64
         (trace st ++ [Log lv (Msg ("Threads given is too high, " +:+ Text.str threads +:+
                                    ", reducing to 64."))])
  else State (fs st) threads (trace st).

Definition is_error (m : string) : bool := Text.startswith m "[ERROR]".

(** The first captured line that starts with the error marker. *)
Definition first_error (hydra_messages : list string) : option string :=
  List.find is_error hydra_messages.

Definition is_warning (m : string) : bool := Text.startswith m "[WARNING]".

(** The log records of the captured lines that start with the warning
    marker, in order. *)
Definition warning_records (hydra_messages : list string) : list event :=
  map (fun m => Log WARNING (Msg m)) (List.filter is_warning hydra_messages).

(** Two outcomes of the same kind: both a return, or both an exception of
    the same class, with the same message when that class is [HydraError]. *)
Definition same_outcome {A} (r r' : result A) : Prop :=
  match r, r' with
  | Ok _, Ok _ => True
  | Raise e, Raise e' => cls e = cls e' /\ (cls e = HydraError -> e = e')
  | _, _ => False
  end.

Definition is_launch (e : event) : bool :=
  match e with Launch _ => true | _ => false end.

(** The words a credential parameter adds to the command: the wordlist flag
    when the value names an existing file, the literal flag otherwise. *)
Definition credential_words (files : gmap string file)
    (wordlist_flag literal_flag value : string) : string :=
  " " +:+ (if is_file files value then wordlist_flag else literal_flag) +:+ " " +:+ value.

(** The outcome of [_user_and_pass_wordlists_string_generator], as a
    function of the files on disk. *)
Definition dual_command (self : Hydra) (files : gmap string file) (threads wait_time : Z)
    (service : string) (port : Z) (export_type : string) (ignore_restore_file : bool)
    (user_wordlist pass_wordlist output_file_name : option string) : result string :=
  let base := base_command self service port wait_time in
  let suffix :=
    _default_string_generator threads output_file_name export_type ignore_restore_file in
  let with_user :=
    if bool_decide (service ∈ service_without_user) then Ok base
    else match user_wordlist with
         | Some user => Ok (base +:+ credential_words files "-L" "-l" user)
         | None => Raise (Exn HydraNoWordlistGiven (Msg "user_wordlist is None"))
         end in
  match with_user, pass_wordlist with
  | Raise e, _ => Raise e
  | Ok _, None => Raise (Exn HydraNoWordlistGiven (Msg "pass_wordlist is None"))
  | Ok command_string, Some pass =>
      Ok ((command_string +:+ credential_words files "-P" "-p" pass) +:+ suffix)
  end.

(** The classes raised by the two command builders. *)
Definition is_builder_error (c : exn_class) : bool :=
  bool_decide (c = HydraNoWordlistGiven) || bool_decide (c = HydraFileDoesNotExist).

End Vocabulary.

(** ** Vocabulary of the further properties *)

Section MoreVocabulary.

Import Py HydraParser.

(** What [json2dict] returns and logs, by what is on disk at its path. *)
Definition parse_result (json_path : string) (f : option file) : result dict * list event :=
  match f with
  | None => (Raise (Exn OSError (Msg json_path)), [])
  | Some Undecodable => (Raise (Exn UnicodeDecodeError (Msg "invalid start byte")), [])
  | Some Malformed =>
      (Raise (open_failure json_path), [Log CRITICAL (arg (open_failure json_path))])
  | Some (Document v) =>
      match credentials_of v with
      | Ok d => (Ok d, [])
      | Raise e =>
          if subclass (cls e) KeyError
          then (Raise (parse_failure json_path),
                [Log CRITICAL (arg (parse_failure json_path))])
          else (Raise e, [])
      end
  | Some HugeNumber =>
      (Raise (Exn ValueError (Msg "Exceeds the limit for integer string conversion")), [])
  | Some TooDeep =>
      (Raise (Exn RecursionError (Msg "maximum recursion depth exceeded")), [])
  end.

(** One entry of a results array: an object with a value under "login" and
    a value under "password". *)
Definition login_and_password (entry : json) (kv : json * json) : Prop :=
  exists fields, entry = JObj fields /\
    assoc "login" fields = Some kv.1 /\ assoc "password" fields = Some kv.2.

(** The distinct elements of a list, each at its first occurrence. *)
Definition add_key (keys : list string) (k : string) : list string :=
  if bool_decide (k ∈ keys) then keys else (keys ++ [k])%list.

Definition first_occurrences (l : list string) : list string :=
  fold_left add_key l [].

(** Some character of [s] satisfies [p]. *)
Fixpoint any_char (p : ascii -> bool) (s : string) : bool :=
  match s with
  | EmptyString => false
  | String c s' => p c || any_char p s'
  end.

(** What [_running_command] ends with, by the exit code and the captured
    text. *)
Definition tool_outcome (exit_code : Z) (stderr : captured) : result unit :=
  match stderr with
  | NotUtf8 => Raise (Exn UnicodeDecodeError (Msg "invalid start byte"))
  | Utf8 text =>
      if (exit_code =? 0)%Z then Ok tt
      else match first_error (Text.split_on Text.newline text) with
           | Some l => Raise (Exn HydraError (Msg l))
           | None => Raise (Exn UnknownHydraError (Lines (Text.split_on Text.newline text)))
           end
  end.

(** The outcome of [_userpass_wordlist_string_generator], as a function of
    the files on disk. *)
Definition combined_command (self : Hydra) (files : gmap string file)
    (threads wait_time : Z) (service : string) (port : Z) (export_type : string)
    (ignore_restore_file : bool) (userpass_wordlist output_file_name : string) :
    result string :=
  if is_file files userpass_wordlist
  then Ok ((base_command self service port wait_time +:+
            " " +:+ "-C" +:+ " " +:+ userpass_wordlist) +:+
           _default_string_generator threads (Some output_file_name) export_type
             ignore_restore_file)
  else Raise (Exn HydraFileDoesNotExist (Msg "Unable to find the file")).

(** The port as [int(port)] gives it, for a value that passes the type
    check of the port. *)
Definition dyn_port (env : Env) (port : Dyn.pyval) : option Z :=
  match port with
  | Dyn.PInt n => Some n
  | Dyn.PBool b => Some (if b then 1 else 0)
  | Dyn.PStr s => int env (PortStr s)
  | _ => None
  end.

Definition is_none_or_str (v : Dyn.pyval) : bool :=
  match v with Dyn.PNone | Dyn.PStr _ => true | _ => false end.

Definition is_str (v : Dyn.pyval) : bool :=
  match v with Dyn.PStr _ => true | _ => false end.

(** [isinstance(v, int)]: a [bool] is an [int]. *)
Definition is_int (v : Dyn.pyval) : bool :=
  match v with Dyn.PInt _ | Dyn.PBool _ => true | _ => false end.

Definition is_bool (v : Dyn.pyval) : bool :=
  match v with Dyn.PBool _ => true | _ => false end.

Definition of_intlike (v : Dyn.intlike) : Dyn.pyval :=
  match v with
  | Dyn.IInt n => Dyn.PInt n
  | Dyn.IBool b => Dyn.PBool b
  end.

(** The arguments of the records logged at critical level, oldest first. *)
Fixpoint criticals (t : list event) : list payload :=
  match t with
  | [] => []
  | Log CRITICAL m :: t' => m :: criticals t'
  | _ :: t' => criticals t'
  end.

(** The critical records of a computation that logs the exception of
    [errors.py] it ends with, and nothing else at that level. *)
Definition critical_of {A} (r : result A) : list payload :=
  match r with
  | Raise e => if is_hydra_error (cls e) then [arg e] else []
  | Ok _ => []
  end.

Definition logs_its_error {A} (m : M A) : Prop :=
  forall st, exists t,
    trace (m st).2 = (trace st ++ t)%list /\ criticals t = critical_of (m st).1.

(** The same up to the closing of the temporary file: the critical records
    are those of the outcome [r] the computation had before the file was
    closed, and the computation ends with [r], or, on an interpreter that
    raises when the file is gone, with the [OSError] of the removal. *)
Definition logs_its_error_until_closed {A} (env : Env) (m : M A) : Prop :=
  forall st, exists t r,
    trace (m st).2 = (trace st ++ t)%list /\ criticals t = critical_of r /\
    ((m st).1 = r \/
     unlink_missing_raises env = true /\
     (m st).1 = Raise (Exn OSError (Msg (tmp_name env)))).

(** What happens while the temporary file exists: records are logged and
    the process is started. *)
Definition is_inside (e : event) : bool := is_log e || is_launch e.

(** A computation whose result, files and events depend on the files it
    starts from, and neither on [self.threads] nor on what was logged
    before. *)
Definition reads_files_only {A} (m : M A) : Prop :=
  forall st st', fs st = fs st' ->
    (m st).1 = (m st').1 /\ fs (m st).2 = fs (m st').2 /\
    exists t, trace (m st).2 = (trace st ++ t)%list /\
              trace (m st').2 = (trace st' ++ t)%list.

End MoreVocabulary.

(** A process that writes its findings to the temporary file and touches
    nothing else. *)
Module Tidy.

Definition env : Env := {|
  tmp_name := "/tmp/tmpk3x9";
  abspath := fun p => if Text.startswith p "/" then p else "/home/user/" +:+ p;
  popen := fun _ files =>
    Exits 0 (Utf8 "") (<["/tmp/tmpk3x9" := Document Demo.found]> files);
  unicode_lower := fun s => s;
  unicode_int := fun _ => None;
  unlink_missing_raises := true;
|}.

End Tidy.

(** * Properties *)

Open Scope list_scope.

(** ** The model on small inputs *)

Example split_words : Text.split "  hydra  ssh://h:22 -t 4 " = ["hydra"; "ssh://h:22"; "-t"; "4"].
Proof. reflexivity. Qed.

Example split_lines :
  Text.split_on Text.newline ("a" +:+ String Text.newline ("b" +:+ String Text.newline ""))
  = ["a"; "b"; ""].
Proof. reflexivity. Qed.

Example int_of_padded_text : Text.int_of_str " 22 " = Some 22.
Proof. reflexivity. Qed.

Example int_of_grouped_digits : Text.int_of_str "-1_000" = Some (-1000).
Proof. reflexivity. Qed.

Example int_of_other_text : Text.int_of_str "22x" = None /\ Text.int_of_str "" = None.
Proof. split; reflexivity. Qed.

Example lower_mixed_case : Text.lower "SSH" = "ssh" /\ Text.lower "Http-Get" = "http-get".
Proof. split; reflexivity. Qed.

Example str_of_int : Text.str 64 = "64" /\ Text.str (-5) = "-5" /\ Text.str 0 = "0".
Proof. repeat split; reflexivity. Qed.

(** A later duplicate takes the place and the key of the first one. *)
Example dict_of_duplicate_login :
  Py.dict_of [(JStr "a", JStr "1"); (JStr "b", JStr "2"); (JStr "a", JStr "3")]
  = Ok [(JStr "a", JStr "3"); (JStr "b", JStr "2")].
Proof. reflexivity. Qed.

Example dict_of_unhashable_key :
  Py.dict_of [(JArr [], JStr "1")] = Raise (Exn TypeError (Msg "unhashable type: 'list'")).
Proof. reflexivity. Qed.

(** ** Python values *)

Section PyFacts.

Import Py.

Lemma key_eqb_trans_l (a b c : json) :
  key_eqb a b = true -> key_eqb a c = key_eqb b c.
Proof.
  destruct a as [|x|m|s| |], b as [|y|n|t| |]; simpl; try discriminate;
    destruct c as [|z|k|u| |]; simpl; try reflexivity; intros H.
  all: try (apply Bool.eqb_prop in H; subst; reflexivity).
  all: try (apply Z.eqb_eq in H; subst).
  all: try (apply String.eqb_eq in H; subst; reflexivity).
  all: try reflexivity.
  all: try (destruct x, z; reflexivity).
  all: try (destruct x; reflexivity).
  all: try (destruct y, z; reflexivity).
  all: try (destruct y; reflexivity).
  all: apply Z.eqb_sym.
Qed.

Lemma key_eqb_trans_r (a b c : json) :
  key_eqb a c = true -> key_eqb b c = true -> key_eqb a b = true.
Proof.
  destruct a as [|x|m|s| |], c as [|z|k|u| |]; simpl; try discriminate;
    destruct b as [|y|n|t| |]; simpl; try discriminate; intros H1 H2.
  all: try reflexivity.
  all: try (apply Bool.eqb_prop in H1; apply Bool.eqb_prop in H2; subst;
            apply Bool.eqb_reflx).
  all: try (apply String.eqb_eq in H1; apply String.eqb_eq in H2; subst;
            apply String.eqb_refl).
  all: try (apply Bool.eqb_prop in H1; subst).
  all: try (apply Bool.eqb_prop in H2; subst).
  all: try (apply Z.eqb_eq in H1; subst).
  all: try (apply Z.eqb_eq in H2; subst).
  all: try (apply Z.eqb_refl).
  all: try (destruct x, y; try reflexivity; discriminate).
  all: try (destruct x, z; try reflexivity; discriminate).
  all: try (destruct y, z; try reflexivity; discriminate).
  all: try (destruct x; reflexivity).
  all: try (destruct y; reflexivity).
Qed.

(** Reading a key after an assignment. *)
Lemma getkey_setitem (k k' v : json) (d : dict) :
  getkey k (setitem k' v d) = if key_eqb k' k then Some v else getkey k d.
Proof.
  induction d as [|[k0 v0] d IH]; simpl.
  - reflexivity.
  - destruct (key_eqb k0 k') eqn:E; simpl.
    + rewrite (key_eqb_trans_l _ _ k E). destruct (key_eqb k' k); reflexivity.
    + rewrite IH. destruct (key_eqb k' k) eqn:E'; [|reflexivity].
      destruct (key_eqb k0 k) eqn:E''; [|reflexivity].
      rewrite (key_eqb_trans_r _ _ _ E'' E') in E. discriminate.
Qed.

Lemma key_eqb_str (s t : string) : key_eqb (JStr s) (JStr t) = bool_decide (s = t).
Proof.
  simpl. destruct (String.eqb_spec s t); symmetry.
  - by apply bool_decide_eq_true.
  - by apply bool_decide_eq_false.
Qed.

(** [dict(...)] over string keys, read as a finite map: the item that
    comes last in the sequence is the one that is kept. *)
Lemma dict_from_str (lp : list (string * json)) (d0 : dict) :
  exists d, dict_from d0 (zip (JStr <$> lp.*1) lp.*2) = Ok d /\
    forall l, getkey (JStr l) d =
      match (list_to_map (reverse lp) : gmap string json) !! l with
      | Some p => Some p
      | None => getkey (JStr l) d0
      end.
Proof.
  revert d0. induction lp as [|[l0 p0] lp IH]; intros d0; simpl.
  - exists d0. split; [reflexivity|]. intros l. by rewrite lookup_empty.
  - destruct (IH (setitem (JStr l0) p0 d0)) as (d & Hd & Hget).
    exists d. split; [exact Hd|]. intros l. rewrite Hget.
    rewrite reverse_cons, list_to_map_app, lookup_union.
    destruct (list_to_map (reverse lp) !! l) as [p|] eqn:E; simpl.
    + by rewrite union_Some_l.
    + rewrite left_id by apply _. rewrite getkey_setitem, key_eqb_str.
      simpl. case_bool_decide as Heq.
      * subst. by rewrite lookup_insert_eq.
      * by rewrite lookup_insert_ne, lookup_empty.
Qed.

End PyFacts.

(** ** The parser *)

Section ParserFacts.

Import Py HydraParser.

Lemma json2dict_document (json_path : string) (st : state) (v : json) :
  fs st !! json_path = Some (Document v) ->
  json2dict json_path st =
    match credentials_of v with
    | Ok d => (Ok d, st)
    | Raise e =>
        if subclass (cls e) KeyError
        then (Raise (parse_failure json_path),
              record (Log CRITICAL (arg (parse_failure json_path))) st)
        else (Raise e, st)
    end.
Proof.
  intros Hfile.
  unfold json2dict, json_opener, json_load, try_except, get_fs, credentials_of,
    mbind, M_bind, lift. simpl.
  rewrite Hfile. simpl.
  destruct (field_of_results v "login") as [login|e]; simpl; [|reflexivity].
  destruct (field_of_results v "password") as [password|e]; simpl; [|reflexivity].
  destruct (dict_of (zip login password)) as [d|e]; reflexivity.
Qed.

Lemma json2dict_malformed (json_path : string) (st : state) :
  fs st !! json_path = Some Malformed ->
  json2dict json_path st =
    (Raise (open_failure json_path),
     record (Log CRITICAL (arg (open_failure json_path))) st).
Proof.
  intros Hfile.
  unfold json2dict, json_opener, json_load, try_except, get_fs, mbind, M_bind.
  simpl. rewrite Hfile. reflexivity.
Qed.

Lemma comprehension_login (entries : list json) (creds : list (string * json)) :
  Forall2 credential entries creds ->
  comprehension (fun x => getitem x "login") entries = Ok (JStr <$> creds.*1).
Proof.
  induction 1 as [|entry cred entries creds (fields & -> & Hl & Hp) _ IH]; simpl.
  - reflexivity.
  - rewrite Hl, IH. reflexivity.
Qed.

Lemma comprehension_password (entries : list json) (creds : list (string * json)) :
  Forall2 credential entries creds ->
  comprehension (fun x => getitem x "password") entries = Ok (creds.*2).
Proof.
  induction 1 as [|entry cred entries creds (fields & -> & Hl & Hp) _ IH]; simpl.
  - reflexivity.
  - rewrite Hp, IH. reflexivity.
Qed.

Lemma lookup_last_wins (before after : list (string * json)) (l : string) (p : json) :
  l ∉ after.*1 ->
  (list_to_map (reverse (before ++ (l, p) :: after)) : gmap string json) !! l = Some p.
Proof.
  intros Hafter.
  rewrite reverse_app, reverse_cons, <- app_assoc, list_to_map_app, lookup_union.
  rewrite (not_elem_of_list_to_map_1 (M := gmap string)).
  - simpl. rewrite lookup_insert_eq. reflexivity.
  - rewrite fmap_reverse, elem_of_reverse. exact Hafter.
Qed.

Lemma comprehension_objects (k : string) (entries : list json) :
  forallb is_object entries = true ->
  if forallb (has_key k) entries
  then exists xs, comprehension (fun x => getitem x k) entries = Ok xs
  else comprehension (fun x => getitem x k) entries = Raise (Exn KeyError (Msg k)).
Proof.
  induction entries as [|e entries IH]; simpl.
  - intros _. by exists [].
  - destruct e as [| | | | |fields]; simpl; try discriminate. intros Hobj.
    specialize (IH Hobj).
    destruct (assoc k fields) as [x|] eqn:E; simpl; [|reflexivity].
    rewrite ?bool_decide_eq_true_2 by eauto. simpl.
    destruct (forallb (has_key k) entries).
    + destruct IH as [xs ->]. by eexists.
    + by rewrite IH.
Qed.

Lemma credentials_of_lacking (v : json) :
  lacks_expected_key v = true ->
  exists k, credentials_of v = Raise (Exn KeyError (Msg k)).
Proof.
  destruct v as [| | | | |o]; simpl; try discriminate.
  unfold credentials_of, field_of_results. simpl.
  destruct (assoc "results" o) as [[| | | |entries|]|]; try discriminate.
  - intros [Hobj Hex]%andb_true_iff. simpl.
    pose proof (comprehension_objects "login" entries Hobj) as Hl.
    pose proof (comprehension_objects "password" entries Hobj) as Hp.
    destruct (forallb (has_key "login") entries) eqn:El.
    + destruct Hl as [ls ->].
      destruct (forallb (has_key "password") entries) eqn:Ep.
      * exfalso. apply existsb_exists in Hex as (e & Hin & Hneg).
        rewrite forallb_forall in El, Ep.
        rewrite (El e Hin), (Ep e Hin) in Hneg. discriminate.
      * rewrite Hp. by eexists.
    + rewrite Hl. by eexists.
  - intros _. by eexists.
Qed.

(** C3. For every well-formed output file, a JSON object whose "results"
    array holds entries that each carry a "login" string and a "password",
    [json2dict] returns, without touching the world, the dictionary that
    [dict(zip(login, password))] builds from the two sequences in order;
    read by login it holds, for each login, the password of the last entry
    with that login, so a later duplicate overwrites an earlier one. *)
Theorem C3_json2dict_zips_logins_with_passwords
    (json_path : string) (st : state) (o : list (string * json))
    (entries : list json) (creds : list (string * json)) :
  fs st !! json_path = Some (Document (JObj o)) ->
  assoc "results" o = Some (JArr entries) ->
  Forall2 credential entries creds ->
  exists d,
    json2dict json_path st = (Ok d, st) /\
    dict_of (zip (JStr <$> creds.*1) creds.*2) = Ok d /\
    (forall l, getkey (JStr l) d = (list_to_map (reverse creds) : gmap string json) !! l) /\
    (forall (before after : list (string * json)) (l : string) (p : json),
        creds = (before ++ (l, p) :: after)%list -> l ∉ after.*1 ->
        getkey (JStr l) d = Some p).
Proof.
  intros Hfile Hres Hcreds.
  destruct (dict_from_str creds []) as (d & Hd & Hget).
  assert (Hmap : forall l,
    getkey (JStr l) d = (list_to_map (reverse creds) : gmap string json) !! l).
  { intros l. rewrite Hget. by destruct (list_to_map (reverse creds) !! l). }
  exists d. split; [|split; [exact Hd|split; [exact Hmap|]]].
  - rewrite (json2dict_document _ _ _ Hfile).
    unfold credentials_of, field_of_results. simpl. rewrite Hres. simpl.
    rewrite (comprehension_login _ _ Hcreds), (comprehension_password _ _ Hcreds).
    unfold dict_of. rewrite Hd. reflexivity.
  - intros before after l p -> Hafter. rewrite Hmap.
    by apply lookup_last_wins.
Qed.

(** The output file of the specification's example:
    [{"results":[{"login":"a","password":"1"},{"login":"b","password":"2"}]}]
    yields [{"a":"1","b":"2"}]. *)
Lemma C3_example_two_entries :
  json2dict "/tmp/out" (State {[ "/tmp/out" := Document Demo.found ]} 4 [])
  = (Ok [(JStr "a", JStr "1"); (JStr "b", JStr "2")],
     State {[ "/tmp/out" := Document Demo.found ]} 4 []).
Proof.
  destruct (C3_json2dict_zips_logins_with_passwords "/tmp/out"
              (State {[ "/tmp/out" := Document Demo.found ]} 4 [])
              [("results",
                JArr [JObj [("login", JStr "a"); ("password", JStr "1")];
                      JObj [("login", JStr "b"); ("password", JStr "2")]])]
              [JObj [("login", JStr "a"); ("password", JStr "1")];
               JObj [("login", JStr "b"); ("password", JStr "2")]]
              [("a", JStr "1"); ("b", JStr "2")])
    as (d & Hrun & Hd & _).
  - reflexivity.
  - reflexivity.
  - repeat constructor; eexists; repeat split; reflexivity.
  - rewrite Hrun. vm_compute in Hd. injection Hd as <-. reflexivity.
Defined.

(** C4, as the code has it. When the file holds text that is not JSON,
    [json2dict] fails with [HydraDecodeError] and a message that names the
    path; when the file decodes to an object whose entries are objects and
    an expected key is absent (no "results", or an entry of the results
    array without "login" or "password"), it fails with [HydraDecodeError]
    too.  Both failures are logged as critical. *)
Theorem C4_decode_error_for_bad_text_and_missing_keys
    (json_path : string) (st : state) :
  (fs st !! json_path = Some Malformed ->
   json2dict json_path st =
     (Raise (Exn HydraDecodeError
               (Msg ("Can't open the given file : " +:+ json_path +:+
                     ". Please make sure it is a JSON file."))),
      record (Log CRITICAL (arg (open_failure json_path))) st)) /\
  (forall v,
   fs st !! json_path = Some (Document v) ->
   lacks_expected_key v = true ->
   json2dict json_path st =
     (Raise (Exn HydraDecodeError
               (Msg ("Couldn't parse any Hydra information from the json file: "
                     +:+ json_path))),
      record (Log CRITICAL (arg (parse_failure json_path))) st)).
Proof.
  split.
  - apply json2dict_malformed.
  - intros v Hfile Hlack. rewrite (json2dict_document _ _ _ Hfile).
    destruct (credentials_of_lacking v Hlack) as [k ->]. reflexivity.
Qed.

(** A results array whose first entry is an object without "password" and
    whose second entry is a number: the subscript of the number raises
    [TypeError] in the first comprehension, which [except KeyError] does
    not catch, so the failure is not a [HydraDecodeError]. *)
Lemma C4_counterexample_entry_not_an_object :
  let doc := JObj [("results", JArr [JObj [("login", JStr "a")]; JInt 1])] in
  let st := State {[ "/tmp/out" := Document doc ]} 4 [] in
  json2dict "/tmp/out" st
    = (Raise (Exn TypeError (Msg "'int' object is not subscriptable")), st) /\
  (forall m, (json2dict "/tmp/out" st).1 <> Raise (Exn HydraDecodeError m)).
Proof.
  split; [reflexivity|]. intros m. vm_compute. discriminate.
Qed.

Lemma C4_decode_error_witness :
  json2dict "/tmp/out" (State {[ "/tmp/out" := Malformed ]} 4 [])
    = (Raise (Exn HydraDecodeError
                (Msg "Can't open the given file : /tmp/out. Please make sure it is a JSON file.")),
       State {[ "/tmp/out" := Malformed ]} 4
         [Log CRITICAL
            (Msg "Can't open the given file : /tmp/out. Please make sure it is a JSON file.")]) /\
  json2dict "/tmp/out"
      (State {[ "/tmp/out" := Document (JObj [("results", JArr [JObj [("login", JStr "a")]])]) ]}
             4 [])
    = (Raise (Exn HydraDecodeError
                (Msg "Couldn't parse any Hydra information from the json file: /tmp/out")),
       State {[ "/tmp/out" := Document (JObj [("results", JArr [JObj [("login", JStr "a")]])]) ]}
         4
         [Log CRITICAL
            (Msg "Couldn't parse any Hydra information from the json file: /tmp/out")]).
Proof.
  split.
  - exact (proj1 (C4_decode_error_for_bad_text_and_missing_keys "/tmp/out"
                    (State {[ "/tmp/out" := Malformed ]} 4 []))
             eq_refl).
  - exact (proj2 (C4_decode_error_for_bad_text_and_missing_keys "/tmp/out"
                    (State {[ "/tmp/out" :=
                        Document (JObj [("results", JArr [JObj [("login", JStr "a")]])]) ]}
                       4 []))
             (JObj [("results", JArr [JObj [("login", JStr "a")]])])
             eq_refl eq_refl).
Defined.

End ParserFacts.

(** ** Computations and their traces *)

(** Unfolds the plumbing of a computation, so that it runs. *)
Ltac exec :=
  unfold mbind, M_bind, mret, M_ret, logging, emit, raise, record, lift, isfile,
    get_fs, set_fs, set_self_threads;
  simpl.

Section MonadFacts.

Context {A B : Type}.

Lemma run_bind (m : M A) (k : A -> M B) (st : state) :
  (m ≫= k) st =
    match m st with
    | (Ok a, st') => k a st'
    | (Raise e, st') => (Raise e, st')
    end.
Proof. reflexivity. Qed.

Lemma during_app (st st' : state) (t : list event) :
  trace st' = (trace st ++ t)%list -> during st st' = t.
Proof. intros H. unfold during. rewrite H. apply drop_app_length. Qed.

Lemma launches_app (t1 t2 : list event) :
  launches (t1 ++ t2) = (launches t1 ++ launches t2)%list.
Proof.
  induction t1 as [|[] t1 IH]; simpl; try done. by rewrite IH.
Qed.

Lemma launches_logs (t : list event) : forallb is_log t = true -> launches t = [].
Proof.
  induction t as [|[] t IH]; simpl; try done.
Qed.

End MonadFacts.

Section EmitsOnly.

Context (p : event -> bool).
Hypothesis p_log : forall lv m, p (Log lv m) = true.

Lemma emits_only_ret {A} (a : A) : emits_only p (mret a).
Proof. intros st. exists []. by rewrite app_nil_r. Qed.

Lemma emits_only_lift {A} (r : result A) : emits_only p (lift r).
Proof. intros st. exists []. by rewrite app_nil_r. Qed.

Lemma emits_only_emit (e : event) : p e = true -> emits_only p (emit e).
Proof. intros He st. exists [e]. simpl. by rewrite He. Qed.

Lemma emits_only_logging (lv : level) (m : string) : emits_only p (logging lv m).
Proof. apply emits_only_emit, p_log. Qed.

Lemma emits_only_raise {A} (c : exn_class) (a : payload) : emits_only p (raise (A:=A) c a).
Proof.
  intros st. unfold raise. simpl. destruct (is_hydra_error c).
  - exists [Log CRITICAL a]. simpl. by rewrite p_log.
  - exists []. by rewrite app_nil_r.
Qed.

Lemma emits_only_bind {A B} (m : M A) (k : A -> M B) :
  emits_only p m -> (forall a, emits_only p (k a)) -> emits_only p (m ≫= k).
Proof.
  intros Hm Hk st. rewrite run_bind.
  destruct (Hm st) as (t1 & Ht1 & Hp1).
  destruct (m st) as [[a|e] st1]; simpl in *.
  - destruct (Hk a st1) as (t2 & Ht2 & Hp2).
    exists (t1 ++ t2)%list. rewrite Ht2, Ht1, app_assoc. split; [done|].
    rewrite forallb_app, Hp1, Hp2. done.
  - by exists t1.
Qed.

Lemma emits_only_try_except {A} (body : M A) (c : exn_class) (handler : exn -> M A) :
  emits_only p body -> (forall e, emits_only p (handler e)) ->
  emits_only p (try_except body c handler).
Proof.
  intros Hm Hk st. unfold try_except.
  destruct (Hm st) as (t1 & Ht1 & Hp1).
  destruct (body st) as [[a|e] st1]; simpl in *.
  - by exists t1.
  - destruct (subclass (cls e) c).
    + destruct (Hk e st1) as (t2 & Ht2 & Hp2).
      exists (t1 ++ t2)%list. rewrite Ht2, Ht1, app_assoc. split; [done|].
      rewrite forallb_app, Hp1, Hp2. done.
    + by exists t1.
Qed.

Lemma emits_only_get_fs : emits_only p get_fs.
Proof. intros st. exists []. by rewrite app_nil_r. Qed.

Lemma emits_only_set_fs (f : gmap string file) : emits_only p (set_fs f).
Proof. intros st. exists []. by rewrite app_nil_r. Qed.

Lemma emits_only_set_self_threads (n : Z) : emits_only p (set_self_threads n).
Proof. intros st. exists []. by rewrite app_nil_r. Qed.

Lemma emits_only_isfile (f : string) : emits_only p (isfile f).
Proof. intros st. exists []. by rewrite app_nil_r. Qed.

End EmitsOnly.

Create HintDb trace.
#[local] Hint Resolve emits_only_ret emits_only_lift emits_only_logging emits_only_raise
  emits_only_bind emits_only_try_except emits_only_get_fs emits_only_set_fs
  emits_only_set_self_threads emits_only_isfile : trace.

(** ** The methods of [Hydra] *)

Section HydraFacts.

Context (self : Hydra) (env : Env).
Context (p : event -> bool).
Hypothesis p_log : forall lv m, p (Log lv m) = true.

Ltac trace_step :=
  repeat first
    [ apply emits_only_bind; [|intros ?]
    | apply emits_only_try_except; [|intros ?]
    | solve [auto with trace]
    | match goal with
      | |- emits_only _ (match ?x with _ => _ end) => destruct x
      | |- emits_only _ (if ?x then _ else _) => destruct x
      end ].

Lemma json2dict_emits_logs (json_path : string) :
  emits_only p (HydraParser.json2dict json_path).
Proof. unfold HydraParser.json2dict, HydraParser.json_opener, HydraParser.json_load. trace_step. Qed.

Lemma log_warnings_emits_logs (hydra_messages : list string) :
  emits_only p (log_warnings hydra_messages).
Proof. induction hydra_messages; simpl; trace_step. Qed.

Lemma raise_first_error_emits_logs (hydra_messages : list string) :
  emits_only p (raise_first_error hydra_messages).
Proof. induction hydra_messages; simpl; trace_step. Qed.

Lemma user_and_pass_emits_logs threads wait_time service port export_type
    ignore_restore_file user_wordlist pass_wordlist output_file_name :
  emits_only p (_user_and_pass_wordlists_string_generator self threads wait_time service
                  port export_type ignore_restore_file user_wordlist pass_wordlist
                  output_file_name).
Proof. unfold _user_and_pass_wordlists_string_generator. trace_step. Qed.

Lemma userpass_emits_logs threads wait_time service port export_type
    ignore_restore_file userpass_wordlist output_file_name :
  emits_only p (_userpass_wordlist_string_generator self threads wait_time service
                  port export_type ignore_restore_file userpass_wordlist
                  output_file_name).
Proof. unfold _userpass_wordlist_string_generator. trace_step. Qed.

(** The two entry points, step by step: the checks made before the
    temporary file exists, then the block that owns it. *)
Lemma bruteforce_run service port user_wordlist pass_wordlist threads export_type
    ignore_restore_file wait_time st :
  bruteforce self env service port user_wordlist pass_wordlist threads export_type
    ignore_restore_file wait_time st =
  let st0 := warned user_wordlist pass_wordlist st in
  match int env port with
  | None =>
      (Raise (Exn ValueError
                (Msg ("The port number should be an integer, " +:+ format_port port +:+
                      " was given."))), st0)
  | Some n =>
      if bool_decide (export_type ∈ valid_outputs) then
        let st1 := clamped INFO threads st0 in
        let service := lower env service in
        if bool_decide (service ∈ supported_services self) then
          NamedTemporaryFile env (fun tmp_file_name =>
            command_string ←
              _user_and_pass_wordlists_string_generator self threads wait_time service n
                (lower env export_type) ignore_restore_file user_wordlist pass_wordlist
                (Some tmp_file_name);
            _running_command env command_string;;
            HydraParser.json2dict tmp_file_name) st1
        else if bool_decide (service ∈ unsupported_services self) then
          (Raise (Exn HydraUnsupportedServiceError
                    (Msg ("Unsupported service given : " +:+ service))),
           record (Log CRITICAL (Msg ("Unsupported service given : " +:+ service))) st1)
        else
          (Raise (Exn HydraUnknownServiceError (Msg ("Unknown service: " +:+ service))),
           record (Log CRITICAL (Msg ("Unknown service: " +:+ service))) st1)
      else
        (Raise (Exn ValueError
                  (Msg (export_type +:+
                        " is not a valid export type, use 'text', 'json' or 'jsonv1'"))),
         st0)
  end.
Proof.
  unfold bruteforce, int_of_port, check_export_type, clamp_threads, check_service,
    warned, clamped.
  rewrite !run_bind.
  destruct user_wordlist, pass_wordlist; simpl;
    (destruct (int env port) as [n|]; simpl; [|reflexivity]);
    (destruct (bool_decide (export_type ∈ valid_outputs)); simpl; [|reflexivity]);
    (destruct (65 <=? threads)%Z; simpl);
    (destruct (bool_decide (lower env service ∈ supported_services self)); simpl;
       [reflexivity|]);
    (destruct (bool_decide (lower env service ∈ unsupported_services self)); reflexivity).
Qed.

Lemma bruteforce_with_userpass_wordlist_run service port userpass_wordlist_path threads
    export_type ignore_restore_file wait_time st :
  bruteforce_with_userpass_wordlist self env service port userpass_wordlist_path threads
    export_type ignore_restore_file wait_time st =
  if is_file (fs st) (abspath env userpass_wordlist_path) then
    match int env port with
    | None =>
        (Raise (Exn ValueError
                  (Msg ("The port number should be an integer, " +:+ format_port port +:+
                        " was given."))), st)
    | Some n =>
        if bool_decide (export_type ∈ valid_outputs) then
          let st1 := clamped WARNING threads st in
          let service := lower env service in
          if bool_decide (service ∈ supported_services self) then
            NamedTemporaryFile env (fun tmp_file_name =>
              command_string ←
                _userpass_wordlist_string_generator self threads wait_time service n
                  (lower env export_type) ignore_restore_file
                  (abspath env userpass_wordlist_path) tmp_file_name;
              _running_command env command_string;;
              HydraParser.json2dict tmp_file_name) st1
          else if bool_decide (service ∈ unsupported_services self) then
            (Raise (Exn HydraUnsupportedServiceError
                      (Msg ("Unsupported service given : " +:+ service))),
             record (Log CRITICAL (Msg ("Unsupported service given : " +:+ service))) st1)
          else
            (Raise (Exn HydraUnknownServiceError (Msg ("Unknown service: " +:+ service))),
             record (Log CRITICAL (Msg ("Unknown service: " +:+ service))) st1)
        else
          (Raise (Exn ValueError
                    (Msg (export_type +:+
                          " is not a valid export type, use 'text', 'json' or 'jsonv1'"))),
           st)
    end
  else (Raise (Exn TypeError (Msg "Wordlist path does not exist")), st).
Proof.
  unfold bruteforce_with_userpass_wordlist, int_of_port, check_export_type,
    clamp_threads, check_service, clamped, isfile.
  rewrite !run_bind.
  destruct (is_file (fs st) (abspath env userpass_wordlist_path)); simpl; [|reflexivity].
  destruct (int env port) as [n|]; simpl; [|reflexivity].
  destruct (bool_decide (export_type ∈ valid_outputs)); simpl; [|reflexivity].
  destruct (65 <=? threads)%Z; simpl;
    (destruct (bool_decide (lower env service ∈ supported_services self)); simpl;
       [reflexivity|]);
    (destruct (bool_decide (lower env service ∈ unsupported_services self)); reflexivity).
Qed.

Lemma warned_trace user_wordlist pass_wordlist st :
  fs (warned user_wordlist pass_wordlist st) = fs st /\
  exists t, trace (warned user_wordlist pass_wordlist st) = (trace st ++ t)%list /\
            forallb is_log t = true.
Proof.
  unfold warned. destruct user_wordlist, pass_wordlist; simpl; (split; [reflexivity|]).
  - exists []. by rewrite app_nil_r.
  - by eexists [_].
  - by eexists [_].
  - eexists [_; _]. by rewrite <- app_assoc.
Qed.

Lemma clamped_trace lv threads st :
  fs (clamped lv threads st) = fs st /\
  exists t, trace (clamped lv threads st) = (trace st ++ t)%list /\
            forallb is_log t = true.
Proof.
  unfold clamped. destruct (65 <=? threads)%Z; simpl; (split; [reflexivity|]).
  - by eexists [_].
  - exists []. by rewrite app_nil_r.
Qed.

(** The checks add log records only and leave the files alone. *)
Lemma checks_trace lv user_wordlist pass_wordlist threads st :
  fs (clamped lv threads (warned user_wordlist pass_wordlist st)) = fs st /\
  exists t,
    trace (clamped lv threads (warned user_wordlist pass_wordlist st)) = (trace st ++ t)%list /\
    forallb is_log t = true.
Proof.
  destruct (warned_trace user_wordlist pass_wordlist st) as (Hfs & t1 & Ht1 & Hl1).
  destruct (clamped_trace lv threads (warned user_wordlist pass_wordlist st))
    as (Hfs' & t2 & Ht2 & Hl2).
  split; [congruence|].
  exists (t1 ++ t2)%list. rewrite Ht2, Ht1, <- app_assoc. split; [done|].
  by rewrite forallb_app, Hl1, Hl2.
Qed.

Lemma during_logs st st' t :
  trace st' = (trace st ++ t)%list -> forallb is_log t = true ->
  forallb is_log (during st st') = true.
Proof. intros Ht Hl. by rewrite (during_app _ _ _ Ht). Qed.

Lemma during_record st st' e :
  (exists t, trace st' = (trace st ++ t)%list /\ forallb is_log t = true) ->
  is_log e = true ->
  forallb is_log (during st (record e st')) = true.
Proof.
  intros (t & Ht & Hl) He.
  apply (during_logs _ _ (t ++ [e])).
  - simpl. by rewrite Ht, <- app_assoc.
  - rewrite forallb_app, Hl. simpl. by rewrite He.
Qed.

End HydraFacts.

(** ** [str.lower] *)

Section LowerFacts.

Lemma lower_ascii_idempotent (c : ascii) :
  Text.lower_ascii (Text.lower_ascii c) = Text.lower_ascii c.
Proof.
  destruct c as [[] [] [] [] [] [] [] []]; reflexivity.
Qed.

Lemma lower_idempotent (s : string) : Text.lower (Text.lower s) = Text.lower s.
Proof.
  induction s as [|c s IH]; simpl; [reflexivity|].
  by rewrite lower_ascii_idempotent, IH.
Qed.

Lemma lower_ascii_is_ascii (c : ascii) :
  (N_of_ascii (Text.lower_ascii c) <? 128)%N = (N_of_ascii c <? 128)%N.
Proof.
  destruct c as [[] [] [] [] [] [] [] []]; reflexivity.
Qed.

Lemma lower_is_ascii (s : string) : Text.is_ascii (Text.lower s) = Text.is_ascii s.
Proof.
  induction s as [|c s IH]; simpl; [reflexivity|].
  by rewrite lower_ascii_is_ascii, IH.
Qed.

(** On ASCII text [str.lower] is computed, and lowering twice is lowering
    once. *)
Lemma lower_of_ascii (env : Env) (s : string) :
  Text.is_ascii s = true ->
  lower env s = Text.lower s /\ lower env (lower env s) = lower env s.
Proof.
  intros Hs. unfold lower. rewrite Hs, lower_is_ascii, Hs.
  by rewrite lower_idempotent.
Qed.

End LowerFacts.

(** ** Checks made before the temporary file exists *)

Section Validation.

Context (self : Hydra) (env : Env).

Lemma no_launch_after_checks lv user_wordlist pass_wordlist threads st e :
  launches (during st (record (Log CRITICAL e)
                         (clamped lv threads (warned user_wordlist pass_wordlist st)))) = [].
Proof.
  apply launches_logs, during_record; [|reflexivity].
  apply checks_trace.
Qed.

Lemma no_launch_after_warnings user_wordlist pass_wordlist st :
  launches (during st (warned user_wordlist pass_wordlist st)) = [].
Proof.
  destruct (warned_trace user_wordlist pass_wordlist st) as (_ & t & Ht & Hl).
  apply launches_logs. by apply (during_logs _ _ t).
Qed.

Lemma during_same st : during st st = [].
Proof. apply during_app. by rewrite app_nil_r. Qed.

Lemma warned_present (u w : string) st : warned (Some u) (Some w) st = st.
Proof. reflexivity. Qed.

(** C5. With the other arguments valid, a service name that after
    lower-casing is not in the supported list makes both entry points fail
    without starting a process: with the unsupported-service error when the
    lower-cased name is in the known-unsupported list, with the
    unknown-service error when it is in neither list.  Two names with the
    same lower-case form, such as "SSH" and "ssh", give the same run of
    either entry point, whatever the other arguments; in particular an
    ASCII name and its lower-case form do.  The lower-case form is that of
    [str.lower]: computed on ASCII names, that of the interpreter on the
    others. *)
Theorem C5_service_names_are_classified_after_lowercasing :
  (forall service port n user_wordlist pass_wordlist userpass_wordlist_path threads
          export_type ignore_restore_file wait_time st,
     int env port = Some n ->
     export_type ∈ valid_outputs ->
     is_file (fs st) (abspath env userpass_wordlist_path) = true ->
     lower env service ∉ supported_services self ->
     let run1 := bruteforce self env service port user_wordlist pass_wordlist threads
                   export_type ignore_restore_file wait_time st in
     let run2 := bruteforce_with_userpass_wordlist self env service port
                   userpass_wordlist_path threads export_type ignore_restore_file
                   wait_time st in
     (lower env service ∈ unsupported_services self ->
      let failure := Exn HydraUnsupportedServiceError
                       (Msg ("Unsupported service given : " +:+ lower env service)) in
      run1.1 = Raise failure /\ run2.1 = Raise failure) /\
     (lower env service ∉ unsupported_services self ->
      let failure := Exn HydraUnknownServiceError
                       (Msg ("Unknown service: " +:+ lower env service)) in
      run1.1 = Raise failure /\ run2.1 = Raise failure) /\
     launches (during st run1.2) = [] /\
     launches (during st run2.2) = []) /\
  (forall service service' port user_wordlist pass_wordlist userpass_wordlist_path
          threads export_type ignore_restore_file wait_time st,
     lower env service = lower env service' ->
     bruteforce self env service port user_wordlist pass_wordlist threads
       export_type ignore_restore_file wait_time st
     = bruteforce self env service' port user_wordlist pass_wordlist threads
         export_type ignore_restore_file wait_time st /\
     bruteforce_with_userpass_wordlist self env service port userpass_wordlist_path
       threads export_type ignore_restore_file wait_time st
     = bruteforce_with_userpass_wordlist self env service' port userpass_wordlist_path
         threads export_type ignore_restore_file wait_time st) /\
  (forall service port user_wordlist pass_wordlist userpass_wordlist_path
          threads export_type ignore_restore_file wait_time st,
     Text.is_ascii service = true ->
     lower env service = Text.lower service /\
     bruteforce self env service port user_wordlist pass_wordlist threads
       export_type ignore_restore_file wait_time st
     = bruteforce self env (Text.lower service) port user_wordlist pass_wordlist threads
         export_type ignore_restore_file wait_time st /\
     bruteforce_with_userpass_wordlist self env service port userpass_wordlist_path
       threads export_type ignore_restore_file wait_time st
     = bruteforce_with_userpass_wordlist self env (Text.lower service) port
         userpass_wordlist_path threads export_type ignore_restore_file wait_time st).
Proof.
  split; [|split].
  - intros service port n uw pw upw threads et irf wt st Hport Het Hfile Hsupp run1 run2.
    subst run1 run2.
    rewrite bruteforce_run, bruteforce_with_userpass_wordlist_run.
    rewrite Hport, Hfile. simpl.
    rewrite (bool_decide_eq_true_2 _ Het), (bool_decide_eq_false_2 _ Hsupp).
    split; [|split].
    + intros Hun. rewrite (bool_decide_eq_true_2 _ Hun). done.
    + intros Hun. rewrite (bool_decide_eq_false_2 _ Hun). done.
    + destruct (bool_decide (lower env service ∈ unsupported_services self)); simpl;
        (split; [apply no_launch_after_checks|]);
        rewrite <- (warned_present "" "" st) at 2; apply no_launch_after_checks.
  - intros service service' port uw pw upw threads et irf wt st Hlower.
    rewrite !bruteforce_run, !bruteforce_with_userpass_wordlist_run.
    by rewrite Hlower.
  - intros service port uw pw upw threads et irf wt st Hascii.
    destruct (lower_of_ascii env service Hascii) as [Hlow Hidem].
    split; [exact Hlow|].
    rewrite !bruteforce_run, !bruteforce_with_userpass_wordlist_run.
    by rewrite <- Hlow, Hidem.
Qed.

(** C10. The export type is compared with "text", "json" and "jsonv1" as
    it was given: a value that is one of them only after lower-casing, such
    as "JSON", makes both entry points fail with the invalid-value error;
    the lower-casing that follows the check is never reached and no process
    is started. *)
Theorem C10_export_type_check_is_case_sensitive
    service port n user_wordlist pass_wordlist userpass_wordlist_path threads
    export_type ignore_restore_file wait_time st :
  int env port = Some n ->
  is_file (fs st) (abspath env userpass_wordlist_path) = true ->
  lower env export_type ∈ valid_outputs ->
  export_type ∉ valid_outputs ->
  let run1 := bruteforce self env service port user_wordlist pass_wordlist threads
                export_type ignore_restore_file wait_time st in
  let run2 := bruteforce_with_userpass_wordlist self env service port
                userpass_wordlist_path threads export_type ignore_restore_file
                wait_time st in
  let failure := Exn ValueError
                   (Msg (export_type +:+
                         " is not a valid export type, use 'text', 'json' or 'jsonv1'")) in
  run1.1 = Raise failure /\ run2.1 = Raise failure /\
  launches (during st run1.2) = [] /\ launches (during st run2.2) = [].
Proof.
  intros Hport Hfile _ Het run1 run2 failure. subst run1 run2 failure.
  rewrite bruteforce_run, bruteforce_with_userpass_wordlist_run.
  rewrite Hport, Hfile. simpl.
  rewrite (bool_decide_eq_false_2 _ Het). simpl.
  repeat split.
  - apply no_launch_after_warnings.
  - by rewrite during_same.
Qed.

(** C2, as the code has it. A combined wordlist path that does not name an
    existing file is rejected by the first check of
    [bruteforce_with_userpass_wordlist] with a [TypeError]; nothing is
    logged, no temporary file is made and no process is started.  The
    [HydraFileDoesNotExist] of [_userpass_wordlist_string_generator] is
    never reached from this entry point. *)
Theorem C2_missing_combined_wordlist_raises_TypeError
    service port userpass_wordlist_path threads export_type ignore_restore_file
    wait_time st :
  is_file (fs st) (abspath env userpass_wordlist_path) = false ->
  bruteforce_with_userpass_wordlist self env service port userpass_wordlist_path
    threads export_type ignore_restore_file wait_time st
  = (Raise (Exn TypeError (Msg "Wordlist path does not exist")), st).
Proof.
  intros Hfile. rewrite bruteforce_with_userpass_wordlist_run, Hfile. reflexivity.
Qed.

End Validation.

Lemma C5_service_classification_witness :
  (bruteforce Demo.hydra (Demo.env 0 "" Malformed) "SMB2" (PortStr "445")
     (Some "users.txt") (Some "pass.txt") 4 "json" true 2 Demo.start).1
  = Raise (Exn HydraUnsupportedServiceError (Msg "Unsupported service given : smb2")) /\
  (bruteforce_with_userpass_wordlist Demo.hydra (Demo.env 0 "" Malformed) "SMB2"
     (PortStr "445") "combo.txt" 4 "json" true 2 Demo.start).1
  = Raise (Exn HydraUnsupportedServiceError (Msg "Unsupported service given : smb2")).
Proof.
  refine (proj1 (proj1 (C5_service_names_are_classified_after_lowercasing
                          Demo.hydra (Demo.env 0 "" Malformed))
                   "SMB2" (PortStr "445") 445 (Some "users.txt") (Some "pass.txt")
                   "combo.txt" 4 "json" true 2 Demo.start _ _ _ _) _).
  - reflexivity.
  - apply (bool_decide_unpack _). vm_compute. exact I.
  - reflexivity.
  - apply (bool_decide_unpack _). vm_compute. exact I.
  - apply (bool_decide_unpack _). vm_compute. exact I.
Defined.

Lemma C10_export_type_witness :
  (bruteforce Demo.hydra (Demo.env 0 "" Malformed) "ssh" (PortInt 22)
     (Some "users.txt") (Some "pass.txt") 4 "JSON" true 2 Demo.start).1
  = Raise (Exn ValueError
             (Msg "JSON is not a valid export type, use 'text', 'json' or 'jsonv1'")) /\
  (bruteforce_with_userpass_wordlist Demo.hydra (Demo.env 0 "" Malformed) "ssh"
     (PortInt 22) "combo.txt" 4 "JSON" true 2 Demo.start).1
  = Raise (Exn ValueError
             (Msg "JSON is not a valid export type, use 'text', 'json' or 'jsonv1'")).
Proof.
  pose proof (C10_export_type_check_is_case_sensitive
                Demo.hydra (Demo.env 0 "" Malformed)
                "ssh" (PortInt 22) 22 (Some "users.txt") (Some "pass.txt")
                "combo.txt" 4 "JSON" true 2 Demo.start) as H.
  destruct H as (H1 & H2 & _).
  - reflexivity.
  - reflexivity.
  - apply (bool_decide_unpack _). vm_compute. exact I.
  - apply (bool_decide_unpack _). vm_compute. exact I.
  - split; [exact H1|exact H2].
Defined.

Lemma C2_missing_combined_wordlist_witness :
  bruteforce_with_userpass_wordlist Demo.hydra (Demo.env 0 "" Malformed) "ssh"
    (PortInt 22) "nope.txt" 4 "json" true 2 Demo.start
  = (Raise (Exn TypeError (Msg "Wordlist path does not exist")), Demo.start).
Proof.
  apply (C2_missing_combined_wordlist_raises_TypeError
           Demo.hydra (Demo.env 0 "" Malformed)).
  reflexivity.
Defined.

(** ** The command builders *)

Section Builders.

Context (self : Hydra).

(** C7, as the code has it. For a service that is not in the list of
    services without a username, the user parameter is passed with [-L]
    when it names an existing file and with [-l] otherwise; for a service
    in that list the user parameter is left out of the command.  For every
    service the password parameter is passed with [-P] when it names an
    existing file and with [-p] otherwise. *)
Theorem C7_existing_file_is_a_wordlist_else_a_literal
    threads wait_time service port export_type ignore_restore_file
    (user_wordlist : option string) (user pass : string) output_file_name st :
  let base := base_command self service port wait_time in
  let suffix :=
    _default_string_generator threads output_file_name export_type ignore_restore_file in
  let user_words := credential_words (fs st) "-L" "-l" user in
  let pass_words := credential_words (fs st) "-P" "-p" pass in
  (service ∉ service_without_user ->
   (_user_and_pass_wordlists_string_generator self threads wait_time service port
      export_type ignore_restore_file (Some user) (Some pass) output_file_name st).1
   = Ok (((base +:+ user_words) +:+ pass_words) +:+ suffix)) /\
  (service ∈ service_without_user ->
   (_user_and_pass_wordlists_string_generator self threads wait_time service port
      export_type ignore_restore_file user_wordlist (Some pass) output_file_name st).1
   = Ok ((base +:+ pass_words) +:+ suffix)).
Proof.
  intros base suffix user_words pass_words.
  subst base suffix user_words pass_words.
  unfold _user_and_pass_wordlists_string_generator, isfile, credential_words.
  split; intros Hservice.
  - rewrite (bool_decide_eq_false_2 _ Hservice).
    unfold mbind, M_bind, mret, M_ret, logging, emit. simpl.
    destruct (is_file (fs st) user); simpl;
      destruct (is_file (fs st) pass); reflexivity.
  - rewrite (bool_decide_eq_true_2 _ Hservice).
    unfold mbind, M_bind, mret, M_ret, logging, emit. simpl.
    destruct (is_file (fs st) pass); reflexivity.
Qed.

End Builders.

(** ** The process runner *)

Section Runner.

Context (env : Env).

Lemma log_warnings_run (hydra_messages : list string) (st : state) :
  log_warnings hydra_messages st =
    (Ok tt,
     State (fs st) (self_threads st)
       (trace st ++ warning_records hydra_messages)).
Proof.
  unfold warning_records.
  revert st. induction hydra_messages as [|m ms IH]; intros st; simpl.
  - rewrite app_nil_r. by destruct st.
  - rewrite run_bind. unfold is_warning at 1.
    destruct (Text.startswith m "[WARNING]"); simpl.
    + rewrite IH. simpl. by rewrite <- app_assoc.
    + by rewrite IH.
Qed.

Lemma raise_first_error_run (hydra_messages : list string) (st : state) :
  exists t,
    raise_first_error hydra_messages st =
      (match first_error hydra_messages with
       | Some l => Raise (Exn HydraError (Msg l))
       | None => Ok tt
       end,
       State (fs st) (self_threads st) (trace st ++ t)) /\
    forallb is_log t = true.
Proof.
  revert st. induction hydra_messages as [|m ms IH]; intros st; simpl.
  - exists []. rewrite app_nil_r. by destruct st.
  - set (w := Log WARNING
                (Msg "Service doesn't need a user wordlist. Restarting the command without it...")).
    change (is_error m) with (Text.startswith m "[ERROR]").
    destruct (Text.contains "only using the -p or -P option" m);
      destruct (Text.startswith m "[ERROR]"); exec.
    + exists [w; Log CRITICAL (Msg m)]. by rewrite <- app_assoc.
    + match goal with |- context [raise_first_error ms ?s] =>
        destruct (IH s) as (t & -> & Ht) end.
      simpl. exists (w :: t). by rewrite <- app_assoc.
    + by exists [Log CRITICAL (Msg m)].
    + match goal with |- context [raise_first_error ms ?s] =>
        destruct (IH s) as (t & -> & Ht) end.
      by exists t.
Qed.

Lemma running_command_run command_string st exit_code stderr files' :
  popen env (Text.split command_string) (fs st) = Exits exit_code (Utf8 stderr) files' ->
  let hydra_messages := Text.split_on Text.newline stderr in
  let started :=
    [Log INFO (Msg ("Running thc-hydra with following command : " +:+ command_string));
     Launch (Text.split command_string)] in
  let warnings := warning_records hydra_messages in
  exists t,
    forallb is_log t = true /\
    _running_command env command_string st =
      (if (exit_code =? 0)%Z then Ok tt
       else match first_error hydra_messages with
            | Some l => Raise (Exn HydraError (Msg l))
            | None => Raise (Exn UnknownHydraError (Lines hydra_messages))
            end,
       State files' (self_threads st) (trace st ++ started ++ warnings ++ t)).
Proof.
  intros Hpopen hydra_messages started warnings.
  unfold _running_command, decode. exec. rewrite Hpopen. simpl.
  rewrite log_warnings_run. simpl.
  fold hydra_messages. fold warnings.
  destruct (exit_code =? 0)%Z.
  - exists []. split; [done|]. by rewrite app_nil_r, <- !app_assoc.
  - match goal with |- context [raise_first_error _ ?s] =>
      destruct (raise_first_error_run hydra_messages s) as (t & -> & Ht) end.
    simpl. destruct (first_error hydra_messages) as [l|].
    + exists t. split; [done|]. by rewrite <- !app_assoc.
    + exists (t ++ [Log CRITICAL (Lines hydra_messages)]). split.
      * by rewrite forallb_app, Ht.
      * by rewrite <- !app_assoc.
Qed.

(** Standard error that is not UTF-8 ends the runner at [stderr.decode()]:
    after the launch, before any line is looked at. *)
Lemma running_command_garbled command_string st exit_code files' :
  popen env (Text.split command_string) (fs st) = Exits exit_code NotUtf8 files' ->
  _running_command env command_string st =
    (Raise (Exn UnicodeDecodeError (Msg "invalid start byte")),
     State files' (self_threads st)
       (trace st ++
        [Log INFO (Msg ("Running thc-hydra with following command : " +:+ command_string));
         Launch (Text.split command_string)])).
Proof.
  intros Hpopen. unfold _running_command, decode. exec. rewrite Hpopen. simpl.
  by rewrite <- !app_assoc.
Qed.

Lemma first_error_split (before after : list string) (l : string) :
  forallb (fun m => negb (is_error m)) before = true -> is_error l = true ->
  first_error (before ++ l :: after) = Some l.
Proof.
  intros Hbefore Hl. unfold first_error.
  induction before as [|m before IH]; simpl in *.
  - by rewrite Hl.
  - apply andb_true_iff in Hbefore as [Hm Hbefore].
    apply negb_true_iff in Hm. rewrite Hm. by apply IH.
Qed.

Lemma first_error_none (hydra_messages : list string) :
  forallb (fun m => negb (is_error m)) hydra_messages = true ->
  first_error hydra_messages = None.
Proof.
  unfold first_error. induction hydra_messages as [|m ms IH]; simpl; [done|].
  intros [Hm Hms]%andb_true_iff. apply negb_true_iff in Hm. rewrite Hm. by apply IH.
Qed.

Lemma error_is_not_warning (m : string) : is_error m = true -> is_warning m = false.
Proof.
  unfold is_error, is_warning.
  destruct m as [|a [|b m]]; simpl; try discriminate.
  - by destruct (Ascii.eqb a "[").
  - destruct (Ascii.eqb a "["); [|done].
    destruct (Ascii.eqb_spec b "E") as [->|]; [|done]. done.
Qed.

(** The first error line is the same once the warning lines are removed. *)
Lemma first_error_without_warnings (hydra_messages : list string) :
  first_error (List.filter (fun m => negb (is_warning m)) hydra_messages)
  = first_error hydra_messages.
Proof.
  unfold first_error. induction hydra_messages as [|m ms IH]; simpl; [done|].
  destruct (is_error m) eqn:E.
  - rewrite (error_is_not_warning _ E). simpl. by rewrite E.
  - destruct (is_warning m); simpl; [done|]. by rewrite E.
Qed.

End Runner.

(** C8, as the code has it. For a run of the external process whose
    standard error is UTF-8 and that exits with a code other than zero, the
    first captured line that starts with "[ERROR]" is the message of the
    [HydraError] raised; when no captured line starts with it,
    [UnknownHydraError] is raised with all the captured lines.  With exit
    code zero the runner returns.  Every captured line that starts with
    "[WARNING]" is logged as a warning, and the outcome is the same for any
    captured text with the same lines apart from those. *)
Theorem C8_exit_code_and_error_lines_decide_the_outcome
    env command_string st exit_code stderr files' :
  popen env (Text.split command_string) (fs st) = Exits exit_code (Utf8 stderr) files' ->
  let hydra_messages := Text.split_on Text.newline stderr in
  let run := _running_command env command_string st in
  (exit_code = 0 -> run.1 = Ok tt) /\
  (exit_code <> 0 ->
   forall before l after,
     hydra_messages = before ++ l :: after ->
     forallb (fun m => negb (is_error m)) before = true ->
     is_error l = true ->
     run.1 = Raise (Exn HydraError (Msg l))) /\
  (exit_code <> 0 ->
   forallb (fun m => negb (is_error m)) hydra_messages = true ->
   run.1 = Raise (Exn UnknownHydraError (Lines hydra_messages))) /\
  (forall l, l ∈ hydra_messages -> is_warning l = true ->
             Log WARNING (Msg l) ∈ during st run.2) /\
  (forall env' command_string' st' stderr' files'',
     popen env' (Text.split command_string') (fs st')
       = Exits exit_code (Utf8 stderr') files'' ->
     List.filter (fun m => negb (is_warning m)) (Text.split_on Text.newline stderr')
       = List.filter (fun m => negb (is_warning m)) hydra_messages ->
     same_outcome run.1 (_running_command env' command_string' st').1).
Proof.
  intros Hpopen hydra_messages run.
  destruct (running_command_run _ _ _ _ _ _ Hpopen) as (t & Ht & Hrun).
  fold hydra_messages in Hrun. fold run in Hrun.
  repeat split.
  - intros ->. by rewrite Hrun.
  - intros Hcode before l after Hmsgs Hbefore Hl. rewrite Hrun. simpl.
    apply Z.eqb_neq in Hcode. rewrite Hcode, Hmsgs.
    by rewrite first_error_split.
  - intros Hcode Hnone. rewrite Hrun. simpl.
    apply Z.eqb_neq in Hcode. rewrite Hcode. by rewrite first_error_none.
  - intros l Hin Hwarn. rewrite Hrun. simpl.
    erewrite during_app; [|reflexivity].
    do 2 apply list_elem_of_further. apply elem_of_app. left.
    unfold warning_records. apply list_elem_of_In.
    apply (in_map (fun m => Log WARNING (Msg m)) _ l), filter_In.
    split; [by apply list_elem_of_In|done].
  - intros env' command_string' st' stderr' files'' Hpopen' Hsame.
    destruct (running_command_run _ _ _ _ _ _ Hpopen') as (t' & Ht' & Hrun').
    rewrite Hrun, Hrun'. simpl.
    destruct (exit_code =? 0)%Z; [done|].
    rewrite <- (first_error_without_warnings hydra_messages).
    rewrite <- (first_error_without_warnings (Text.split_on Text.newline stderr')).
    rewrite Hsame.
    destruct (first_error (List.filter _ hydra_messages)); simpl; split; done.
Qed.

(** ** The classes of the exceptions raised *)

Section RaisesOnly.

Context (ok : exn_class -> bool).

Lemma raises_only_ret {A} (a : A) : raises_only ok (mret a).
Proof. intros st e. discriminate. Qed.

Lemma raises_only_lift {A} (r : result A) :
  (forall e, r = Raise e -> ok (cls e) = true) -> raises_only ok (lift r).
Proof. intros Hr st e. simpl. apply Hr. Qed.

Lemma raises_only_raise {A} (c : exn_class) (a : payload) :
  ok c = true -> raises_only ok (raise (A:=A) c a).
Proof. intros Hc st e [= <-]. exact Hc. Qed.

Lemma raises_only_emit (e : event) : raises_only ok (emit e).
Proof. intros st e'. discriminate. Qed.

Lemma raises_only_logging (lv : level) (m : string) : raises_only ok (logging lv m).
Proof. apply raises_only_emit. Qed.

Lemma raises_only_get_fs : raises_only ok get_fs.
Proof. intros st e. discriminate. Qed.

Lemma raises_only_set_fs (f : gmap string file) : raises_only ok (set_fs f).
Proof. intros st e. discriminate. Qed.

Lemma raises_only_bind {A B} (m : M A) (k : A -> M B) :
  raises_only ok m -> (forall a, raises_only ok (k a)) -> raises_only ok (m ≫= k).
Proof.
  intros Hm Hk st e. rewrite run_bind. specialize (Hm st).
  destruct (m st) as [[a|e'] st1]; simpl in *.
  - apply Hk.
  - intros [= <-]. by apply Hm.
Qed.

Lemma raises_only_try_except {A} (body : M A) (c : exn_class) (handler : exn -> M A) :
  raises_only ok body -> (forall e, raises_only ok (handler e)) ->
  raises_only ok (try_except body c handler).
Proof.
  intros Hm Hk st e. unfold try_except. specialize (Hm st).
  destruct (body st) as [[a|e'] st1]; simpl in *.
  - discriminate.
  - destruct (subclass (cls e') c).
    + apply Hk.
    + intros [= <-]. by apply Hm.
Qed.

(** The exceptions of the interpreter on decoded values. *)
Hypothesis ok_KeyError : ok KeyError = true.
Hypothesis ok_TypeError : ok TypeError = true.

Lemma getitem_raises v k e : Py.getitem v k = Raise e -> ok (cls e) = true.
Proof.
  destruct v as [| | | | |o]; simpl; try (intros [= <-]; done).
  destruct (Py.assoc k o); [discriminate|]. by intros [= <-].
Qed.

Lemma comprehension_raises k (l : list json) e :
  Py.comprehension (fun x => Py.getitem x k) l = Raise e -> ok (cls e) = true.
Proof.
  induction l as [|x l IH]; simpl; [discriminate|].
  destruct (Py.getitem x k) as [y|e'] eqn:E.
  - destruct (Py.comprehension _ l); [discriminate|].
    intros [= <-]. by apply IH.
  - intros [= <-]. by apply (getitem_raises _ _ _ E).
Qed.

Lemma field_of_results_raises v k e :
  HydraParser.field_of_results v k = Raise e -> ok (cls e) = true.
Proof.
  unfold HydraParser.field_of_results.
  destruct (Py.getitem v "results") as [results|e'] eqn:E.
  - destruct (Py.iter results) as [entries|e''] eqn:E'.
    + apply comprehension_raises.
    + intros [= <-]. destruct results; simpl in E'; try discriminate;
        by injection E' as <-.
  - intros [= <-]. by apply (getitem_raises _ _ _ E).
Qed.

Lemma dict_from_raises pairs d e : Py.dict_from d pairs = Raise e -> ok (cls e) = true.
Proof.
  revert d. induction pairs as [|[k v] pairs IH]; intros d; simpl; [discriminate|].
  destruct (Py.hashable k); [apply IH|]. by intros [= <-].
Qed.

Hypothesis ok_OSError : ok OSError = true.
Hypothesis ok_UnicodeDecodeError : ok UnicodeDecodeError = true.
Hypothesis ok_JSONDecodeError : ok JSONDecodeError = true.
Hypothesis ok_ValueError : ok ValueError = true.
Hypothesis ok_RecursionError : ok RecursionError = true.
Hypothesis ok_HydraDecodeError : ok HydraDecodeError = true.

Lemma json2dict_raises (json_path : string) :
  raises_only ok (HydraParser.json2dict json_path).
Proof.
  unfold HydraParser.json2dict, HydraParser.json_opener, HydraParser.json_load.
  apply raises_only_bind.
  - apply raises_only_try_except.
    + apply raises_only_bind; [apply raises_only_get_fs|]. intros files.
      destruct (files !! json_path) as [[| |v| |]|];
        first [by apply raises_only_raise | apply raises_only_ret].
    + intros _. by apply raises_only_raise.
  - intros hydra_output. apply raises_only_try_except.
    + apply raises_only_bind; [apply raises_only_lift, field_of_results_raises|].
      intros login.
      apply raises_only_bind; [apply raises_only_lift, field_of_results_raises|].
      intros password. apply raises_only_lift. intros e. apply dict_from_raises.
    + intros _. by apply raises_only_raise.
Qed.

Hypothesis ok_HydraError : ok HydraError = true.
Hypothesis ok_UnknownHydraError : ok UnknownHydraError = true.

Lemma running_command_raises (env : Env) (command_string : string) :
  raises_only ok (_running_command env command_string).
Proof.
  intros st e. unfold _running_command, decode. exec.
  destruct (popen env _ _) as [|exit_code [stderr|] files'] eqn:Hpopen;
    [by intros [= <-]| |by intros [= <-]].
  - simpl. rewrite log_warnings_run. simpl.
    destruct (exit_code =? 0)%Z; [discriminate|].
    match goal with |- context [raise_first_error ?l ?s] =>
      destruct (raise_first_error_run l s) as (t & -> & _) end.
    destruct (first_error _); by intros [= <-].
Qed.

End RaisesOnly.

(** ** The block that owns the temporary file *)

Section Block.

Context (self : Hydra) (env : Env).

Lemma dual_command_run threads wait_time service port export_type ignore_restore_file
    user_wordlist pass_wordlist output_file_name st :
  exists t,
    forallb is_log t = true /\
    _user_and_pass_wordlists_string_generator self threads wait_time service port
      export_type ignore_restore_file user_wordlist pass_wordlist output_file_name st
    = (dual_command self (fs st) threads wait_time service port export_type
         ignore_restore_file user_wordlist pass_wordlist output_file_name,
       State (fs st) (self_threads st) (trace st ++ t)).
Proof.
  unfold _user_and_pass_wordlists_string_generator, dual_command, credential_words.
  destruct (bool_decide (service ∈ service_without_user));
    [|destruct user_wordlist as [user|]]; exec;
    try destruct (is_file (fs st) user); simpl;
    try (destruct pass_wordlist as [pass|]; simpl;
         [destruct (is_file (fs st) pass); simpl|]).
  all: first
    [ exists []; rewrite app_nil_r; by destruct st
    | eexists; split; [|rewrite <- ?app_assoc; reflexivity]; done ].
Qed.

Lemma running_command_trace command_string st :
  exists t,
    forallb is_log t = true /\
    trace (_running_command env command_string st).2 =
      trace st ++
      [Log INFO (Msg ("Running thc-hydra with following command : " +:+ command_string));
       Launch (Text.split command_string)] ++ t.
Proof.
  destruct (popen env (Text.split command_string) (fs st))
    as [|exit_code [stderr|] files'] eqn:Hpopen.
  - unfold _running_command. exec. rewrite Hpopen. simpl.
    exists []. by rewrite <- app_assoc.
  - destruct (running_command_run env _ _ _ _ _ Hpopen) as (t & Ht & ->). simpl.
    eexists. split; [|reflexivity].
    rewrite forallb_app, Ht, andb_true_r.
    unfold warning_records. by induction (List.filter _ _).
  - rewrite (running_command_garbled env _ _ _ _ Hpopen). simpl.
    by exists [].
Qed.

(** Running the command and parsing its output: one launch, log records,
    and no exception of the command builders. *)
Lemma run_and_parse command_string json_path st :
  let run := (_running_command env command_string ≫=
              fun _ => HydraParser.json2dict json_path) st in
  (forall e, run.1 = Raise e -> is_builder_error (cls e) = false) /\
  exists t,
    forallb is_log t = true /\
    trace run.2 =
      trace st ++
      [Log INFO (Msg ("Running thc-hydra with following command : " +:+ command_string));
       Launch (Text.split command_string)] ++ t.
Proof.
  intros run. split.
  - intros e He. apply negb_true_iff.
    revert st run e He.
    change (raises_only (fun c => negb (is_builder_error c))
              (_running_command env command_string ≫=
               fun _ => HydraParser.json2dict json_path)).
    apply raises_only_bind.
    + by apply running_command_raises.
    + intros _. by apply json2dict_raises.
  - subst run. rewrite run_bind.
    destruct (running_command_trace command_string st) as (t1 & Ht1 & Htrace).
    destruct (_running_command env command_string st) as [[[]|e] st1]; simpl in *.
    + destruct (json2dict_emits_logs is_log (fun _ _ => eq_refl) json_path st1)
        as (t2 & Ht2 & Hl2).
      exists (t1 ++ t2). split; [by rewrite forallb_app, Ht1, Hl2|].
      rewrite Ht2, Htrace. by rewrite <- !app_assoc.
    + by exists t1.
Qed.

(** Closing the temporary file while it is still there keeps the outcome
    of the block; otherwise the outcome is kept or is the error of the
    removal. *)
Lemma closed_present {A} (files : gmap string file) (name : string) (r : result A) :
  is_file files name = true -> closed env files name r = r.
Proof. intros H. unfold closed. by rewrite H. Qed.

Lemma closed_lenient {A} (files : gmap string file) (name : string) (r : result A) :
  unlink_missing_raises env = false -> closed env files name r = r.
Proof. intros H. unfold closed. by rewrite H, orb_true_r. Qed.

Lemma closed_cases {A} (files : gmap string file) (name : string) (r : result A) :
  closed env files name r = r \/
  is_file files name = false /\ unlink_missing_raises env = true /\
  closed env files name r = Raise (Exn OSError (Msg name)).
Proof.
  unfold closed. destruct (is_file files name), (unlink_missing_raises env); simpl; auto.
Qed.

Lemma is_file_created (name : string) (files : gmap string file) :
  is_file (<[name := Malformed]> files) name = true.
Proof. unfold is_file. apply bool_decide_eq_true. rewrite lookup_insert_eq. by eexists. Qed.

(** Whatever the block does, the temporary file is gone when it is left. *)
Lemma NamedTemporaryFile_deletes {A} (body : string -> M A) st :
  fs (NamedTemporaryFile env body st).2 !! tmp_name env = None.
Proof.
  unfold NamedTemporaryFile.
  destruct (body (tmp_name env) (tmp_created (tmp_name env) st)) as [r st'].
  simpl. apply lookup_delete_eq.
Qed.

Lemma bruteforce_block threads wait_time service port export_type ignore_restore_file
    user_wordlist pass_wordlist st :
  let run :=
    NamedTemporaryFile env (fun tmp_file_name =>
      command_string ←
        _user_and_pass_wordlists_string_generator self threads wait_time service port
          export_type ignore_restore_file user_wordlist pass_wordlist (Some tmp_file_name);
      _running_command env command_string;;
      HydraParser.json2dict tmp_file_name) st in
  exists t,
    trace run.2 = trace st ++ t /\
    match dual_command self (<[tmp_name env := Malformed]> (fs st)) threads wait_time
            service port export_type ignore_restore_file user_wordlist pass_wordlist
            (Some (tmp_name env)) with
    | Raise e => run.1 = Raise e /\ launches t = []
    | Ok command_string =>
        (forall e, run.1 = Raise e -> is_builder_error (cls e) = false) /\
        launches t = [Text.split command_string]
    end.
Proof.
  intros run. subst run. unfold NamedTemporaryFile. rewrite run_bind.
  destruct (dual_command_run threads wait_time service port export_type
              ignore_restore_file user_wordlist pass_wordlist (Some (tmp_name env))
              (tmp_created (tmp_name env) st)) as (t1 & Ht1 & ->).
  simpl fs. simpl self_threads. simpl trace.
  destruct (dual_command _ _ _ _ _ _ _ _ _ _ _) as [command_string|e].
  - match goal with |- context [(_running_command env command_string ≫= ?k) ?s] =>
      destruct (run_and_parse command_string (tmp_name env) s) as (Hcls & t2 & Ht2 & Htr);
      destruct ((_running_command env command_string ≫= k) s) as [r st2] end.
    simpl in *. eexists. split.
    + rewrite Htr. rewrite <- !app_assoc. reflexivity.
    + split.
      * intros e He.
        destruct (closed_cases (fs st2) (tmp_name env) r) as [Hr|(_ & _ & Hr)];
          rewrite Hr in He; [by apply Hcls|by injection He as <-].
      * rewrite !launches_app. simpl.
        by rewrite (launches_logs _ Ht1), (launches_logs _ Ht2).
  - simpl. rewrite closed_present by apply is_file_created. eexists. split.
    + rewrite <- !app_assoc. reflexivity.
    + split; [done|]. rewrite !launches_app. simpl.
      by rewrite (launches_logs _ Ht1).
Qed.

(** C6. With the other arguments valid and the service supported,
    [bruteforce] fails with the no-wordlist-given error, and starts no
    process, when the user wordlist is absent and the service is not in the
    list of services without a username, and, for every service, when the
    password wordlist is absent.  For a service in that list the user
    wordlist is not asked for: with a password given the command is built
    from the password alone and the process is started, and the call does
    not end in the no-wordlist-given error. *)
Theorem C6_an_absent_wordlist_stops_the_call_before_launch
    service port n user_wordlist pass_wordlist threads export_type ignore_restore_file
    wait_time st :
  int env port = Some n ->
  export_type ∈ valid_outputs ->
  lower env service ∈ supported_services self ->
  let run := bruteforce self env service port user_wordlist pass_wordlist threads
               export_type ignore_restore_file wait_time st in
  (lower env service ∉ service_without_user -> user_wordlist = None ->
   run.1 = Raise (Exn HydraNoWordlistGiven (Msg "user_wordlist is None")) /\
   launches (during st run.2) = []) /\
  (pass_wordlist = None ->
   (exists m, run.1 = Raise (Exn HydraNoWordlistGiven (Msg m))) /\
   launches (during st run.2) = []) /\
  (lower env service ∈ service_without_user ->
   forall pass, pass_wordlist = Some pass ->
   (forall e, run.1 = Raise e -> cls e <> HydraNoWordlistGiven) /\
   launches (during st run.2) =
     [Text.split
        ((base_command self (lower env service) n wait_time +:+
          credential_words (<[tmp_name env := Malformed]> (fs st)) "-P" "-p" pass) +:+
         _default_string_generator threads (Some (tmp_name env)) (lower env export_type)
           ignore_restore_file)]).
Proof.
  intros Hport Het Hsupp run. subst run.
  rewrite bruteforce_run, Hport. simpl.
  rewrite (bool_decide_eq_true_2 _ Het), (bool_decide_eq_true_2 _ Hsupp).
  destruct (checks_trace INFO user_wordlist pass_wordlist threads st)
    as (Hfs & t0 & Ht0 & Hl0).
  destruct (bruteforce_block threads wait_time (lower env service) n
              (lower env export_type) ignore_restore_file user_wordlist pass_wordlist
              (clamped INFO threads (warned user_wordlist pass_wordlist st)))
    as (t & Ht & Hblock).
  rewrite Hfs in Hblock. rewrite Ht0 in Ht.
  assert (Hlaunch : launches (during st
            (NamedTemporaryFile env (fun tmp_file_name =>
               command_string ←
                 _user_and_pass_wordlists_string_generator self threads wait_time
                   (lower env service) n (lower env export_type) ignore_restore_file
                   user_wordlist pass_wordlist (Some tmp_file_name);
               _running_command env command_string;;
               HydraParser.json2dict tmp_file_name)
               (clamped INFO threads (warned user_wordlist pass_wordlist st))).2)
          = launches t).
  { rewrite <- app_assoc in Ht. rewrite (during_app _ _ _ Ht), launches_app.
    by rewrite (launches_logs _ Hl0). }
  rewrite Hlaunch. clear Hlaunch Ht.
  unfold dual_command in Hblock.
  split; [|split].
  - intros Hservice ->.
    rewrite (bool_decide_eq_false_2 _ Hservice) in Hblock. exact Hblock.
  - intros ->.
    destruct (bool_decide (lower env service ∈ service_without_user));
      [|destruct user_wordlist]; destruct Hblock as [-> ->]; eauto.
  - intros Hservice pass ->.
    rewrite (bool_decide_eq_true_2 _ Hservice) in Hblock.
    destruct Hblock as [Hcls ->]. split; [|reflexivity].
    intros e He Hno. specialize (Hcls e He). rewrite Hno in Hcls. discriminate.
Qed.

(** C9. Whenever a call of either entry point gets as far as creating its
    temporary output file, that file is no longer on disk when the call
    ends, whether it returns or raises; closing the file is the last thing
    the call does. *)
Theorem C9_the_temporary_file_is_gone_after_the_call
    service port user_wordlist pass_wordlist userpass_wordlist_path threads export_type
    ignore_restore_file wait_time st :
  let run1 := bruteforce self env service port user_wordlist pass_wordlist threads
                export_type ignore_restore_file wait_time st in
  let run2 := bruteforce_with_userpass_wordlist self env service port
                userpass_wordlist_path threads export_type ignore_restore_file
                wait_time st in
  (TmpCreate (tmp_name env) ∈ during st run1.2 ->
   fs run1.2 !! tmp_name env = None /\
   last (trace run1.2) = Some (TmpDelete (tmp_name env))) /\
  (TmpCreate (tmp_name env) ∈ during st run2.2 ->
   fs run2.2 !! tmp_name env = None /\
   last (trace run2.2) = Some (TmpDelete (tmp_name env))).
Proof.
  assert (Hlogs : forall t, forallb is_log t = true -> TmpCreate (tmp_name env) ∉ t).
  { intros t Ht Hin. rewrite forallb_forall in Ht.
    apply list_elem_of_In, Ht in Hin. discriminate. }
  assert (Hblock : forall A (body : string -> M A) st1,
    fs (NamedTemporaryFile env body st1).2 !! tmp_name env = None /\
    last (trace (NamedTemporaryFile env body st1).2) = Some (TmpDelete (tmp_name env))).
  { intros A body st1. split; [apply NamedTemporaryFile_deletes|].
    unfold NamedTemporaryFile.
    destruct (body (tmp_name env) (tmp_created (tmp_name env) st1)) as [r st'].
    simpl. apply last_snoc. }
  intros run1 run2. subst run1 run2.
  rewrite bruteforce_run, bruteforce_with_userpass_wordlist_run. simpl.
  destruct (warned_trace user_wordlist pass_wordlist st) as (_ & tw & Htw & Hlw).
  pose proof (checks_trace INFO user_wordlist pass_wordlist threads st) as (_ & Hc1).
  pose proof (checks_trace WARNING (Some "") (Some "") threads st) as (_ & Hc2).
  rewrite warned_present in Hc2.
  split.
  - destruct (int env port) as [n|]; simpl.
    + destruct (bool_decide (export_type ∈ valid_outputs)); simpl.
      * destruct (bool_decide (lower env service ∈ supported_services self)); simpl.
        { intros _. apply Hblock. }
        destruct (bool_decide (lower env service ∈ unsupported_services self)); simpl;
          intros Hin; exfalso; revert Hin; apply Hlogs, during_record; done.
      * intros Hin; exfalso; revert Hin. by apply Hlogs, (during_logs _ _ tw).
    + intros Hin; exfalso; revert Hin. by apply Hlogs, (during_logs _ _ tw).
  - destruct (is_file (fs st) (abspath env userpass_wordlist_path)); simpl.
    + destruct (int env port) as [n|]; simpl.
      * destruct (bool_decide (export_type ∈ valid_outputs)); simpl.
        { destruct (bool_decide (lower env service ∈ supported_services self)); simpl.
          { intros _. apply Hblock. }
          destruct (bool_decide (lower env service ∈ unsupported_services self)); simpl;
            intros Hin; exfalso; revert Hin; apply Hlogs, during_record; done. }
        rewrite during_same. by intros ?%elem_of_nil.
      * rewrite during_same. by intros ?%elem_of_nil.
    + rewrite during_same. by intros ?%elem_of_nil.
Qed.

(** The check made on entry settles the existence of the combined
    wordlist, so the command builder always finds it: the call never ends in
    [HydraFileDoesNotExist]. *)
Lemma userpass_entry_never_raises_HydraFileDoesNotExist
    service port userpass_wordlist_path threads export_type ignore_restore_file
    wait_time st e :
  (bruteforce_with_userpass_wordlist self env service port userpass_wordlist_path
     threads export_type ignore_restore_file wait_time st).1 = Raise e ->
  cls e <> HydraFileDoesNotExist.
Proof.
  rewrite bruteforce_with_userpass_wordlist_run.
  destruct (is_file (fs st) (abspath env userpass_wordlist_path)) eqn:Hfile;
    [|by intros [= <-]].
  destruct (int env port) as [n|]; [|by intros [= <-]].
  destruct (bool_decide (export_type ∈ valid_outputs)); [|by intros [= <-]].
  simpl.
  destruct (bool_decide (lower env service ∈ supported_services self)).
  - unfold NamedTemporaryFile, _userpass_wordlist_string_generator.
    rewrite run_bind. exec.
    assert (is_file (<[tmp_name env:=Malformed]> (fs (clamped WARNING threads st)))
              (abspath env userpass_wordlist_path) = true) as ->.
    { destruct (clamped_trace WARNING threads st) as [-> _].
      unfold is_file in *. apply bool_decide_eq_true. apply bool_decide_eq_true in Hfile.
      rewrite lookup_insert. case_decide; [by eexists|done]. }
    simpl.
    match goal with |- context [_running_command env ?c ?s] =>
      pose proof (run_and_parse c (tmp_name env) s) as [Hcls _];
      rewrite run_bind in Hcls;
      destruct (_running_command env c s) as [[[]|e'] st1] end; simpl in *.
    + destruct (HydraParser.json2dict (tmp_name env) st1) as [r st2]; simpl in *.
      intros Hrun He.
      destruct (closed_cases (fs st2) (tmp_name env) r) as [Hr|(_ & _ & Hr)];
        rewrite Hr in Hrun.
      * specialize (Hcls _ Hrun). by rewrite He in Hcls.
      * injection Hrun as <-. discriminate He.
    + intros Hrun He.
      destruct (closed_cases (fs st1) (tmp_name env) (Raise (A:=Py.dict) e'))
        as [Hr|(_ & _ & Hr)]; rewrite Hr in Hrun.
      * specialize (Hcls _ Hrun). by rewrite He in Hcls.
      * injection Hrun as <-. discriminate He.
  - destruct (bool_decide (lower env service ∈ unsupported_services self));
      by intros [= <-].
Qed.

End Block.

(** ** The properties on a concrete world *)

Section Runs.

Import Demo.

(** C1, as the code has it. A requested thread count of 100 is logged as
    reduced and [self.threads] becomes 64, but the command line is built
    from the argument, not from the attribute: the process of either entry
    point is started with [-t 100]. *)
Theorem C1_thread_count_above_64_reaches_the_command_line :
  let run1 := bruteforce hydra (env 0 "" (Document found)) "ssh" (PortInt 22)
                (Some "users.txt") (Some "pass.txt") 100 "json" true 2 start in
  let run2 := bruteforce_with_userpass_wordlist hydra (env 0 "" (Document found)) "ssh"
                (PortInt 22) "combo.txt" 100 "json" true 2 start in
  self_threads run1.2 = 64 /\
  launches (trace run1.2) =
    [["/usr/bin/hydra"; "ssh://10.0.0.5:22"; "-w"; "2"; "-L"; "users.txt"; "-P"; "pass.txt";
      "-t"; "100"; "-o"; "/tmp/tmpk3x9"; "-b"; "json"; "-I"]] /\
  flag_value "-t" <$> launches (trace run1.2) = [Some "100"] /\
  self_threads run2.2 = 64 /\
  launches (trace run2.2) =
    [["/usr/bin/hydra"; "ssh://10.0.0.5:22"; "-w"; "2"; "-C"; "/home/user/combo.txt";
      "-t"; "100"; "-o"; "/tmp/tmpk3x9"; "-b"; "json"; "-I"]] /\
  flag_value "-t" <$> launches (trace run2.2) = [Some "100"].
Proof. vm_compute. repeat split. Qed.

(** For the service "redis", which is in the list of services without a
    username, a user wordlist that names an existing file is given and the
    command has neither [-L] nor [-l]. *)
Lemma C7_counterexample_service_without_username :
  is_file (fs start) "users.txt" = true /\
  (_user_and_pass_wordlists_string_generator hydra 4 2 "redis" 6379 "json" true
     (Some "users.txt") (Some "pass.txt") (Some "/tmp/tmpk3x9") start).1
  = Ok "/usr/bin/hydra redis://10.0.0.5:6379 -w 2 -P pass.txt -t 4 -o /tmp/tmpk3x9 -b json -I" /\
  launches (trace (bruteforce hydra (env 0 "" (Document found)) "redis" (PortInt 6379)
                     (Some "users.txt") (Some "pass.txt") 4 "json" true 2 start).2)
  = [["/usr/bin/hydra"; "redis://10.0.0.5:6379"; "-w"; "2"; "-P"; "pass.txt";
      "-t"; "4"; "-o"; "/tmp/tmpk3x9"; "-b"; "json"; "-I"]].
Proof. vm_compute. repeat split. Qed.

Lemma C7_credentials_witness :
  (_user_and_pass_wordlists_string_generator hydra 4 2 "ssh" 22 "json" true
     (Some "users.txt") (Some "hunter2") (Some "/tmp/tmpk3x9") start).1
  = Ok "/usr/bin/hydra ssh://10.0.0.5:22 -w 2 -L users.txt -p hunter2 -t 4 -o /tmp/tmpk3x9 -b json -I".
Proof.
  refine (proj1 (C7_existing_file_is_a_wordlist_else_a_literal hydra 4 2 "ssh" 22 "json"
                   true None "users.txt" "hunter2" (Some "/tmp/tmpk3x9") start) _).
  apply (bool_decide_unpack _). vm_compute. exact I.
Defined.

Lemma C6_absent_user_wordlist_witness :
  (bruteforce hydra (env 0 "" (Document found)) "ssh" (PortInt 22) None (Some "pass.txt")
     4 "json" true 2 start).1
  = Raise (Exn HydraNoWordlistGiven (Msg "user_wordlist is None")).
Proof.
  refine (proj1 (proj1 (C6_an_absent_wordlist_stops_the_call_before_launch
                          hydra (env 0 "" (Document found)) "ssh" (PortInt 22) 22 None
                          (Some "pass.txt") 4 "json" true 2 start _ _ _) _ _)).
  - reflexivity.
  - apply (bool_decide_unpack _). vm_compute. exact I.
  - apply (bool_decide_unpack _). vm_compute. exact I.
  - apply (bool_decide_unpack _). vm_compute. exact I.
  - reflexivity.
Defined.

Lemma C8_first_error_line_witness :
  let stderr := "[WARNING] slow" +:+ String Text.newline "[ERROR] could not connect" in
  (_running_command (env 255 stderr Malformed) "/usr/bin/hydra ssh://10.0.0.5:22" start).1
  = Raise (Exn HydraError (Msg "[ERROR] could not connect")).
Proof.
  intros stderr.
  refine (proj1 (proj2 (C8_exit_code_and_error_lines_decide_the_outcome
                          (env 255 stderr Malformed) "/usr/bin/hydra ssh://10.0.0.5:22"
                          start 255 stderr (fs start) _))
            _ ["[WARNING] slow"] "[ERROR] could not connect" [] _ _ _).
  - reflexivity.
  - discriminate.
  - reflexivity.
  - reflexivity.
  - reflexivity.
Defined.

(** Standard error that is not UTF-8: [stderr.decode()] fails before any
    line is looked at.  With exit code 255 the runner ends in
    [UnicodeDecodeError], which is neither [HydraError] nor
    [UnknownHydraError]; with exit code zero it ends in the same way and
    does not return. *)
Lemma C8_counterexample_undecodable_stderr :
  let command_string := "/usr/bin/hydra ssh://10.0.0.5:22" in
  let failing := (_running_command (garbled 255 Malformed) command_string start).1 in
  let zero := (_running_command (garbled 0 (Document found)) command_string start).1 in
  popen (garbled 255 Malformed) (Text.split command_string) (fs start)
    = Exits 255 NotUtf8 (fs start) /\
  popen (garbled 0 (Document found)) (Text.split command_string) (fs start)
    = Exits 0 NotUtf8 (fs start) /\
  (exists a, failing = Raise (Exn UnicodeDecodeError a)) /\
  (forall a, failing <> Raise (Exn HydraError a)) /\
  (forall a, failing <> Raise (Exn UnknownHydraError a)) /\
  (exists a, zero = Raise (Exn UnicodeDecodeError a)) /\
  zero <> Ok tt.
Proof.
  vm_compute. repeat split; try discriminate; by eexists.
Qed.

Lemma C9_temporary_file_witness :
  let run := bruteforce hydra (env 255 "[ERROR] could not connect" Malformed) "ssh"
               (PortInt 22) (Some "users.txt") (Some "pass.txt") 4 "json" true 2 start in
  fs run.2 !! "/tmp/tmpk3x9" = None /\
  last (trace run.2) = Some (TmpDelete "/tmp/tmpk3x9").
Proof.
  refine (proj1 (C9_the_temporary_file_is_gone_after_the_call
                   hydra (env 255 "[ERROR] could not connect" Malformed) "ssh" (PortInt 22)
                   (Some "users.txt") (Some "pass.txt") "combo.txt" 4 "json" true 2 start) _).
  apply (bool_decide_unpack _). vm_compute. exact I.
Defined.

End Runs.

(** * Further properties *)

(** ** The parser on every kind of file *)

Section MoreParserFacts.

Import Py HydraParser.

(** [json2dict], whole: its result and its log depend on the file at the
    path alone, and it changes nothing else. *)
Lemma json2dict_run (json_path : string) (st : state) :
  json2dict json_path st =
    ((parse_result json_path (fs st !! json_path)).1,
     State (fs st) (self_threads st)
       (trace st ++ (parse_result json_path (fs st !! json_path)).2)).
Proof.
  destruct (fs st !! json_path) as [[| |v| |]|] eqn:Hfile.
  - unfold json2dict, json_opener, json_load, try_except. exec. rewrite Hfile. simpl.
    rewrite app_nil_r. by destruct st.
  - rewrite (json2dict_malformed _ _ Hfile). reflexivity.
  - rewrite (json2dict_document _ _ _ Hfile). simpl.
    destruct (credentials_of v) as [d|e]; simpl.
    + rewrite app_nil_r. by destruct st.
    + destruct (subclass (cls e) KeyError); simpl; [reflexivity|].
      rewrite app_nil_r. by destruct st.
  - unfold json2dict, json_opener, json_load, try_except. exec. rewrite Hfile. simpl.
    rewrite app_nil_r. by destruct st.
  - unfold json2dict, json_opener, json_load, try_except. exec. rewrite Hfile. simpl.
    rewrite app_nil_r. by destruct st.
  - unfold json2dict, json_opener, json_load, try_except. exec. rewrite Hfile. simpl.
    rewrite app_nil_r. by destruct st.
Qed.



(** X2. A document whose top level is not an object (an array, a string, a
    number, a boolean or null) makes [json2dict] fail with [TypeError]: the
    subscript by "results" is not a missing key, so [except KeyError] does
    not apply, and nothing is logged. *)
Theorem json2dict_top_level_not_an_object (json_path : string) (st : state) (v : json) :
  fs st !! json_path = Some (Document v) ->
  is_object v = false ->
  exists m, json2dict json_path st = (Raise (Exn TypeError (Msg m)), st).
Proof.
  intros Hfile Hobj. rewrite (json2dict_document _ _ _ Hfile).
  destruct v; try discriminate; by eexists.
Qed.

Lemma json2dict_top_level_not_an_object_witness :
  exists m,
    json2dict "/tmp/out" (State {[ "/tmp/out" := Document (JArr []) ]} 4 [])
    = (Raise (Exn TypeError (Msg m)), State {[ "/tmp/out" := Document (JArr []) ]} 4 []).
Proof.
  exact (json2dict_top_level_not_an_object "/tmp/out"
           (State {[ "/tmp/out" := Document (JArr []) ]} 4 []) (JArr []) eq_refl eq_refl).
Defined.

(** X3. [json2dict] never changes the files on disk nor [self.threads].  It
    leaves exactly one log record, at critical level, when it ends in
    [HydraDecodeError], and none in every other case. *)
Theorem json2dict_changes_nothing_and_logs_its_own_error
    (json_path : string) (st : state) :
  let run := json2dict json_path st in
  fs run.2 = fs st /\
  self_threads run.2 = self_threads st /\
  ((exists m, run.1 = Raise (Exn HydraDecodeError m) /\
              during st run.2 = [Log CRITICAL m]) \/
   ((forall m, run.1 <> Raise (Exn HydraDecodeError m)) /\ during st run.2 = [])).
Proof.
  intros run. subst run. rewrite json2dict_run. simpl.
  split; [reflexivity|]. split; [reflexivity|].
  assert (Hduring : forall t,
    during st (State (fs st) (self_threads st) (trace st ++ t)) = t)
    by (intros t; by apply during_app).
  rewrite Hduring.
  destruct (fs st !! json_path) as [[| |v| |]|]; simpl.
  - right. split; [|reflexivity]. discriminate.
  - left. by eexists.
  - pose proof (field_of_results_raises (fun c => negb (bool_decide (c = HydraDecodeError)))
                  eq_refl eq_refl v) as Hfield.
    pose proof (dict_from_raises (fun c => negb (bool_decide (c = HydraDecodeError)))
                  eq_refl) as Hdict.
    unfold credentials_of.
    destruct (field_of_results v "login") as [login|e] eqn:El; simpl.
    + destruct (field_of_results v "password") as [password|e] eqn:Ep; simpl.
      * destruct (dict_of (zip login password)) as [d|e] eqn:Ed; simpl.
        { right. split; [|reflexivity]. discriminate. }
        destruct (subclass (cls e) KeyError); simpl; [left; by eexists|].
        right. split; [|reflexivity]. intros m [= ->].
        by specialize (Hdict _ _ _ Ed).
      * destruct (subclass (cls e) KeyError); simpl; [left; by eexists|].
        right. split; [|reflexivity]. intros m [= ->].
        by specialize (Hfield _ _ Ep).
    + destruct (subclass (cls e) KeyError); simpl; [left; by eexists|].
      right. split; [|reflexivity]. intros m [= ->].
      by specialize (Hfield _ _ El).
  - right. split; [|reflexivity]. discriminate.
  - right. split; [|reflexivity]. discriminate.
  - right. split; [|reflexivity]. discriminate.
Qed.

Lemma comprehension_fields (entries : list json) (pairs : list (json * json)) :
  Forall2 login_and_password entries pairs ->
  comprehension (fun x => getitem x "login") entries = Ok pairs.*1 /\
  comprehension (fun x => getitem x "password") entries = Ok pairs.*2.
Proof.
  induction 1 as [|entry kv entries pairs (fields & -> & Hl & Hp) _ [IHl IHp]]; simpl.
  - done.
  - by rewrite Hl, Hp, IHl, IHp.
Qed.

Lemma dict_from_hashable (pairs : list (json * json)) (d0 : dict) :
  Forall (fun kv => hashable kv.1 = true) pairs ->
  exists d, dict_from d0 pairs = Ok d /\ (length d <= length d0 + length pairs)%nat.
Proof.
  intros Hall. revert d0.
  induction Hall as [|[k v] pairs Hk _ IH]; intros d0; simpl in *.
  - exists d0. split; [done|lia].
  - rewrite Hk. destruct (IH (setitem k v d0)) as (d & -> & Hlen).
    exists d. split; [done|].
    assert (length (setitem k v d0) <= S (length d0))%nat.
    { clear. induction d0 as [|[k0 v0] d0 IH]; simpl; [lia|].
      destruct (key_eqb k0 k); simpl; lia. }
    lia.
Qed.

Lemma dict_from_unhashable (pairs : list (json * json)) (d0 : dict) :
  Exists (fun kv => hashable kv.1 = false) pairs ->
  exists m, dict_from d0 pairs = Raise (Exn TypeError (Msg m)).
Proof.
  intros Hex. revert d0.
  induction Hex as [[k v] pairs Hk|[k v] pairs _ IH]; intros d0; simpl in *.
  - rewrite Hk. by eexists.
  - destruct (hashable k); [apply IH|by eexists].
Qed.

Lemma dict_from_first_unhashable (before after : list (json * json)) (k v : json)
    (d0 : dict) :
  Forall (fun kv => hashable kv.1 = true) before ->
  hashable k = false ->
  dict_from d0 (before ++ (k, v) :: after)
  = Raise (Exn TypeError (Msg ("unhashable type: '" +:+ type_name k +:+ "'"))).
Proof.
  intros Hbefore Hk. revert d0.
  induction Hbefore as [|[k0 v0] before Hk0 _ IH]; intros d0; simpl.
  - by rewrite Hk.
  - simpl in Hk0. rewrite Hk0. apply IH.
Qed.

Lemma key_eqb_refl (k : json) : hashable k = true -> key_eqb k k = true.
Proof.
  destruct k as [|b|n|s| |]; simpl; try done; intros _.
  - by destruct b.
  - apply Z.eqb_refl.
  - apply String.eqb_refl.
Qed.

(** Every key given to [dict(...)] can be looked up in the result. *)
Lemma dict_from_lookup (pairs : list (json * json)) (d0 d : dict) (k : json) :
  dict_from d0 pairs = Ok d ->
  is_Some (getkey k d0) \/ (exists v, (k, v) ∈ pairs) ->
  is_Some (getkey k d).
Proof.
  revert d0. induction pairs as [|[k0 v0] pairs IH]; intros d0; simpl.
  - intros [= <-] [H|[v Hin]]; [exact H|]. by apply elem_of_nil in Hin.
  - destruct (hashable k0) eqn:Hk0; [|discriminate].
    intros Hd Hk. apply (IH _ Hd).
    destruct Hk as [Hk|[v Hin]].
    + left. rewrite getkey_setitem. by destruct (key_eqb k0 k).
    + apply elem_of_cons in Hin as [[= -> ->]|Hin].
      * left. rewrite getkey_setitem, key_eqb_refl by done. by eexists.
      * right. by exists v.
Qed.

(** X4. A login that cannot be the key of a dictionary.  For a results
    array whose entries are objects that each carry "login" and "password",
    the logins being strings, null, booleans, integers, arrays or objects:
    as soon as one login is an array or an object, [json2dict] fails with
    the [TypeError] that [dict] raises for the first such login, which
    [except KeyError] does not catch; nothing is logged or changed.  When
    no login is one, it returns a dictionary with at most one item per
    entry in which every login of the file can be looked up. *)
Theorem json2dict_fails_on_the_first_unhashable_login
    (json_path : string) (st : state) (o : list (string * json))
    (entries : list json) (pairs : list (json * json)) :
  fs st !! json_path = Some (Document (JObj o)) ->
  assoc "results" o = Some (JArr entries) ->
  Forall2 login_and_password entries pairs ->
  (forall before k v after,
     pairs = before ++ (k, v) :: after ->
     Forall (fun kv => hashable kv.1 = true) before ->
     hashable k = false ->
     json2dict json_path st
     = (Raise (Exn TypeError (Msg ("unhashable type: '" +:+ type_name k +:+ "'"))),
        st)) /\
  (Forall (fun kv => hashable kv.1 = true) pairs ->
   exists d,
     json2dict json_path st = (Ok d, st) /\
     (length d <= length entries)%nat /\
     forall kv, kv ∈ pairs -> is_Some (getkey kv.1 d)).
Proof.
  intros Hfile Hres Hentries.
  destruct (comprehension_fields _ _ Hentries) as [Hl Hp].
  assert (Hrun : json2dict json_path st =
            match dict_of pairs with
            | Ok d => (Ok d, st)
            | Raise e =>
                if subclass (cls e) KeyError
                then (Raise (parse_failure json_path),
                      record (Log CRITICAL (arg (parse_failure json_path))) st)
                else (Raise e, st)
            end).
  { rewrite (json2dict_document _ _ _ Hfile).
    unfold credentials_of, field_of_results. simpl. rewrite Hres. simpl.
    by rewrite Hl, Hp, zip_fst_snd. }
  rewrite Hrun. split.
  - intros before k v after -> Hbefore Hk. unfold dict_of.
    by rewrite (dict_from_first_unhashable before after k v [] Hbefore Hk).
  - intros Hall. destruct (dict_from_hashable pairs [] Hall) as (d & Hd & Hlen).
    unfold dict_of. rewrite Hd. exists d. split; [reflexivity|]. split.
    + rewrite (Forall2_length _ _ _ Hentries). simpl in Hlen. lia.
    + intros [k v] Hin. apply (dict_from_lookup pairs [] d k Hd).
      right. by exists v.
Qed.

Lemma json2dict_fails_on_the_first_unhashable_login_witness :
  let doc := JObj [("results",
                    JArr [JObj [("login", JInt 7); ("password", JStr "x")];
                          JObj [("login", JArr []); ("password", JStr "y")];
                          JObj [("login", JObj []); ("password", JStr "z")]])] in
  let st := State {[ "/tmp/out" := Document doc ]} 4 [] in
  json2dict "/tmp/out" st = (Raise (Exn TypeError (Msg "unhashable type: 'list'")), st).
Proof.
  intros doc st.
  assert (Hentries : Forall2 login_and_password
            [JObj [("login", JInt 7); ("password", JStr "x")];
             JObj [("login", JArr []); ("password", JStr "y")];
             JObj [("login", JObj []); ("password", JStr "z")]]
            [(JInt 7, JStr "x"); (JArr [], JStr "y"); (JObj [], JStr "z")]).
  { repeat constructor; eexists; repeat split; reflexivity. }
  refine (proj1 (json2dict_fails_on_the_first_unhashable_login "/tmp/out" st
                   [("results",
                     JArr [JObj [("login", JInt 7); ("password", JStr "x")];
                           JObj [("login", JArr []); ("password", JStr "y")];
                           JObj [("login", JObj []); ("password", JStr "z")]])]
                   _ _ eq_refl eq_refl Hentries)
            [(JInt 7, JStr "x")] (JArr []) (JStr "y") [(JObj [], JStr "z")]
            eq_refl _ eq_refl).
  repeat constructor.
Defined.

Lemma add_key_cons (k0 l : string) (ks : list string) :
  k0 <> l -> add_key (k0 :: ks) l = k0 :: add_key ks l.
Proof.
  intros Hne. unfold add_key.
  destruct (decide (l ∈ ks)) as [Hin|Hin].
  - rewrite !bool_decide_eq_true_2; [done..|]. by apply list_elem_of_further.
  - rewrite !bool_decide_eq_false_2; [done..|].
    intros [->|?]%elem_of_cons; done.
Qed.

Lemma setitem_keys (l : string) (v : json) (d : dict) (ks : list string) :
  d.*1 = JStr <$> ks -> (setitem (JStr l) v d).*1 = JStr <$> add_key ks l.
Proof.
  revert ks. induction d as [|[k0 v0] d IH]; intros ks Hks.
  - destruct ks; [|discriminate]. reflexivity.
  - destruct ks as [|k0s ks]; [discriminate|]. rewrite !fmap_cons in Hks.
    simpl in Hks. injection Hks as -> Hks.
    change (setitem (JStr l) v ((JStr k0s, v0) :: d))
      with (if String.eqb k0s l then (JStr k0s, v) :: d
            else (JStr k0s, v0) :: setitem (JStr l) v d).
    destruct (String.eqb_spec k0s l) as [->|Hne].
    + unfold add_key. rewrite bool_decide_eq_true_2 by apply list_elem_of_here.
      rewrite !fmap_cons. simpl. by rewrite Hks.
    + rewrite add_key_cons by done. rewrite !fmap_cons. simpl. f_equal.
      by apply IH.
Qed.

Lemma dict_from_keys (creds : list (string * json)) (d0 : dict) (ks : list string) :
  d0.*1 = JStr <$> ks ->
  exists d, dict_from d0 (zip (JStr <$> creds.*1) creds.*2) = Ok d /\
            d.*1 = JStr <$> fold_left add_key creds.*1 ks.
Proof.
  revert d0 ks. induction creds as [|[l v] creds IH]; intros d0 ks Hks; simpl.
  - by exists d0.
  - apply IH. by apply setitem_keys.
Qed.

Lemma add_key_NoDup (ks : list string) (k : string) : NoDup ks -> NoDup (add_key ks k).
Proof.
  intros Hks. unfold add_key. case_bool_decide; [done|].
  apply NoDup_app. split; [done|]. split.
  - intros x Hx ->%list_elem_of_singleton. done.
  - apply NoDup_singleton.
Qed.

Lemma fold_add_key (l ks : list string) :
  NoDup ks ->
  NoDup (fold_left add_key l ks) /\
  (forall x, x ∈ fold_left add_key l ks <-> x ∈ ks \/ x ∈ l) /\
  (length (fold_left add_key l ks) <= length ks + length l)%nat.
Proof.
  revert ks. induction l as [|k l IH]; intros ks Hks; simpl.
  - split; [done|]. split; [|lia]. intros x. rewrite elem_of_nil. tauto.
  - destruct (IH (add_key ks k) (add_key_NoDup _ _ Hks)) as (Hnd & Hel & Hlen).
    split; [done|]. split.
    + intros x. rewrite Hel, elem_of_cons. unfold add_key.
      case_bool_decide as Hin.
      * split; [tauto|]. intros [?|[->|?]]; tauto.
      * rewrite elem_of_app, list_elem_of_singleton. tauto.
    + assert (length (add_key ks k) <= S (length ks))%nat.
      { unfold add_key. case_bool_decide; [lia|]. rewrite length_app. simpl. lia. }
      lia.
Qed.

(** X5. For a well-formed output file with string logins, the dictionary
    [json2dict] returns holds the logins of the file as its keys, each once,
    in the order of their first occurrence in the results array; it has as
    many items as there are distinct logins. *)
Theorem json2dict_keys_are_the_distinct_logins_in_order
    (json_path : string) (st : state) (o : list (string * json))
    (entries : list json) (creds : list (string * json)) :
  fs st !! json_path = Some (Document (JObj o)) ->
  assoc "results" o = Some (JArr entries) ->
  Forall2 credential entries creds ->
  exists d,
    json2dict json_path st = (Ok d, st) /\
    d.*1 = JStr <$> first_occurrences creds.*1 /\
    NoDup (first_occurrences creds.*1) /\
    (forall l, l ∈ first_occurrences creds.*1 <-> l ∈ creds.*1) /\
    (length d <= length entries)%nat.
Proof.
  intros Hfile Hres Hcreds.
  destruct (dict_from_keys creds [] [] eq_refl) as (d & Hd & Hkeys).
  destruct (fold_add_key creds.*1 [] (NoDup_nil_2)) as (Hnd & Hel & Hlen).
  exists d. split; [|split; [exact Hkeys|split; [exact Hnd|split]]].
  - rewrite (json2dict_document _ _ _ Hfile).
    unfold credentials_of, field_of_results. simpl. rewrite Hres. simpl.
    rewrite (comprehension_login _ _ Hcreds), (comprehension_password _ _ Hcreds).
    unfold dict_of. by rewrite Hd.
  - intros l. rewrite (Hel l), elem_of_nil. tauto.
  - rewrite <- (length_fmap fst d), Hkeys, length_fmap.
    rewrite (Forall2_length _ _ _ Hcreds).
    unfold first_occurrences. rewrite length_fmap in Hlen. simpl in Hlen. lia.
Qed.

Lemma json2dict_keys_witness :
  let doc := JObj [("results",
                    JArr [JObj [("login", JStr "b"); ("password", JStr "1")];
                          JObj [("login", JStr "a"); ("password", JStr "2")];
                          JObj [("login", JStr "b"); ("password", JStr "3")]])] in
  let st := State {[ "/tmp/out" := Document doc ]} 4 [] in
  exists d, json2dict "/tmp/out" st = (Ok d, st) /\ d.*1 = [JStr "b"; JStr "a"].
Proof.
  intros doc st.
  destruct (json2dict_keys_are_the_distinct_logins_in_order "/tmp/out" st
              [("results",
                JArr [JObj [("login", JStr "b"); ("password", JStr "1")];
                      JObj [("login", JStr "a"); ("password", JStr "2")];
                      JObj [("login", JStr "b"); ("password", JStr "3")]])]
              [JObj [("login", JStr "b"); ("password", JStr "1")];
               JObj [("login", JStr "a"); ("password", JStr "2")];
               JObj [("login", JStr "b"); ("password", JStr "3")]]
              [("b", JStr "1"); ("a", JStr "2"); ("b", JStr "3")])
    as (d & Hrun & Hkeys & _).
  - reflexivity.
  - reflexivity.
  - repeat constructor; eexists; repeat split; reflexivity.
  - exists d. split; [exact Hrun|exact Hkeys].
Defined.

End MoreParserFacts.

(** ** The block that owns the temporary file, whole *)

Section BlockRun.

Context (env : Env) (builder : string -> M string)
  (built : gmap string file -> result string).

Hypothesis builder_run : forall st, exists t,
  forallb is_log t = true /\
  builder (tmp_name env) st
  = (built (fs st), State (fs st) (self_threads st) (trace st ++ t)).

Lemma block_run (st : state) :
  let name := tmp_name env in
  let files1 := <[name := Malformed]> (fs st) in
  let run :=
    NamedTemporaryFile env (fun tmp_file_name =>
      command_string ← builder tmp_file_name;
      _running_command env command_string;;
      HydraParser.json2dict tmp_file_name) st in
  self_threads run.2 = self_threads st /\
  exists t,
    trace run.2 = trace st ++ t /\
    match built files1 with
    | Raise e => run.1 = Raise e /\ launches t = [] /\ fs run.2 = delete name (fs st)
    | Ok command_string =>
        launches t = [Text.split command_string] /\
        match popen env (Text.split command_string) files1 with
        | SpawnFails =>
            (exists a, run.1 = Raise (Exn OSError a)) /\ fs run.2 = delete name (fs st)
        | Exits exit_code stderr files' =>
            fs run.2 = delete name files' /\
            run.1 = closed env files' name
                      match tool_outcome exit_code stderr with
                      | Raise e => Raise e
                      | Ok _ => (HydraParser.json2dict name (State files' 0 [])).1
                      end
        end
    end.
Proof.
  intros name files1 run. subst run files1 name.
  unfold NamedTemporaryFile. rewrite run_bind.
  destruct (builder_run (tmp_created (tmp_name env) st)) as (t1 & Ht1 & ->).
  simpl fs. simpl self_threads. simpl trace.
  set (name := tmp_name env). set (files1 := <[name := Malformed]> (fs st)).
  assert (Hthere : is_file files1 name = true) by apply is_file_created.
  destruct (built files1) as [command_string|e].
  - rewrite run_bind.
    destruct (popen env (Text.split command_string) files1)
      as [|exit_code [stderr|] files'] eqn:Hpopen.
    + unfold _running_command. exec. fold name. fold files1. rewrite Hpopen. simpl.
      rewrite (closed_present env _ _ _ Hthere).
      split; [reflexivity|]. eexists. split; [rewrite <- !app_assoc; reflexivity|].
      rewrite !launches_app, (launches_logs _ Ht1). simpl.
      split; [reflexivity|]. split; [by eexists|].
      subst files1. apply delete_insert_eq.
    + match goal with |- context [_running_command env command_string ?s] =>
        destruct (running_command_run env command_string s exit_code stderr files' Hpopen)
          as (t2 & Ht2 & ->) end.
      unfold tool_outcome. simpl.
      assert (Hw : launches (warning_records (Text.split_on Text.newline stderr)) = []).
      { apply launches_logs. unfold warning_records. by induction (List.filter _ _). }
      assert (Hp : launches (parse_result name (files' !! name)).2 = []).
      { apply launches_logs.
        destruct (files' !! name) as [[| |v| |]|]; simpl; try done.
        destruct (credentials_of v) as [d|e]; simpl; [done|].
        by destruct (subclass (cls e) KeyError). }
      destruct (exit_code =? 0)%Z.
      * rewrite !json2dict_run. simpl.
        split; [reflexivity|]. eexists. split; [rewrite <- !app_assoc; reflexivity|].
        repeat (rewrite ?launches_app; simpl launches).
        by rewrite (launches_logs _ Ht1), (launches_logs _ Ht2), Hw, Hp.
      * destruct (first_error _) as [l|]; simpl.
        all: split; [reflexivity|]; eexists;
          (split; [rewrite <- !app_assoc; reflexivity|]);
          repeat (rewrite ?launches_app; simpl launches);
          by rewrite (launches_logs _ Ht1), (launches_logs _ Ht2), Hw.
    + match goal with |- context [_running_command env command_string ?s] =>
        rewrite (running_command_garbled env command_string s exit_code files' Hpopen) end.
      simpl. split; [reflexivity|]. eexists.
      split; [rewrite <- !app_assoc; reflexivity|].
      repeat (rewrite ?launches_app; simpl launches).
      by rewrite (launches_logs _ Ht1).
  - simpl. rewrite (closed_present env _ _ _ Hthere).
    split; [reflexivity|]. eexists. split; [rewrite <- !app_assoc; reflexivity|].
    rewrite !launches_app, (launches_logs _ Ht1). simpl.
    split; [reflexivity|]. split; [reflexivity|].
    subst files1. apply delete_insert_eq.
Qed.

End BlockRun.

(** ** The entry points, whole *)

Section EntryPoints.

Context (self : Hydra) (env : Env).

Lemma combined_command_run threads wait_time service port export_type ignore_restore_file
    userpass_wordlist output_file_name st :
  exists t,
    forallb is_log t = true /\
    _userpass_wordlist_string_generator self threads wait_time service port export_type
      ignore_restore_file userpass_wordlist output_file_name st
    = (combined_command self (fs st) threads wait_time service port export_type
         ignore_restore_file userpass_wordlist output_file_name,
       State (fs st) (self_threads st) (trace st ++ t)).
Proof.
  unfold _userpass_wordlist_string_generator, combined_command. exec.
  destruct (is_file (fs st) userpass_wordlist); simpl.
  - exists []. rewrite app_nil_r. by destruct st.
  - eexists. split; [|reflexivity]. done.
Qed.

(** The state in which the block of [bruteforce] starts, and the one for
    [bruteforce_with_userpass_wordlist]. *)
Lemma checked_state lv user_wordlist pass_wordlist threads st :
  let st1 := clamped lv threads (warned user_wordlist pass_wordlist st) in
  fs st1 = fs st /\
  self_threads st1 = Z.min threads 64 /\
  exists t, trace st1 = trace st ++ t /\ launches t = [].
Proof.
  intros st1. destruct (checks_trace lv user_wordlist pass_wordlist threads st)
    as (Hfs & t & Ht & Hl).
  split; [exact Hfs|]. split.
  - subst st1. unfold clamped. destruct (65 <=? threads)%Z eqn:E; simpl.
    + apply Z.leb_le in E. lia.
    + apply Z.leb_gt in E. lia.
  - exists t. split; [exact Ht|by apply launches_logs].
Qed.

Lemma bruteforce_block_run threads wait_time service port export_type ignore_restore_file
    user_wordlist pass_wordlist st :
  let name := tmp_name env in
  let files1 := <[name := Malformed]> (fs st) in
  let run :=
    NamedTemporaryFile env (fun tmp_file_name =>
      command_string ←
        _user_and_pass_wordlists_string_generator self threads wait_time service port
          export_type ignore_restore_file user_wordlist pass_wordlist (Some tmp_file_name);
      _running_command env command_string;;
      HydraParser.json2dict tmp_file_name) st in
  self_threads run.2 = self_threads st /\
  exists t,
    trace run.2 = trace st ++ t /\
    match dual_command self files1 threads wait_time service port export_type
            ignore_restore_file user_wordlist pass_wordlist (Some name) with
    | Raise e => run.1 = Raise e /\ launches t = [] /\ fs run.2 = delete name (fs st)
    | Ok command_string =>
        launches t = [Text.split command_string] /\
        match popen env (Text.split command_string) files1 with
        | SpawnFails =>
            (exists a, run.1 = Raise (Exn OSError a)) /\ fs run.2 = delete name (fs st)
        | Exits exit_code stderr files' =>
            fs run.2 = delete name files' /\
            run.1 = closed env files' name
                      match tool_outcome exit_code stderr with
                      | Raise e => Raise e
                      | Ok _ => (HydraParser.json2dict name (State files' 0 [])).1
                      end
        end
    end.
Proof.
  apply (block_run env
           (fun tmp_file_name =>
              _user_and_pass_wordlists_string_generator self threads wait_time service port
                export_type ignore_restore_file user_wordlist pass_wordlist
                (Some tmp_file_name))
           (fun files =>
              dual_command self files threads wait_time service port export_type
                ignore_restore_file user_wordlist pass_wordlist (Some (tmp_name env)))).
  intros st0. apply dual_command_run.
Qed.

Lemma userpass_block_run threads wait_time service port export_type ignore_restore_file
    userpass_wordlist st :
  let name := tmp_name env in
  let files1 := <[name := Malformed]> (fs st) in
  let run :=
    NamedTemporaryFile env (fun tmp_file_name =>
      command_string ←
        _userpass_wordlist_string_generator self threads wait_time service port
          export_type ignore_restore_file userpass_wordlist tmp_file_name;
      _running_command env command_string;;
      HydraParser.json2dict tmp_file_name) st in
  self_threads run.2 = self_threads st /\
  exists t,
    trace run.2 = trace st ++ t /\
    match combined_command self files1 threads wait_time service port export_type
            ignore_restore_file userpass_wordlist name with
    | Raise e => run.1 = Raise e /\ launches t = [] /\ fs run.2 = delete name (fs st)
    | Ok command_string =>
        launches t = [Text.split command_string] /\
        match popen env (Text.split command_string) files1 with
        | SpawnFails =>
            (exists a, run.1 = Raise (Exn OSError a)) /\ fs run.2 = delete name (fs st)
        | Exits exit_code stderr files' =>
            fs run.2 = delete name files' /\
            run.1 = closed env files' name
                      match tool_outcome exit_code stderr with
                      | Raise e => Raise e
                      | Ok _ => (HydraParser.json2dict name (State files' 0 [])).1
                      end
        end
    end.
Proof.
  apply (block_run env
           (fun tmp_file_name =>
              _userpass_wordlist_string_generator self threads wait_time service port
                export_type ignore_restore_file userpass_wordlist tmp_file_name)
           (fun files =>
              combined_command self files threads wait_time service port export_type
                ignore_restore_file userpass_wordlist (tmp_name env))).
  intros st0. apply combined_command_run.
Qed.

Lemma launches_during_block st st1 st2 t0 t :
  trace st1 = trace st ++ t0 -> launches t0 = [] -> trace st2 = trace st1 ++ t ->
  launches (during st st2) = launches t.
Proof.
  intros H1 H0 H2. rewrite H1, <- app_assoc in H2.
  by rewrite (during_app _ _ _ H2), launches_app, H0.
Qed.

(** The launches of a call of [bruteforce] that reaches its block are those
    of the block. *)
Lemma bruteforce_block_launches user_wordlist pass_wordlist threads st st2 t :
  trace st2 = trace (clamped INFO threads (warned user_wordlist pass_wordlist st)) ++ t ->
  launches (during st st2) = launches t.
Proof.
  destruct (checked_state INFO user_wordlist pass_wordlist threads st)
    as (_ & _ & t0 & Ht0 & Hl0).
  intros Ht. by apply (launches_during_block _ _ _ _ _ Ht0 Hl0 Ht).
Qed.

Lemma userpass_block_launches threads st st2 t :
  trace st2 = trace (clamped WARNING threads st) ++ t ->
  launches (during st st2) = launches t.
Proof.
  destruct (checked_state WARNING (Some "") (Some "") threads st)
    as (_ & _ & t0 & Ht0 & Hl0).
  rewrite warned_present in Ht0.
  intros Ht. by apply (launches_during_block _ _ _ _ _ Ht0 Hl0 Ht).
Qed.

(** X6. A call of either entry point starts the external process at most
    once, whatever its arguments and whatever the process prints: the
    message about restarting the command without the user wordlist is only
    logged. *)
Theorem a_call_starts_at_most_one_process
    service port user_wordlist pass_wordlist userpass_wordlist_path threads export_type
    ignore_restore_file wait_time st :
  let run1 := bruteforce self env service port user_wordlist pass_wordlist threads
                export_type ignore_restore_file wait_time st in
  let run2 := bruteforce_with_userpass_wordlist self env service port
                userpass_wordlist_path threads export_type ignore_restore_file
                wait_time st in
  (length (launches (during st run1.2)) <= 1)%nat /\
  (length (launches (during st run2.2)) <= 1)%nat.
Proof.
  intros run1 run2. subst run1 run2.
  rewrite bruteforce_run, bruteforce_with_userpass_wordlist_run. simpl.
  split.
  - destruct (int env port) as [n|]; simpl;
      [|by rewrite no_launch_after_warnings; simpl; lia].
    destruct (bool_decide (export_type ∈ valid_outputs)); simpl;
      [|by rewrite no_launch_after_warnings; simpl; lia].
    destruct (bool_decide (lower env service ∈ supported_services self)); simpl.
    + destruct (bruteforce_block_run threads wait_time (lower env service) n
                  (lower env export_type) ignore_restore_file user_wordlist pass_wordlist
                  (clamped INFO threads (warned user_wordlist pass_wordlist st)))
        as (_ & t & Ht & Hcase).
      rewrite (bruteforce_block_launches _ _ _ _ _ _ Ht).
      destruct (dual_command _ _ _ _ _ _ _ _ _ _ _).
      * destruct Hcase as [-> _]. simpl. lia.
      * destruct Hcase as (_ & -> & _). simpl. lia.
    + destruct (bool_decide (lower env service ∈ unsupported_services self)); simpl;
        rewrite no_launch_after_checks; simpl; lia.
  - destruct (is_file (fs st) (abspath env userpass_wordlist_path)); simpl;
      [|rewrite during_same; simpl; lia].
    destruct (int env port) as [n|]; simpl; [|rewrite during_same; simpl; lia].
    destruct (bool_decide (export_type ∈ valid_outputs)); simpl;
      [|rewrite during_same; simpl; lia].
    destruct (bool_decide (lower env service ∈ supported_services self)); simpl.
    + destruct (userpass_block_run threads wait_time (lower env service) n
                  (lower env export_type) ignore_restore_file
                  (abspath env userpass_wordlist_path) (clamped WARNING threads st))
        as (_ & t & Ht & Hcase).
      rewrite (userpass_block_launches _ _ _ _ Ht).
      destruct (combined_command _ _ _ _ _ _ _ _ _ _).
      * destruct Hcase as [-> _]. simpl. lia.
      * destruct Hcase as (_ & -> & _). simpl. lia.
    + destruct (bool_decide (lower env service ∈ unsupported_services self)); simpl;
        rewrite <- (warned_present "" "" st) at 2;
        rewrite no_launch_after_checks; simpl; lia.
Qed.

(** X7. The thread count kept on the instance.  A call that passes the
    checks of the port and of the export type (and, for the combined
    wordlist, of its path) leaves [self.threads] at the smaller of the
    requested count and 64, also when it fails afterwards; a call that
    fails one of these checks leaves [self.threads] as it was. *)
Theorem self_threads_after_a_call
    service port user_wordlist pass_wordlist userpass_wordlist_path threads export_type
    ignore_restore_file wait_time st :
  let run1 := bruteforce self env service port user_wordlist pass_wordlist threads
                export_type ignore_restore_file wait_time st in
  let run2 := bruteforce_with_userpass_wordlist self env service port
                userpass_wordlist_path threads export_type ignore_restore_file
                wait_time st in
  self_threads run1.2 =
    (if bool_decide (is_Some (int env port)) && bool_decide (export_type ∈ valid_outputs)
     then Z.min threads 64 else self_threads st) /\
  self_threads run2.2 =
    (if is_file (fs st) (abspath env userpass_wordlist_path) &&
        bool_decide (is_Some (int env port)) && bool_decide (export_type ∈ valid_outputs)
     then Z.min threads 64 else self_threads st).
Proof.
  intros run1 run2. subst run1 run2.
  rewrite bruteforce_run, bruteforce_with_userpass_wordlist_run. simpl.
  assert (Hw : self_threads (warned user_wordlist pass_wordlist st) = self_threads st)
    by (by destruct user_wordlist, pass_wordlist).
  destruct (checked_state INFO user_wordlist pass_wordlist threads st) as (_ & Hc1 & _).
  destruct (checked_state WARNING (Some "") (Some "") threads st) as (_ & Hc2 & _).
  rewrite warned_present in Hc2.
  split.
  - destruct (int env port) as [n|]; simpl; [|exact Hw].
    destruct (bool_decide (export_type ∈ valid_outputs)); simpl; [|exact Hw].
    destruct (bool_decide (lower env service ∈ supported_services self)); simpl.
    + destruct (bruteforce_block_run threads wait_time (lower env service) n
                  (lower env export_type) ignore_restore_file user_wordlist pass_wordlist
                  (clamped INFO threads (warned user_wordlist pass_wordlist st)))
        as (-> & _). exact Hc1.
    + destruct (bool_decide (lower env service ∈ unsupported_services self));
        exact Hc1.
  - destruct (is_file (fs st) (abspath env userpass_wordlist_path)); simpl; [|done].
    destruct (int env port) as [n|]; simpl; [|done].
    destruct (bool_decide (export_type ∈ valid_outputs)); simpl; [|done].
    destruct (bool_decide (lower env service ∈ supported_services self)); simpl.
    + destruct (userpass_block_run threads wait_time (lower env service) n
                  (lower env export_type) ignore_restore_file
                  (abspath env userpass_wordlist_path) (clamped WARNING threads st))
        as (-> & _). exact Hc2.
    + destruct (bool_decide (lower env service ∈ unsupported_services self));
        exact Hc2.
Qed.

(** X8. A port given as text that [int] does not accept makes both entry
    points fail with [ValueError] and a message that quotes the text,
    whatever the export type, the service and the thread count; no process
    is started and [self.threads] keeps its value. *)
Theorem port_that_is_not_a_number_is_rejected
    service port user_wordlist pass_wordlist userpass_wordlist_path threads export_type
    ignore_restore_file wait_time st :
  int env port = None ->
  is_file (fs st) (abspath env userpass_wordlist_path) = true ->
  let run1 := bruteforce self env service port user_wordlist pass_wordlist threads
                export_type ignore_restore_file wait_time st in
  let run2 := bruteforce_with_userpass_wordlist self env service port
                userpass_wordlist_path threads export_type ignore_restore_file
                wait_time st in
  let failure := Exn ValueError
                   (Msg ("The port number should be an integer, " +:+ format_port port +:+
                         " was given.")) in
  (exists s, port = PortStr s /\ format_port port = s) /\
  run1.1 = Raise failure /\ run2.1 = Raise failure /\
  launches (during st run1.2) = [] /\ launches (during st run2.2) = [] /\
  self_threads run1.2 = self_threads st /\ self_threads run2.2 = self_threads st.
Proof.
  intros Hport Hfile run1 run2 failure. subst run1 run2 failure.
  rewrite bruteforce_run, bruteforce_with_userpass_wordlist_run, Hport, Hfile. simpl.
  split.
  { destruct port as [n|s]; [discriminate|]. by exists s. }
  repeat split.
  - apply no_launch_after_warnings.
  - by rewrite during_same.
  - by destruct user_wordlist, pass_wordlist.
Qed.

Lemma is_file_insert (files : gmap string file) (p q : string) (x : file) :
  is_file files p = true -> is_file (<[q := x]> files) p = true.
Proof.
  unfold is_file. intros H%bool_decide_eq_true. apply bool_decide_eq_true.
  rewrite lookup_insert. case_decide; [by eexists|done].
Qed.

(** A call either ends before any process is started, or starts one
    process with the words of a command and ends by what the process did. *)
Lemma bruteforce_summary service port user_wordlist pass_wordlist threads export_type
    ignore_restore_file wait_time st :
  let name := tmp_name env in
  let run := bruteforce self env service port user_wordlist pass_wordlist threads
               export_type ignore_restore_file wait_time st in
  (exists e, run.1 = Raise e /\ launches (during st run.2) = [] /\
             cls e ∈ [ValueError; HydraUnsupportedServiceError; HydraUnknownServiceError;
                      HydraNoWordlistGiven] /\
             (fs run.2 = fs st \/ fs run.2 = delete name (fs st))) \/
  (exists command_string,
     launches (during st run.2) = [Text.split command_string] /\
     match popen env (Text.split command_string) (<[name := Malformed]> (fs st)) with
     | SpawnFails =>
         (exists a, run.1 = Raise (Exn OSError a)) /\ fs run.2 = delete name (fs st)
     | Exits exit_code stderr files' =>
         fs run.2 = delete name files' /\
         run.1 = closed env files' name
                   match tool_outcome exit_code stderr with
                   | Raise e => Raise e
                   | Ok _ => (HydraParser.json2dict name (State files' 0 [])).1
                   end
     end).
Proof.
  intros name run. subst run. rewrite bruteforce_run. simpl.
  destruct (warned_trace user_wordlist pass_wordlist st) as (Hfw & _).
  destruct (checked_state INFO user_wordlist pass_wordlist threads st) as (Hfc & _ & _).
  destruct (int env port) as [n|]; simpl.
  2: { left. eexists. split; [reflexivity|]. split; [apply no_launch_after_warnings|].
       split; [set_solver|by left]. }
  destruct (bool_decide (export_type ∈ valid_outputs)); simpl.
  2: { left. eexists. split; [reflexivity|]. split; [apply no_launch_after_warnings|].
       split; [set_solver|by left]. }
  destruct (bool_decide (lower env service ∈ supported_services self)); simpl.
  - destruct (bruteforce_block_run threads wait_time (lower env service) n
                (lower env export_type) ignore_restore_file user_wordlist pass_wordlist
                (clamped INFO threads (warned user_wordlist pass_wordlist st)))
      as (_ & t & Ht & Hcase).
    rewrite (bruteforce_block_launches _ _ _ _ _ _ Ht).
    rewrite Hfc in Hcase. fold name in Hcase.
    destruct (dual_command _ _ _ _ _ _ _ _ _ _ _) as [command_string|e] eqn:Hcmd.
    + right. exists command_string. destruct Hcase as [-> Hcase]. split; [done|].
      exact Hcase.
    + left. exists e. destruct Hcase as (-> & -> & ->). split; [done|]. split; [done|].
      split; [|by right].
      unfold dual_command in Hcmd.
      destruct (bool_decide (lower env service ∈ service_without_user));
        [|destruct user_wordlist]; destruct pass_wordlist;
        simplify_eq/=; set_solver.
  - left.
    destruct (bool_decide (lower env service ∈ unsupported_services self)); simpl;
      (eexists; split; [reflexivity|]; split; [apply no_launch_after_checks|];
       split; [set_solver|by left]).
Qed.

Lemma userpass_summary service port userpass_wordlist_path threads export_type
    ignore_restore_file wait_time st :
  let name := tmp_name env in
  let run := bruteforce_with_userpass_wordlist self env service port
               userpass_wordlist_path threads export_type ignore_restore_file
               wait_time st in
  (exists e, run.1 = Raise e /\ launches (during st run.2) = [] /\
             cls e ∈ [TypeError; ValueError; HydraUnsupportedServiceError;
                      HydraUnknownServiceError] /\
             fs run.2 = fs st) \/
  (exists command_string,
     launches (during st run.2) = [Text.split command_string] /\
     match popen env (Text.split command_string) (<[name := Malformed]> (fs st)) with
     | SpawnFails =>
         (exists a, run.1 = Raise (Exn OSError a)) /\ fs run.2 = delete name (fs st)
     | Exits exit_code stderr files' =>
         fs run.2 = delete name files' /\
         run.1 = closed env files' name
                   match tool_outcome exit_code stderr with
                   | Raise e => Raise e
                   | Ok _ => (HydraParser.json2dict name (State files' 0 [])).1
                   end
     end).
Proof.
  intros name run. subst run. rewrite bruteforce_with_userpass_wordlist_run. simpl.
  destruct (checked_state WARNING (Some "") (Some "") threads st) as (Hfc & _ & _).
  rewrite warned_present in Hfc.
  destruct (is_file (fs st) (abspath env userpass_wordlist_path)) eqn:Hfile; simpl.
  2: { left. eexists. split; [reflexivity|]. split; [by rewrite during_same|].
       split; [set_solver|done]. }
  destruct (int env port) as [n|]; simpl.
  2: { left. eexists. split; [reflexivity|]. split; [by rewrite during_same|].
       split; [set_solver|done]. }
  destruct (bool_decide (export_type ∈ valid_outputs)); simpl.
  2: { left. eexists. split; [reflexivity|]. split; [by rewrite during_same|].
       split; [set_solver|done]. }
  destruct (bool_decide (lower env service ∈ supported_services self)); simpl.
  - destruct (userpass_block_run threads wait_time (lower env service) n
                (lower env export_type) ignore_restore_file
                (abspath env userpass_wordlist_path) (clamped WARNING threads st))
      as (_ & t & Ht & Hcase).
    rewrite (userpass_block_launches _ _ _ _ Ht).
    rewrite Hfc in Hcase. fold name in Hcase.
    unfold combined_command in Hcase.
    rewrite (is_file_insert _ _ name Malformed Hfile) in Hcase.
    right. eexists. destruct Hcase as [-> Hcase]. split; [reflexivity|]. exact Hcase.
  - left.
    destruct (bool_decide (lower env service ∈ unsupported_services self)); simpl;
      (eexists; split; [reflexivity|]; split;
         [rewrite <- (warned_present "" "" st) at 2; apply no_launch_after_checks|];
       split; [set_solver|exact Hfc]).
Qed.

Lemma clamped_block_launches lv threads st st2 t :
  trace st2 = trace (clamped lv threads st) ++ t ->
  launches (during st st2) = launches t.
Proof.
  destruct (checked_state lv (Some "") (Some "") threads st)
    as (_ & _ & t0 & Ht0 & Hl0).
  rewrite warned_present in Ht0.
  intros Ht. by apply (launches_during_block _ _ _ _ _ Ht0 Hl0 Ht).
Qed.

(** X9. With valid arguments and a supported service, each entry point
    whose command is ASCII text starts the process exactly once, with the
    whitespace-separated words of the command it built: for [bruteforce] on
    a service that takes a username, the base form, the user words, the
    password words and the common suffix, the existence of the files being
    judged with the temporary file already on disk; for the combined
    wordlist, the base form, [-C] with the absolute path, and the common
    suffix.  Service and export type appear lower-cased, the port as the
    number [int] made of it, and the thread count as it was given. *)
Theorem the_process_is_started_once_with_the_built_command
    service port n user pass userpass_wordlist_path threads export_type
    ignore_restore_file wait_time st :
  int env port = Some n ->
  export_type ∈ valid_outputs ->
  lower env service ∈ supported_services self ->
  let name := tmp_name env in
  let files1 := <[name := Malformed]> (fs st) in
  let base := base_command self (lower env service) n wait_time in
  let suffix := _default_string_generator threads (Some name) (lower env export_type)
                  ignore_restore_file in
  (lower env service ∉ service_without_user ->
   let command_string := ((base +:+ credential_words files1 "-L" "-l" user) +:+
                          credential_words files1 "-P" "-p" pass) +:+ suffix in
   Text.is_ascii command_string = true ->
   launches (during st
     (bruteforce self env service port (Some user) (Some pass) threads export_type
        ignore_restore_file wait_time st).2)
   = [Text.split command_string]) /\
  (is_file (fs st) (abspath env userpass_wordlist_path) = true ->
   let command_string :=
     (base +:+ " " +:+ "-C" +:+ " " +:+ abspath env userpass_wordlist_path) +:+ suffix in
   Text.is_ascii command_string = true ->
   launches (during st
     (bruteforce_with_userpass_wordlist self env service port userpass_wordlist_path
        threads export_type ignore_restore_file wait_time st).2)
   = [Text.split command_string]).
Proof.
  intros Hport Het Hsupp name files1 base suffix.
  rewrite bruteforce_run, bruteforce_with_userpass_wordlist_run, Hport. simpl.
  rewrite (bool_decide_eq_true_2 _ Het), (bool_decide_eq_true_2 _ Hsupp).
  split.
  - intros Hservice _.
    destruct (bruteforce_block_run threads wait_time (lower env service) n
                (lower env export_type) ignore_restore_file (Some user) (Some pass)
                (clamped INFO threads st))
      as (_ & t & Ht & Hcase).
    rewrite (clamped_block_launches _ _ _ _ _ Ht).
    destruct (checked_state INFO (Some user) (Some pass) threads st) as (Hfc & _).
    rewrite warned_present in Hfc.
    rewrite Hfc in Hcase. unfold dual_command in Hcase.
    rewrite (bool_decide_eq_false_2 _ Hservice) in Hcase.
    by destruct Hcase as [-> _].
  - intros Hfile _. rewrite Hfile.
    destruct (userpass_block_run threads wait_time (lower env service) n
                (lower env export_type) ignore_restore_file
                (abspath env userpass_wordlist_path) (clamped WARNING threads st))
      as (_ & t & Ht & Hcase).
    rewrite (userpass_block_launches _ _ _ _ Ht).
    destruct (checked_state WARNING (Some "") (Some "") threads st) as (Hfc & _).
    rewrite warned_present in Hfc.
    rewrite Hfc in Hcase. unfold combined_command in Hcase.
    rewrite (is_file_insert _ _ (tmp_name env) Malformed Hfile) in Hcase.
    by destruct Hcase as [-> _].
Qed.

(** X10. When a call of either entry point has started the process and the
    process exits, the files on disk are those the process left, less the
    temporary file, and the call ends as follows.  While the temporary file
    is still there, or on an interpreter that does not mind its absence:
    with standard error that is not UTF-8, in [UnicodeDecodeError],
    whatever the exit code; otherwise with exit code zero, by what
    [json2dict] makes of the temporary file as the process left it, and
    with any other code, by the tool error taken from the captured text,
    whatever the output file holds.  When the process has removed the
    temporary file and the interpreter raises on closing it, in the
    [OSError] of the removal, whatever else happened. *)
Theorem the_call_ends_by_what_the_process_did
    service port user_wordlist pass_wordlist userpass_wordlist_path threads export_type
    ignore_restore_file wait_time st argv exit_code stderr files' :
  let name := tmp_name env in
  let ends (run : result Py.dict * state) :=
    fs run.2 = delete name files' /\
    (is_file files' name = true \/ unlink_missing_raises env = false ->
     match stderr with
     | NotUtf8 => exists a, run.1 = Raise (Exn UnicodeDecodeError a)
     | Utf8 text =>
         let lines := Text.split_on Text.newline text in
         (exit_code = 0 ->
          run.1 = (HydraParser.json2dict name (State files' 0 [])).1) /\
         (exit_code <> 0 ->
          run.1 = Raise (match first_error lines with
                         | Some l => Exn HydraError (Msg l)
                         | None => Exn UnknownHydraError (Lines lines)
                         end))
     end) /\
    (is_file files' name = false -> unlink_missing_raises env = true ->
     run.1 = Raise (Exn OSError (Msg name))) in
  popen env argv (<[name := Malformed]> (fs st)) = Exits exit_code stderr files' ->
  (launches (during st
     (bruteforce self env service port user_wordlist pass_wordlist threads export_type
        ignore_restore_file wait_time st).2) = [argv] ->
   ends (bruteforce self env service port user_wordlist pass_wordlist threads
           export_type ignore_restore_file wait_time st)) /\
  (launches (during st
     (bruteforce_with_userpass_wordlist self env service port userpass_wordlist_path
        threads export_type ignore_restore_file wait_time st).2) = [argv] ->
   ends (bruteforce_with_userpass_wordlist self env service port
           userpass_wordlist_path threads export_type ignore_restore_file
           wait_time st)).
Proof.
  intros name ends Hpopen. subst name.
  assert (Hends : forall run,
    fs run.2 = delete (tmp_name env) files' ->
    run.1 = closed env files' (tmp_name env)
              match tool_outcome exit_code stderr with
              | Raise e => Raise e
              | Ok _ => (HydraParser.json2dict (tmp_name env) (State files' 0 [])).1
              end ->
    ends run).
  { intros run Hfs Hrun. split; [exact Hfs|]. rewrite Hrun. split.
    - intros Hkept.
      assert (Hsame : forall r : result Py.dict,
                closed env files' (tmp_name env) r = r).
      { intros r. destruct Hkept as [H|H];
          [by apply closed_present|by apply closed_lenient]. }
      rewrite Hsame. unfold tool_outcome. destruct stderr as [text|]; [|by eexists].
      split.
      + by intros ->.
      + intros Hne%Z.eqb_neq. rewrite Hne.
        by destruct (first_error (Text.split_on Text.newline text)).
    - intros Hgone Hraises. unfold closed. by rewrite Hgone, Hraises. }
  split; intros Hlaunch.
  - destruct (bruteforce_summary service port user_wordlist pass_wordlist threads
                export_type ignore_restore_file wait_time st)
      as [(e & _ & Hno & _)|(command_string & Hone & Hcase)].
    + rewrite Hno in Hlaunch. discriminate.
    + rewrite Hone in Hlaunch. injection Hlaunch as Hargv.
      rewrite Hargv, Hpopen in Hcase. destruct Hcase as [Hfs Hrun].
      by apply Hends.
  - destruct (userpass_summary service port userpass_wordlist_path threads
                export_type ignore_restore_file wait_time st)
      as [(e & _ & Hno & _)|(command_string & Hone & Hcase)].
    + rewrite Hno in Hlaunch. discriminate.
    + rewrite Hone in Hlaunch. injection Hlaunch as Hargv.
      rewrite Hargv, Hpopen in Hcase. destruct Hcase as [Hfs Hrun].
      by apply Hends.
Qed.

(** X11. The whole of a successful call: when the process it started exits
    with zero, its standard error is UTF-8, and it leaves in the temporary
    file a well-formed document with string logins, either entry point
    returns the dictionary built from the logins and passwords of the
    results array, a later entry winning over an earlier one with the same
    login, and the temporary file is gone. *)
Theorem a_successful_call_returns_the_credentials_found
    service port user_wordlist pass_wordlist userpass_wordlist_path threads export_type
    ignore_restore_file wait_time st argv stderr files' o entries
    (creds : list (string * json)) :
  let name := tmp_name env in
  let returns (run : result Py.dict * state) :=
    exists d,
      run.1 = Ok d /\
      Py.dict_of (zip (JStr <$> creds.*1) creds.*2) = Ok d /\
      (forall l, Py.getkey (JStr l) d
                 = (list_to_map (reverse creds) : gmap string json) !! l) /\
      fs run.2 !! name = None in
  popen env argv (<[name := Malformed]> (fs st)) = Exits 0 (Utf8 stderr) files' ->
  files' !! name = Some (Document (JObj o)) ->
  Py.assoc "results" o = Some (JArr entries) ->
  Forall2 credential entries creds ->
  (launches (during st
     (bruteforce self env service port user_wordlist pass_wordlist threads export_type
        ignore_restore_file wait_time st).2) = [argv] ->
   returns (bruteforce self env service port user_wordlist pass_wordlist threads
              export_type ignore_restore_file wait_time st)) /\
  (launches (during st
     (bruteforce_with_userpass_wordlist self env service port userpass_wordlist_path
        threads export_type ignore_restore_file wait_time st).2) = [argv] ->
   returns (bruteforce_with_userpass_wordlist self env service port
              userpass_wordlist_path threads export_type ignore_restore_file
              wait_time st)).
Proof.
  intros name returns Hpopen Hfile Hres Hcreds. subst name.
  destruct (dict_from_str creds []) as (d & Hd & Hget).
  assert (Hparse : (HydraParser.json2dict (tmp_name env) (State files' 0 [])).1 = Ok d).
  { rewrite (json2dict_document (tmp_name env) (State files' 0 []) _ Hfile).
    unfold credentials_of, HydraParser.field_of_results. simpl. rewrite Hres. simpl.
    rewrite (comprehension_login _ _ Hcreds), (comprehension_password _ _ Hcreds).
    unfold Py.dict_of. by rewrite Hd. }
  assert (Hthere : is_file files' (tmp_name env) = true).
  { unfold is_file. apply bool_decide_eq_true. rewrite Hfile. by eexists. }
  assert (Hreturns : forall run,
    fs run.2 = delete (tmp_name env) files' ->
    run.1 = closed env files' (tmp_name env)
              (HydraParser.json2dict (tmp_name env) (State files' 0 [])).1 ->
    returns run).
  { intros run Hfs Hrun. rewrite (closed_present env _ _ _ Hthere) in Hrun.
    exists d. split; [by rewrite Hrun|]. split; [exact Hd|].
    split.
    - intros l. rewrite Hget. by destruct (list_to_map (reverse creds) !! l).
    - rewrite Hfs. apply lookup_delete_eq. }
  split; intros Hlaunch.
  - destruct (bruteforce_summary service port user_wordlist pass_wordlist threads
                export_type ignore_restore_file wait_time st)
      as [(e & _ & Hno & _)|(command_string & Hone & Hcase)].
    + rewrite Hno in Hlaunch. discriminate.
    + rewrite Hone in Hlaunch. injection Hlaunch as Hargv.
      rewrite Hargv, Hpopen in Hcase. destruct Hcase as [Hfs Hrun].
      by apply Hreturns.
  - destruct (userpass_summary service port userpass_wordlist_path threads
                export_type ignore_restore_file wait_time st)
      as [(e & _ & Hno & _)|(command_string & Hone & Hcase)].
    + rewrite Hno in Hlaunch. discriminate.
    + rewrite Hone in Hlaunch. injection Hlaunch as Hargv.
      rewrite Hargv, Hpopen in Hcase. destruct Hcase as [Hfs Hrun].
      by apply Hreturns.
Qed.

(** X12. A call leaves the disk as it found it: when the name of the
    temporary file is not in use beforehand and the process, if started,
    changes no file but its output file, the files on disk after a call of
    either entry point are those before it, on every path. *)
Theorem a_call_leaves_the_disk_as_it_found_it
    service port user_wordlist pass_wordlist userpass_wordlist_path threads export_type
    ignore_restore_file wait_time st :
  fs st !! tmp_name env = None ->
  (forall argv files,
     match popen env argv files with
     | SpawnFails => True
     | Exits _ _ files' => delete (tmp_name env) files' = delete (tmp_name env) files
     end) ->
  fs (bruteforce self env service port user_wordlist pass_wordlist threads export_type
        ignore_restore_file wait_time st).2 = fs st /\
  fs (bruteforce_with_userpass_wordlist self env service port userpass_wordlist_path
        threads export_type ignore_restore_file wait_time st).2 = fs st.
Proof.
  intros Hfresh Hprocess.
  assert (Hdel : delete (tmp_name env) (fs st) = fs st) by by apply delete_id.
  assert (Hcase : forall (run : result Py.dict * state) command_string,
    match popen env (Text.split command_string) (<[tmp_name env := Malformed]> (fs st)) with
    | SpawnFails =>
        (exists a, run.1 = Raise (Exn OSError a)) /\ fs run.2 = delete (tmp_name env) (fs st)
    | Exits exit_code stderr files' =>
        fs run.2 = delete (tmp_name env) files' /\
        run.1 = closed env files' (tmp_name env)
                  match tool_outcome exit_code stderr with
                  | Raise e => Raise e
                  | Ok _ => (HydraParser.json2dict (tmp_name env) (State files' 0 [])).1
                  end
    end -> fs run.2 = fs st).
  { intros run command_string.
    specialize (Hprocess (Text.split command_string)
                  (<[tmp_name env := Malformed]> (fs st))).
    destruct (popen env _ _) as [|exit_code stderr files'].
    - intros [_ ->]. exact Hdel.
    - intros [-> _]. by rewrite Hprocess, delete_insert_eq. }
  split.
  - destruct (bruteforce_summary service port user_wordlist pass_wordlist threads
                export_type ignore_restore_file wait_time st)
      as [(e & _ & _ & _ & [->| ->])|(command_string & _ & Hrun)]; [done|done|].
    by apply (Hcase _ command_string).
  - destruct (userpass_summary service port userpass_wordlist_path threads
                export_type ignore_restore_file wait_time st)
      as [(e & _ & _ & _ & ->)|(command_string & _ & Hrun)]; [done|].
    by apply (Hcase _ command_string).
Qed.

Lemma credentials_of_raises (v : json) (e : exn) :
  credentials_of v = Raise e -> cls e = KeyError \/ cls e = TypeError.
Proof.
  set (ok := fun c => bool_decide (c = KeyError) || bool_decide (c = TypeError)).
  assert (Hok : forall c, ok c = true -> c = KeyError \/ c = TypeError).
  { intros c [H|H]%orb_true_iff; apply bool_decide_eq_true in H; tauto. }
  unfold credentials_of.
  destruct (HydraParser.field_of_results v "login") as [login|e'] eqn:El.
  - destruct (HydraParser.field_of_results v "password") as [password|e'] eqn:Ep.
    + intros He. apply Hok. by apply (dict_from_raises ok eq_refl _ _ _ He).
    + intros [= <-]. apply Hok. by apply (field_of_results_raises ok eq_refl eq_refl _ _ _ Ep).
  - intros [= <-]. apply Hok. by apply (field_of_results_raises ok eq_refl eq_refl _ _ _ El).
Qed.

(** X13. [json2dict] ends only in the [OSError] of [open], the
    [UnicodeDecodeError] of the decoder, the [ValueError] or the
    [RecursionError] of [json.load] on a number or a nesting beyond the
    limits of the interpreter, a [TypeError] of the interpreter on the
    decoded value, or [HydraDecodeError]: the [KeyError] of a missing key
    and the [JSONDecodeError] of [json.load] never reach the caller. *)
Theorem json2dict_raises_only_these (json_path : string) (st : state) (e : exn) :
  (HydraParser.json2dict json_path st).1 = Raise e ->
  cls e ∈ [OSError; UnicodeDecodeError; ValueError; RecursionError; TypeError;
           HydraDecodeError] /\
  cls e <> KeyError /\ cls e <> JSONDecodeError.
Proof.
  intros He.
  assert (Hin : cls e ∈ [OSError; UnicodeDecodeError; ValueError; RecursionError;
                         TypeError; HydraDecodeError]).
  { revert He. rewrite json2dict_run. simpl.
    destruct (fs st !! json_path) as [[| |v| |]|]; simpl;
      try (intros [= <-]; set_solver).
    destruct (credentials_of v) as [d|e'] eqn:Hc; simpl; [discriminate|].
    destruct (credentials_of_raises _ _ Hc) as [Hk|Ht]; rewrite ?Hk, ?Ht; simpl.
    - intros [= <-]. set_solver.
    - intros [= <-]. rewrite Ht. set_solver. }
  split; [exact Hin|].
  split; intros Heq; rewrite Heq in Hin; revert Hin;
    rewrite !elem_of_cons, !elem_of_nil; intros H;
    repeat (destruct H as [H|H]; [discriminate H|]); exact H.
Qed.

(** X14. The exceptions a caller of the entry points has to expect.
    [bruteforce] ends only in one of the eleven classes listed, and
    [bruteforce_with_userpass_wordlist] in one of the ten listed, the
    [UnicodeDecodeError] of undecodable standard error, the [ValueError]
    and [RecursionError] of [json.load] and the [OSError] of closing a
    temporary file that is gone among them: neither ever ends in
    [HydraFileDoesNotExist], [KeyError] or [JSONDecodeError], and the
    combined entry point never in [HydraNoWordlistGiven]. *)
Theorem the_entry_points_raise_only_these
    service port user_wordlist pass_wordlist userpass_wordlist_path threads export_type
    ignore_restore_file wait_time st e :
  ((bruteforce self env service port user_wordlist pass_wordlist threads export_type
      ignore_restore_file wait_time st).1 = Raise e ->
   cls e ∈ [ValueError; HydraUnsupportedServiceError; HydraUnknownServiceError;
            HydraNoWordlistGiven; OSError; HydraError; UnknownHydraError;
            UnicodeDecodeError; RecursionError; TypeError; HydraDecodeError]) /\
  ((bruteforce_with_userpass_wordlist self env service port userpass_wordlist_path
      threads export_type ignore_restore_file wait_time st).1 = Raise e ->
   cls e ∈ [TypeError; ValueError; HydraUnsupportedServiceError;
            HydraUnknownServiceError; OSError; HydraError; UnknownHydraError;
            UnicodeDecodeError; RecursionError; HydraDecodeError]).
Proof.
  assert (Htool : forall (run : result Py.dict * state) command_string files1,
    match popen env (Text.split command_string) files1 with
    | SpawnFails =>
        (exists a, run.1 = Raise (Exn OSError a)) /\
        fs run.2 = delete (tmp_name env) (fs st)
    | Exits exit_code stderr files' =>
        fs run.2 = delete (tmp_name env) files' /\
        run.1 = closed env files' (tmp_name env)
                  match tool_outcome exit_code stderr with
                  | Raise e => Raise e
                  | Ok _ => (HydraParser.json2dict (tmp_name env) (State files' 0 [])).1
                  end
    end ->
    run.1 = Raise e ->
    cls e ∈ [OSError; HydraError; UnknownHydraError; UnicodeDecodeError; ValueError;
             RecursionError; TypeError; HydraDecodeError]).
  { intros run command_string files1.
    destruct (popen env _ _) as [|exit_code stderr files'].
    - intros [[a ->] _] [= <-]. set_solver.
    - intros [_ ->].
      match goal with |- closed env ?f ?n ?r = _ -> _ =>
        destruct (closed_cases env f n r) as [->|(_ & _ & ->)] end;
        [|intros [= <-]; set_solver].
      unfold tool_outcome. destruct stderr as [text|]; [|intros [= <-]; set_solver].
      destruct (exit_code =? 0)%Z.
      + rewrite json2dict_run. simpl.
        destruct (files' !! tmp_name env) as [[| |v| |]|]; simpl;
          try (intros [= <-]; set_solver).
        destruct (credentials_of v) as [d|e'] eqn:Hc; simpl; [discriminate|].
        destruct (credentials_of_raises _ _ Hc) as [Hk|Ht]; rewrite ?Hk, ?Ht; simpl.
        * intros [= <-]. set_solver.
        * intros [= <-]. rewrite Ht. set_solver.
      + destruct (first_error _); intros [= <-]; set_solver. }
  split; intros He.
  - destruct (bruteforce_summary service port user_wordlist pass_wordlist threads
                export_type ignore_restore_file wait_time st)
      as [(e' & He' & _ & Hcls & _)|(command_string & _ & Hrun)].
    + rewrite He' in He. injection He as <-.
      revert Hcls. rewrite !elem_of_cons, !elem_of_nil. tauto.
    + specialize (Htool _ _ _ Hrun He).
      revert Htool. rewrite !elem_of_cons, !elem_of_nil. tauto.
  - destruct (userpass_summary service port userpass_wordlist_path threads
                export_type ignore_restore_file wait_time st)
      as [(e' & He' & _ & Hcls & _)|(command_string & _ & Hrun)].
    + rewrite He' in He. injection He as <-.
      revert Hcls. rewrite !elem_of_cons, !elem_of_nil. tauto.
    + specialize (Htool _ _ _ Hrun He).
      revert Htool. rewrite !elem_of_cons, !elem_of_nil. tauto.
Qed.

Lemma any_char_rev_app (p : ascii -> bool) (s1 s2 : string) :
  any_char p (String.rev_app s1 s2) = any_char p s1 || any_char p s2.
Proof.
  revert s2. induction s1 as [|c s1 IH]; intros s2; simpl; [done|].
  rewrite IH. simpl. by destruct (p c), (any_char p s1).
Qed.

Lemma rev_app_not_empty (c : ascii) (s1 s2 : string) :
  String.rev_app s1 (String c s2) <> EmptyString.
Proof. revert c s2. induction s1 as [|a s1 IH]; intros c s2; simpl; [done|apply IH]. Qed.

Lemma split_ws_go_words (cur s : string) :
  any_char Text.is_whitespace cur = false ->
  Forall (fun w => w <> EmptyString /\ any_char Text.is_whitespace w = false)
         (Text.split_ws_go cur s).
Proof.
  revert cur. induction s as [|c s IH]; intros cur Hcur; simpl.
  - destruct cur as [|a cur]; [constructor|].
    constructor; [|constructor]. split.
    + apply rev_app_not_empty.
    + unfold String.rev. rewrite any_char_rev_app, Hcur. reflexivity.
  - destruct (Text.is_whitespace c) eqn:Hc.
    + apply Forall_app. split; [|by apply IH].
      destruct cur as [|a cur]; [constructor|].
      constructor; [|constructor]. split.
      * apply rev_app_not_empty.
      * unfold String.rev. rewrite any_char_rev_app, Hcur. reflexivity.
    + apply IH. simpl. by rewrite Hc, Hcur.
Qed.

(** X15. Every argument the process is started with, by either entry
    point, is a non-empty word without whitespace: the command is cut at
    blanks before the launch, so a wordlist path or a literal credential
    that contains a blank is never handed over as one argument. *)
Theorem the_arguments_of_the_process_have_no_whitespace
    service port user_wordlist pass_wordlist userpass_wordlist_path threads export_type
    ignore_restore_file wait_time st argv :
  (argv ∈ launches (during st
             (bruteforce self env service port user_wordlist pass_wordlist threads
                export_type ignore_restore_file wait_time st).2) \/
   argv ∈ launches (during st
             (bruteforce_with_userpass_wordlist self env service port
                userpass_wordlist_path threads export_type ignore_restore_file
                wait_time st).2)) ->
  Forall (fun w => w <> EmptyString /\ any_char Text.is_whitespace w = false) argv /\
  (forall w, any_char Text.is_whitespace w = true -> w ∉ argv).
Proof.
  intros Hargv.
  assert (Hsplit : exists command_string, argv = Text.split command_string).
  { destruct Hargv as [Hin|Hin].
    - destruct (bruteforce_summary service port user_wordlist pass_wordlist threads
                  export_type ignore_restore_file wait_time st)
        as [(e & _ & Hno & _)|(command_string & Hone & _)].
      + rewrite Hno in Hin. by apply elem_of_nil in Hin.
      + rewrite Hone in Hin. apply list_elem_of_singleton in Hin. by eexists.
    - destruct (userpass_summary service port userpass_wordlist_path threads
                  export_type ignore_restore_file wait_time st)
        as [(e & _ & Hno & _)|(command_string & Hone & _)].
      + rewrite Hno in Hin. by apply elem_of_nil in Hin.
      + rewrite Hone in Hin. apply list_elem_of_singleton in Hin. by eexists. }
  destruct Hsplit as [command_string ->].
  assert (Hwords := split_ws_go_words EmptyString command_string eq_refl).
  split; [exact Hwords|].
  intros w Hw Hin. rewrite Forall_forall in Hwords.
  destruct (Hwords w Hin) as [_ Hclean]. rewrite Hclean in Hw. discriminate.
Qed.












End EntryPoints.

(** ** Arguments of any type *)

Section DynFacts.

Context (self : Hydra) (env : Env).

(** X16. On arguments of the annotated types the [isinstance] checks of
    the entry points never fire: taken as Python values, a [str] service, an
    [int] or [str] port, wordlists that are [None] or a [str], [int] thread
    count and wait time, a [str] export type and a [bool] flag give exactly
    the run of the typed entry point. *)
Theorem typed_arguments_pass_the_type_checks
    service port user_wordlist pass_wordlist userpass_wordlist_path threads export_type
    ignore_restore_file wait_time st :
  Dyn.bruteforce self env (Dyn.PStr service) (Dyn.of_port port)
    (Dyn.of_optional user_wordlist) (Dyn.of_optional pass_wordlist) (Dyn.PInt threads)
    (Dyn.PStr export_type) (Dyn.PBool ignore_restore_file) (Dyn.PInt wait_time) st
  = bruteforce self env service port user_wordlist pass_wordlist threads export_type
      ignore_restore_file wait_time st /\
  Dyn.bruteforce_with_userpass_wordlist self env (Dyn.PStr service) (Dyn.of_port port)
    (Dyn.PStr userpass_wordlist_path) (Dyn.PInt threads) (Dyn.PStr export_type)
    (Dyn.PBool ignore_restore_file) (Dyn.PInt wait_time) st
  = bruteforce_with_userpass_wordlist self env service port userpass_wordlist_path
      threads export_type ignore_restore_file wait_time st.
Proof.
  split.
  - unfold Dyn.bruteforce, bruteforce, Dyn.int_of_port, int_of_port.
    destruct user_wordlist as [u|], pass_wordlist as [w|], port as [n|s];
      cbn -[int]; try (destruct (int env (PortStr s))); reflexivity.
  - unfold Dyn.bruteforce_with_userpass_wordlist, bruteforce_with_userpass_wordlist,
      Dyn.int_of_port, int_of_port.
    destruct port as [n|s]; cbn -[int]; try (destruct (int env (PortStr s)));
      reflexivity.
Qed.

(** Ends a goal on the launches of a run that stopped at a check. *)
Ltac stopped_at_check :=
  unfold during, record; simpl; rewrite <- ?app_assoc, ?drop_app_length, ?drop_all;
  reflexivity.

Lemma dyn_bruteforce_stops service port user_wordlist pass_wordlist threads export_type
    ignore_restore_file wait_time st :
  is_none_or_str user_wordlist && is_none_or_str pass_wordlist && is_str service &&
  bool_decide (is_Some (dyn_port env port)) && is_int threads && is_str export_type &&
  is_bool ignore_restore_file && is_int wait_time = false ->
  launches (during st
    (Dyn.bruteforce self env service port user_wordlist pass_wordlist threads
       export_type ignore_restore_file wait_time st).2) = [].
Proof.
  unfold Dyn.bruteforce, Dyn.optional_str, Dyn.required_str, Dyn.required_int,
    Dyn.required_bool, Dyn.int_of_port.
  destruct user_wordlist; try (intros _; exec; stopped_at_check).
  all: destruct pass_wordlist; try (intros _; exec; stopped_at_check).
  all: destruct service; try (intros _; exec; stopped_at_check).
  all: destruct port as [| | |p|]; try (intros _; exec; stopped_at_check).
  all: try (change (dyn_port env (Dyn.PStr p)) with (int env (PortStr p));
            destruct (int env (PortStr p)) eqn:Hp;
            [|intros _; exec; stopped_at_check]).
  all: destruct threads; try (intros _; exec; stopped_at_check).
  all: destruct export_type; try (intros _; exec; stopped_at_check).
  all: destruct ignore_restore_file; try (intros _; exec; stopped_at_check).
  all: destruct wait_time; try (intros _; exec; stopped_at_check).
  all: simpl; rewrite ?bool_decide_eq_true_2 by (by eexists); discriminate.
Qed.

Lemma dyn_userpass_stops service port userpass_wordlist_path threads export_type
    ignore_restore_file wait_time st :
  is_str userpass_wordlist_path && is_str service &&
  bool_decide (is_Some (dyn_port env port)) && is_int threads && is_str export_type &&
  is_bool ignore_restore_file && is_int wait_time = false ->
  launches (during st
    (Dyn.bruteforce_with_userpass_wordlist self env service port userpass_wordlist_path
       threads export_type ignore_restore_file wait_time st).2) = [].
Proof.
  unfold Dyn.bruteforce_with_userpass_wordlist, Dyn.optional_str, Dyn.required_str,
    Dyn.required_int, Dyn.required_bool, Dyn.int_of_port.
  destruct userpass_wordlist_path as [| | |u|]; try (intros _; exec; stopped_at_check).
  destruct (is_file (fs st) (abspath env u)) eqn:Hfile;
    [|intros _; exec; rewrite Hfile; stopped_at_check].
  destruct service; try (intros _; exec; rewrite Hfile; stopped_at_check).
  destruct port as [| | |p|]; try (intros _; exec; rewrite Hfile; stopped_at_check).
  all: try (change (dyn_port env (Dyn.PStr p)) with (int env (PortStr p));
            destruct (int env (PortStr p)) eqn:Hp;
            [|intros _; exec; rewrite Hfile, ?Hp; stopped_at_check]).
  all: destruct threads; try (intros _; exec; rewrite Hfile, ?Hp; stopped_at_check).
  all: destruct export_type; try (intros _; exec; rewrite Hfile, ?Hp; stopped_at_check).
  all: destruct ignore_restore_file;
    try (intros _; exec; rewrite Hfile, ?Hp; stopped_at_check).
  all: destruct wait_time; try (intros _; exec; rewrite Hfile, ?Hp; stopped_at_check).
  all: simpl; rewrite ?bool_decide_eq_true_2 by (by eexists); discriminate.
Qed.

(** X17. The process is never started with an argument of a type the
    checks reject: when a call of either entry point starts it, the
    wordlists were [None] or a [str] (the combined wordlist a [str]), the
    service and the export type a [str], the port an [int] or a [str] that
    [int] accepts, the thread count and the wait time an [int] (a [bool]
    counts), and the restore flag a [bool]. *)
Theorem the_process_is_never_started_on_arguments_of_a_wrong_type
    service port user_wordlist pass_wordlist userpass_wordlist_path threads export_type
    ignore_restore_file wait_time st :
  (launches (during st
     (Dyn.bruteforce self env service port user_wordlist pass_wordlist threads
        export_type ignore_restore_file wait_time st).2) <> [] ->
   is_none_or_str user_wordlist = true /\ is_none_or_str pass_wordlist = true /\
   is_str service = true /\ is_Some (dyn_port env port) /\ is_int threads = true /\
   is_str export_type = true /\ is_bool ignore_restore_file = true /\
   is_int wait_time = true) /\
  (launches (during st
     (Dyn.bruteforce_with_userpass_wordlist self env service port userpass_wordlist_path
        threads export_type ignore_restore_file wait_time st).2) <> [] ->
   is_str userpass_wordlist_path = true /\
   is_str service = true /\ is_Some (dyn_port env port) /\ is_int threads = true /\
   is_str export_type = true /\ is_bool ignore_restore_file = true /\
   is_int wait_time = true).
Proof.
  split; intros Hlaunch.
  - pose proof (dyn_bruteforce_stops service port user_wordlist pass_wordlist threads
                  export_type ignore_restore_file wait_time st) as Hstop.
    destruct (_ && _) eqn:Hok in Hstop; [|by specialize (Hstop eq_refl)].
    repeat (apply andb_true_iff in Hok as [Hok ?]).
    repeat split; try done. by apply bool_decide_eq_true in H3.
  - pose proof (dyn_userpass_stops service port userpass_wordlist_path threads
                  export_type ignore_restore_file wait_time st) as Hstop.
    destruct (_ && _) eqn:Hok in Hstop; [|by specialize (Hstop eq_refl)].
    repeat (apply andb_true_iff in Hok as [Hok ?]).
    repeat split; try done. by apply bool_decide_eq_true in H3.
Qed.

(** X18. A thread count that is not an [int], a [str] such as "4"
    included, makes both entry points fail with [TypeError] and the message
    of [ExceptionMessages.invalid_type], once the arguments checked before
    it are accepted; nothing is started. *)
Theorem a_thread_count_that_is_not_an_int_is_rejected
    service port n user_wordlist pass_wordlist userpass_wordlist_path threads export_type
    ignore_restore_file wait_time st :
  dyn_port env port = Some n ->
  is_file (fs st) (abspath env userpass_wordlist_path) = true ->
  is_int threads = false ->
  let failure :=
    Exn TypeError (Msg (Dyn.invalid_type "threads" threads (Dyn.class_repr "int"))) in
  (Dyn.bruteforce self env (Dyn.PStr service) port (Dyn.of_optional user_wordlist)
     (Dyn.of_optional pass_wordlist) threads export_type ignore_restore_file wait_time
     st).1 = Raise failure /\
  (Dyn.bruteforce_with_userpass_wordlist self env (Dyn.PStr service) port
     (Dyn.PStr userpass_wordlist_path) threads export_type ignore_restore_file
     wait_time st).1 = Raise failure.
Proof.
  intros Hport Hfile Hthreads failure. subst failure.
  unfold Dyn.bruteforce, Dyn.bruteforce_with_userpass_wordlist, Dyn.optional_str,
    Dyn.required_str, Dyn.required_int, Dyn.required_bool, Dyn.int_of_port.
  split.
  - destruct user_wordlist as [u|], pass_wordlist as [w|], port as [| | |p|];
      try discriminate; cbn -[int] in Hport; rewrite ?Hport;
      destruct threads; try discriminate; reflexivity.
  - exec. rewrite Hfile.
    destruct port as [| | |p|]; try discriminate; simpl in Hport; rewrite ?Hport;
      destruct threads; try discriminate; reflexivity.
Qed.

Lemma dyn_clamp_threads lv (threads : Dyn.intlike) st :
  Dyn.clamp_threads lv threads st = (Ok tt, clamped lv (Dyn.int_value threads) st).
Proof.
  unfold Dyn.clamp_threads, clamped. destruct threads as [n|[]]; simpl; try reflexivity.
  destruct (65 <=? n)%Z; reflexivity.
Qed.

Lemma dyn_bruteforce_valid service port n user pass (threads wait_time : Dyn.intlike)
    export_type ignore_restore_file st :
  dyn_port env port = Some n ->
  export_type ∈ valid_outputs ->
  lower env service ∈ supported_services self ->
  Dyn.bruteforce self env (Dyn.PStr service) port (Dyn.PStr user) (Dyn.PStr pass)
    (of_intlike threads) (Dyn.PStr export_type) (Dyn.PBool ignore_restore_file)
    (of_intlike wait_time) st
  = NamedTemporaryFile env (fun tmp_file_name =>
      command_string ←
        Dyn._user_and_pass_wordlists_string_generator self threads wait_time
          (lower env service) n (lower env export_type) ignore_restore_file
          (Some user) (Some pass) (Some tmp_file_name);
      _running_command env command_string;;
      HydraParser.json2dict tmp_file_name)
      (clamped INFO (Dyn.int_value threads) st).
Proof.
  intros Hport Het Hsupp.
  unfold Dyn.bruteforce, Dyn.clamp_threads, clamped, check_export_type, check_service,
    NamedTemporaryFile.
  destruct port as [| | |p|]; simpl in Hport; try discriminate;
    try (injection Hport as Hn; subst n);
    destruct threads as [k|[]], wait_time as [w|[]]; exec; rewrite ?Hport; simpl;
    rewrite (bool_decide_eq_true_2 _ Het); simpl;
    try destruct (65 <=? k)%Z; simpl;
    rewrite (bool_decide_eq_true_2 _ Hsupp); reflexivity.
Qed.

Lemma dyn_userpass_valid service port n userpass_wordlist_path
    (threads wait_time : Dyn.intlike) export_type ignore_restore_file st :
  is_file (fs st) (abspath env userpass_wordlist_path) = true ->
  dyn_port env port = Some n ->
  export_type ∈ valid_outputs ->
  lower env service ∈ supported_services self ->
  Dyn.bruteforce_with_userpass_wordlist self env (Dyn.PStr service) port
    (Dyn.PStr userpass_wordlist_path) (of_intlike threads) (Dyn.PStr export_type)
    (Dyn.PBool ignore_restore_file) (of_intlike wait_time) st
  = NamedTemporaryFile env (fun tmp_file_name =>
      command_string ←
        Dyn._userpass_wordlist_string_generator self threads wait_time
          (lower env service) n (lower env export_type) ignore_restore_file
          (abspath env userpass_wordlist_path) tmp_file_name;
      _running_command env command_string;;
      HydraParser.json2dict tmp_file_name)
      (clamped WARNING (Dyn.int_value threads) st).
Proof.
  intros Hfile Hport Het Hsupp.
  unfold Dyn.bruteforce_with_userpass_wordlist, Dyn.clamp_threads, clamped,
    check_export_type, check_service, NamedTemporaryFile.
  destruct port as [| | |p|]; simpl in Hport; try discriminate;
    try (injection Hport as Hn; subst n);
    destruct threads as [k|[]], wait_time as [w|[]]; exec; rewrite Hfile, ?Hport; simpl;
    rewrite (bool_decide_eq_true_2 _ Het); simpl;
    try destruct (65 <=? k)%Z; simpl;
    rewrite (bool_decide_eq_true_2 _ Hsupp); reflexivity.
Qed.

(** X19. The thread count and the wait time reach the command line as
    Python prints them.  With valid arguments and a supported service, each
    entry point whose command is ASCII text starts the process once with the
    words of the command built from the base form, the credentials and the
    suffix, in which the port is the number [int] made of it, an [int] is
    written in decimal and a [bool], which passes the type check, as [True]
    or [False]. *)
Theorem the_counts_are_written_as_python_prints_them
    service port n user pass userpass_wordlist_path (threads wait_time : Dyn.intlike)
    export_type (ignore_restore_file : bool) st :
  dyn_port env port = Some n ->
  export_type ∈ valid_outputs ->
  lower env service ∈ supported_services self ->
  let name := tmp_name env in
  let files1 := <[name := Malformed]> (fs st) in
  let base := hydra_path self +:+ " " +:+
              (lower env service +:+ "://" +:+ ip self +:+ ":" +:+ Text.str n) +:+
              " -w " +:+ Dyn.format wait_time in
  let suffix := ((" -t " +:+ Dyn.format threads) +:+ " -o " +:+ name) +:+
                " -b " +:+ lower env export_type in
  let suffix := if ignore_restore_file then suffix +:+ " -I" else suffix in
  (lower env service ∉ service_without_user ->
   let command_string := ((base +:+ credential_words files1 "-L" "-l" user) +:+
                          credential_words files1 "-P" "-p" pass) +:+ suffix in
   Text.is_ascii command_string = true ->
   launches (during st
     (Dyn.bruteforce self env (Dyn.PStr service) port (Dyn.PStr user) (Dyn.PStr pass)
        (of_intlike threads) (Dyn.PStr export_type) (Dyn.PBool ignore_restore_file)
        (of_intlike wait_time) st).2)
   = [Text.split command_string]) /\
  (is_file (fs st) (abspath env userpass_wordlist_path) = true ->
   let command_string :=
     (base +:+ " -C " +:+ abspath env userpass_wordlist_path) +:+ suffix in
   Text.is_ascii command_string = true ->
   launches (during st
     (Dyn.bruteforce_with_userpass_wordlist self env (Dyn.PStr service) port
        (Dyn.PStr userpass_wordlist_path) (of_intlike threads) (Dyn.PStr export_type)
        (Dyn.PBool ignore_restore_file) (of_intlike wait_time) st).2)
   = [Text.split command_string]).
Proof.
  intros Hport Het Hsupp name files1 base suffix suffix'.
  subst name files1 base suffix suffix'.
  split.
  - intros Hservice command_string _. subst command_string. rewrite (dyn_bruteforce_valid _ _ _ _ _ _ _ _ _ _ Hport Het Hsupp).
    assert (Hbuilder : forall st0, exists t,
      forallb is_log t = true /\
      Dyn._user_and_pass_wordlists_string_generator self threads wait_time
        (lower env service) n (lower env export_type) ignore_restore_file
        (Some user) (Some pass) (Some (tmp_name env)) st0
      = ((fun files =>
            Ok (((Dyn.base_command self (lower env service) n wait_time +:+
                  credential_words files "-L" "-l" user) +:+
                 credential_words files "-P" "-p" pass) +:+
                Dyn._default_string_generator threads (Some (tmp_name env))
                  (lower env export_type) ignore_restore_file)) (fs st0),
         State (fs st0) (self_threads st0) (trace st0 ++ t))).
    { intros st0. unfold Dyn._user_and_pass_wordlists_string_generator, credential_words.
      rewrite (bool_decide_eq_false_2 _ Hservice). exec.
      destruct (is_file (fs st0) user); simpl;
        destruct (is_file (fs st0) pass); simpl.
      all: first
        [ exists []; rewrite app_nil_r; by destruct st0
        | eexists; split; [|rewrite <- ?app_assoc; reflexivity]; done ]. }
    destruct (block_run env
                (fun tmp_file_name =>
                   Dyn._user_and_pass_wordlists_string_generator self threads wait_time
                     (lower env service) n (lower env export_type) ignore_restore_file
                     (Some user) (Some pass) (Some tmp_file_name))
                _ Hbuilder (clamped INFO (Dyn.int_value threads) st))
      as (_ & t & Ht & Hlaunch & _).
    rewrite (clamped_block_launches _ _ _ _ _ Ht), Hlaunch.
    destruct (clamped_trace INFO (Dyn.int_value threads) st) as [-> _].
    by destruct ignore_restore_file.
  - intros Hfile command_string _. subst command_string.
    rewrite (dyn_userpass_valid _ _ _ _ _ _ _ _ _ Hfile Hport Het Hsupp).
    assert (Hbuilder : forall st0, exists t,
      forallb is_log t = true /\
      Dyn._userpass_wordlist_string_generator self threads wait_time
        (lower env service) n (lower env export_type) ignore_restore_file
        (abspath env userpass_wordlist_path) (tmp_name env) st0
      = ((fun files =>
            if is_file files (abspath env userpass_wordlist_path)
            then Ok ((Dyn.base_command self (lower env service) n wait_time +:+
                      " -C " +:+ abspath env userpass_wordlist_path) +:+
                     Dyn._default_string_generator threads (Some (tmp_name env))
                       (lower env export_type) ignore_restore_file)
            else Raise (Exn HydraFileDoesNotExist (Msg "Unable to find the file")))
           (fs st0),
         State (fs st0) (self_threads st0) (trace st0 ++ t))).
    { intros st0. unfold Dyn._userpass_wordlist_string_generator. exec.
      destruct (is_file (fs st0) (abspath env userpass_wordlist_path)); simpl.
      - exists []. rewrite app_nil_r. by destruct st0.
      - eexists. split; [|reflexivity]. done. }
    destruct (block_run env
                (fun tmp_file_name =>
                   Dyn._userpass_wordlist_string_generator self threads wait_time
                     (lower env service) n (lower env export_type) ignore_restore_file
                     (abspath env userpass_wordlist_path) tmp_file_name)
                _ Hbuilder (clamped WARNING (Dyn.int_value threads) st))
      as (_ & t & Ht & Hcase).
    rewrite (clamped_block_launches _ _ _ _ _ Ht).
    destruct (clamped_trace WARNING (Dyn.int_value threads) st) as [Hfs _].
    simpl in Hcase.
    rewrite Hfs, (is_file_insert _ _ (tmp_name env) Malformed Hfile) in Hcase.
    destruct Hcase as [-> _]. by destruct ignore_restore_file.
Qed.

End DynFacts.

(** ** What is logged at critical level *)

Section LogsItsError.

Lemma criticals_app (t1 t2 : list event) :
  criticals (t1 ++ t2) = criticals t1 ++ criticals t2.
Proof.
  induction t1 as [|e t1 IH]; [done|].
  destruct e as [[] m| | |]; simpl; by rewrite IH.
Qed.

Lemma critical_of_pure {A} (r : result A) :
  (forall e, r = Raise e -> negb (is_hydra_error (cls e)) = true) -> critical_of r = [].
Proof.
  destruct r as [a|e]; simpl; [done|].
  intros H. specialize (H e eq_refl). by destruct (is_hydra_error (cls e)).
Qed.

Lemma logs_ret {A} (a : A) : logs_its_error (mret a).
Proof. intros st. exists []. by rewrite app_nil_r. Qed.

Lemma logs_lift {A} (r : result A) : critical_of r = [] -> logs_its_error (lift r).
Proof. intros Hr st. exists []. simpl. by rewrite app_nil_r, Hr. Qed.

Lemma logs_emit (e : event) : criticals [e] = [] -> logs_its_error (emit e).
Proof. intros He st. by exists [e]. Qed.

Lemma logs_logging (lv : level) (m : string) :
  lv <> CRITICAL -> logs_its_error (logging lv m).
Proof. intros Hlv. apply logs_emit. by destruct lv. Qed.

Lemma logs_raise {A} (c : exn_class) (a : payload) : logs_its_error (raise (A:=A) c a).
Proof.
  intros st. unfold raise. simpl. destruct (is_hydra_error c).
  - by exists [Log CRITICAL a].
  - exists []. by rewrite app_nil_r.
Qed.

Lemma logs_bind {A B} (m : M A) (k : A -> M B) :
  logs_its_error m -> (forall a, logs_its_error (k a)) -> logs_its_error (m ≫= k).
Proof.
  intros Hm Hk st. rewrite run_bind.
  destruct (Hm st) as (t1 & Ht1 & Hc1).
  destruct (m st) as [[a|e] st1]; simpl in *.
  - destruct (Hk a st1) as (t2 & Ht2 & Hc2).
    exists (t1 ++ t2). rewrite Ht2, Ht1, app_assoc. split; [done|].
    by rewrite criticals_app, Hc1, Hc2.
  - by exists t1.
Qed.

(** A handler for a class that no exception of [errors.py] derives from
    starts with nothing logged at critical level. *)
Lemma logs_try_except {A} (body : M A) (c : exn_class) (handler : exn -> M A) :
  (forall x, subclass x c = true -> is_hydra_error x = false) ->
  logs_its_error body -> (forall e, logs_its_error (handler e)) ->
  logs_its_error (try_except body c handler).
Proof.
  intros Hc Hm Hk st. unfold try_except.
  destruct (Hm st) as (t1 & Ht1 & Hc1).
  destruct (body st) as [[a|e] st1]; simpl in *.
  - by exists t1.
  - destruct (subclass (cls e) c) eqn:Hsub.
    + rewrite (Hc _ Hsub) in Hc1.
      destruct (Hk e st1) as (t2 & Ht2 & Hc2).
      exists (t1 ++ t2). rewrite Ht2, Ht1, app_assoc. split; [done|].
      by rewrite criticals_app, Hc1, Hc2.
    + by exists t1.
Qed.

Lemma logs_get_fs : logs_its_error get_fs.
Proof. intros st. exists []. by rewrite app_nil_r. Qed.

Lemma logs_set_fs (f : gmap string file) : logs_its_error (set_fs f).
Proof. intros st. exists []. by rewrite app_nil_r. Qed.

Lemma logs_set_self_threads (n : Z) : logs_its_error (set_self_threads n).
Proof. intros st. exists []. by rewrite app_nil_r. Qed.

Lemma logs_isfile (f : string) : logs_its_error (isfile f).
Proof. intros st. exists []. by rewrite app_nil_r. Qed.

Lemma closing_of_logs {A} (env : Env) (m : M A) :
  logs_its_error m -> logs_its_error_until_closed env m.
Proof. intros Hm st. destruct (Hm st) as (t & Ht & Hc). exists t, (m st).1. auto. Qed.

Lemma closing_bind {A B} (env : Env) (m : M A) (k : A -> M B) :
  logs_its_error m -> (forall a, logs_its_error_until_closed env (k a)) ->
  logs_its_error_until_closed env (m ≫= k).
Proof.
  intros Hm Hk st. rewrite run_bind.
  destruct (Hm st) as (t1 & Ht1 & Hc1).
  destruct (m st) as [[a|e] st1]; simpl in *.
  - destruct (Hk a st1) as (t2 & r & Ht2 & Hc2 & Hr).
    exists (t1 ++ t2), r. rewrite Ht2, Ht1, app_assoc. split; [done|].
    split; [|exact Hr]. by rewrite criticals_app, Hc1, Hc2.
  - exists t1, (Raise e). auto.
Qed.

Lemma closing_NamedTemporaryFile {A} (env : Env) (body : string -> M A) :
  (forall name, logs_its_error (body name)) ->
  logs_its_error_until_closed env (NamedTemporaryFile env body).
Proof.
  intros Hb st. unfold NamedTemporaryFile.
  destruct (Hb (tmp_name env) (tmp_created (tmp_name env) st)) as (t & Ht & Hc).
  destruct (body _ _) as [r st1]. simpl in *.
  exists ([TmpCreate (tmp_name env)] ++ t ++ [TmpDelete (tmp_name env)]), r.
  rewrite Ht, <- !app_assoc. split; [done|]. split.
  - rewrite !criticals_app, Hc. simpl. by rewrite app_nil_r.
  - destruct (closed_cases env (fs st1) (tmp_name env) r) as [->|(_ & Hraises & ->)];
      auto.
Qed.

End LogsItsError.

Create HintDb logs.
#[local] Hint Resolve logs_ret logs_raise logs_get_fs logs_set_fs logs_set_self_threads
  logs_isfile : logs.

Ltac logs_step :=
  repeat first
    [ progress cbv zeta
    | solve [auto with logs]
    | apply logs_bind; [|intros ?]
    | apply logs_try_except; [by intros []| |intros ?]
    | apply logs_logging; discriminate
    | apply logs_emit; reflexivity
    | match goal with
      | |- logs_its_error (match ?x with _ => _ end) => destruct x
      | |- logs_its_error (if ?x then _ else _) => destruct x
      end ].

Ltac closing_step :=
  repeat first
    [ progress cbv zeta
    | apply closing_NamedTemporaryFile; intros ?; logs_step
    | match goal with
      | |- logs_its_error_until_closed _ (match ?x with _ => _ end) => destruct x
      | |- logs_its_error_until_closed _ (if ?x then _ else _) => destruct x
      end
    | apply closing_bind; [logs_step|intros ?]
    | apply closing_of_logs; logs_step ].

Section CriticalRecords.

Context (self : Hydra) (env : Env).

Lemma json2dict_logs (json_path : string) :
  logs_its_error (HydraParser.json2dict json_path).
Proof.
  unfold HydraParser.json2dict, HydraParser.json_opener, HydraParser.json_load.
  logs_step; apply logs_lift, critical_of_pure.
  - apply (field_of_results_raises (fun c => negb (is_hydra_error c)) eq_refl eq_refl).
  - apply (field_of_results_raises (fun c => negb (is_hydra_error c)) eq_refl eq_refl).
  - intros e. apply (dict_from_raises (fun c => negb (is_hydra_error c)) eq_refl).
Qed.

Lemma log_warnings_logs (hydra_messages : list string) :
  logs_its_error (log_warnings hydra_messages).
Proof. induction hydra_messages; simpl; logs_step. Qed.

Lemma raise_first_error_logs (hydra_messages : list string) :
  logs_its_error (raise_first_error hydra_messages).
Proof. induction hydra_messages; simpl; logs_step. Qed.

Lemma running_command_logs (command_string : string) :
  logs_its_error (_running_command env command_string).
Proof.
  unfold _running_command, decode.
  logs_step; first [apply log_warnings_logs | apply raise_first_error_logs].
Qed.

#[local] Hint Resolve json2dict_logs running_command_logs : logs.

Lemma bruteforce_logs service port user_wordlist pass_wordlist threads export_type
    ignore_restore_file wait_time :
  logs_its_error_until_closed env
    (bruteforce self env service port user_wordlist pass_wordlist threads
                    export_type ignore_restore_file wait_time).
Proof.
  unfold bruteforce, int_of_port, check_export_type, clamp_threads, check_service,
    _user_and_pass_wordlists_string_generator.
  closing_step.
Qed.

Lemma userpass_logs service port userpass_wordlist_path threads export_type
    ignore_restore_file wait_time :
  logs_its_error_until_closed env
    (bruteforce_with_userpass_wordlist self env service port
                    userpass_wordlist_path threads export_type ignore_restore_file
                    wait_time).
Proof.
  unfold bruteforce_with_userpass_wordlist, int_of_port, check_export_type,
    clamp_threads, check_service, _userpass_wordlist_string_generator.
  closing_step.
Qed.

Lemma dyn_bruteforce_logs service port user_wordlist pass_wordlist threads export_type
    ignore_restore_file wait_time :
  logs_its_error_until_closed env
    (Dyn.bruteforce self env service port user_wordlist pass_wordlist
                    threads export_type ignore_restore_file wait_time).
Proof.
  unfold Dyn.bruteforce, Dyn.optional_str, Dyn.required_str, Dyn.required_int,
    Dyn.required_bool, Dyn.int_of_port, check_export_type, Dyn.clamp_threads,
    check_service, Dyn._user_and_pass_wordlists_string_generator.
  closing_step.
Qed.

Lemma dyn_userpass_logs service port userpass_wordlist_path threads export_type
    ignore_restore_file wait_time :
  logs_its_error_until_closed env
    (Dyn.bruteforce_with_userpass_wordlist self env service port
                    userpass_wordlist_path threads export_type ignore_restore_file
                    wait_time).
Proof.
  unfold Dyn.bruteforce_with_userpass_wordlist, Dyn.required_str, Dyn.required_int,
    Dyn.required_bool, Dyn.int_of_port, check_export_type, Dyn.clamp_threads,
    check_service, Dyn._userpass_wordlist_string_generator.
  closing_step.
Qed.

(** X20. What a call leaves at critical level.  For every behaviour of
    the process, a call of either entry point that ends in an exception of
    [errors.py] has logged the argument of that exception at critical level,
    once, and nothing else at that level; a call that returns, or that ends
    in any other exception ([TypeError] and [ValueError] of the argument
    checks included), has logged nothing at critical level.  The one
    exception is an interpreter that raises when the temporary file it
    closes is gone: there a call may end in the [OSError] of the removal
    after the exception of [errors.py] that it replaces was logged.  This
    holds for arguments of the annotated types and for arguments of any
    type. *)
Theorem an_error_of_errors_py_is_logged_once_at_critical_level
    service port user_wordlist pass_wordlist userpass_wordlist_path threads export_type
    ignore_restore_file wait_time
    dservice dport duser_wordlist dpass_wordlist duserpass_wordlist_path dthreads
    dexport_type dignore_restore_file dwait_time st :
  let run1 := bruteforce self env service port user_wordlist pass_wordlist threads
                export_type ignore_restore_file wait_time st in
  let run2 := bruteforce_with_userpass_wordlist self env service port
                userpass_wordlist_path threads export_type ignore_restore_file
                wait_time st in
  let run3 := Dyn.bruteforce self env dservice dport duser_wordlist dpass_wordlist
                dthreads dexport_type dignore_restore_file dwait_time st in
  let run4 := Dyn.bruteforce_with_userpass_wordlist self env dservice dport
                duserpass_wordlist_path dthreads dexport_type dignore_restore_file
                dwait_time st in
  let logged (run : result Py.dict * state) :=
    criticals (during st run.2) = critical_of run.1 \/
    unlink_missing_raises env = true /\
    run.1 = Raise (Exn OSError (Msg (tmp_name env))) /\
    exists e, is_hydra_error (cls e) = true /\ criticals (during st run.2) = [arg e] in
  logged run1 /\ logged run2 /\ logged run3 /\ logged run4.
Proof.
  intros run1 run2 run3 run4 logged.
  assert (Hlogged : forall (m : M Py.dict),
            logs_its_error_until_closed env m -> logged (m st)).
  { intros m Hm. destruct (Hm st) as (t & r & Ht & Hc & Hr).
    unfold logged. rewrite (during_app _ _ _ Ht), Hc.
    destruct Hr as [->|[Hraises ->]]; [by left|].
    destruct r as [d|e]; simpl; [by left|].
    destruct (is_hydra_error (cls e)) eqn:He; [|by left].
    right. split; [exact Hraises|]. split; [reflexivity|]. by exists e. }
  repeat split; apply Hlogged.
  - apply bruteforce_logs.
  - apply userpass_logs.
  - apply dyn_bruteforce_logs.
  - apply dyn_userpass_logs.
Qed.

End CriticalRecords.

(** ** What a call depends on *)

Section ReadsFilesOnly.

Lemma reads_ret {A} (a : A) : reads_files_only (mret a).
Proof. intros st st' Hfs. repeat split; [done|]. exists []. by rewrite !app_nil_r. Qed.

Lemma reads_lift {A} (r : result A) : reads_files_only (lift r).
Proof. intros st st' Hfs. repeat split; [done|]. exists []. by rewrite !app_nil_r. Qed.

Lemma reads_emit (e : event) : reads_files_only (emit e).
Proof. intros st st' Hfs. repeat split; [done|]. by exists [e]. Qed.

Lemma reads_logging (lv : level) (m : string) : reads_files_only (logging lv m).
Proof. apply reads_emit. Qed.

Lemma reads_raise {A} (c : exn_class) (a : payload) : reads_files_only (raise (A:=A) c a).
Proof.
  intros st st' Hfs. unfold raise. simpl. destruct (is_hydra_error c).
  - repeat split; [done|]. by exists [Log CRITICAL a].
  - repeat split; [done|]. exists []. by rewrite !app_nil_r.
Qed.

Lemma reads_bind {A B} (m : M A) (k : A -> M B) :
  reads_files_only m -> (forall a, reads_files_only (k a)) -> reads_files_only (m ≫= k).
Proof.
  intros Hm Hk st st' Hfs. rewrite !run_bind.
  destruct (Hm st st' Hfs) as (Hr & Hfs1 & t1 & Ht1 & Ht1').
  destruct (m st) as [[a|e] st1], (m st') as [[a'|e'] st1']; simpl in *;
    try discriminate Hr.
  - injection Hr as <-.
    destruct (Hk a st1 st1' Hfs1) as (Hr2 & Hfs2 & t2 & Ht2 & Ht2').
    repeat split; [done..|].
    exists (t1 ++ t2). by rewrite Ht2, Ht2', Ht1, Ht1', !app_assoc.
  - injection Hr as <-. repeat split; [done|]. by exists t1.
Qed.

Lemma reads_try_except {A} (body : M A) (c : exn_class) (handler : exn -> M A) :
  reads_files_only body -> (forall e, reads_files_only (handler e)) ->
  reads_files_only (try_except body c handler).
Proof.
  intros Hm Hk st st' Hfs. unfold try_except.
  destruct (Hm st st' Hfs) as (Hr & Hfs1 & t1 & Ht1 & Ht1').
  destruct (body st) as [[a|e] st1], (body st') as [[a'|e'] st1']; simpl in *;
    try discriminate Hr.
  - repeat split; [done..|]. by exists t1.
  - injection Hr as <-. destruct (subclass (cls e) c).
    + destruct (Hk e st1 st1' Hfs1) as (Hr2 & Hfs2 & t2 & Ht2 & Ht2').
      repeat split; [done..|].
      exists (t1 ++ t2). by rewrite Ht2, Ht2', Ht1, Ht1', !app_assoc.
    + repeat split; [done..|]. by exists t1.
Qed.

Lemma reads_get_fs : reads_files_only get_fs.
Proof.
  intros st st' Hfs. simpl. repeat split; [by rewrite Hfs|done|].
  exists []. by rewrite !app_nil_r.
Qed.

Lemma reads_set_fs (f : gmap string file) : reads_files_only (set_fs f).
Proof. intros st st' Hfs. repeat split. exists []. by rewrite !app_nil_r. Qed.

(** [self.threads] is written, and what is written does not depend on the
    state. *)
Lemma reads_set_self_threads (n : Z) : reads_files_only (set_self_threads n).
Proof. intros st st' Hfs. repeat split; [done|]. exists []. by rewrite !app_nil_r. Qed.

Lemma reads_isfile (f : string) : reads_files_only (isfile f).
Proof.
  intros st st' Hfs. simpl. repeat split; [by rewrite Hfs|done|].
  exists []. by rewrite !app_nil_r.
Qed.

Lemma reads_NamedTemporaryFile {A} (env : Env) (body : string -> M A) :
  (forall name, reads_files_only (body name)) ->
  reads_files_only (NamedTemporaryFile env body).
Proof.
  intros Hb st st' Hfs. unfold NamedTemporaryFile.
  destruct (Hb (tmp_name env) (tmp_created (tmp_name env) st)
              (tmp_created (tmp_name env) st')) as (Hr & Hfs1 & t & Ht & Ht').
  { simpl. by rewrite Hfs. }
  destruct (body _ (tmp_created _ st)) as [r st1],
           (body _ (tmp_created _ st')) as [r' st1']. simpl in *.
  split; [by rewrite Hr, Hfs1|]. split; [by rewrite Hfs1|].
  exists ([TmpCreate (tmp_name env)] ++ t ++ [TmpDelete (tmp_name env)]).
  by rewrite Ht, Ht', <- !app_assoc.
Qed.

End ReadsFilesOnly.

Create HintDb reads.
#[local] Hint Resolve reads_ret reads_lift reads_emit reads_logging reads_raise
  reads_get_fs reads_set_fs reads_set_self_threads reads_isfile : reads.

Ltac reads_step :=
  repeat first
    [ progress cbv zeta
    | solve [auto with reads]
    | apply reads_bind; [|intros ?]
    | apply reads_try_except; [|intros ?]
    | apply reads_NamedTemporaryFile; intros ?
    | match goal with
      | |- reads_files_only (match ?x with _ => _ end) => destruct x
      | |- reads_files_only (if ?x then _ else _) => destruct x
      end ].

Section Independence.

Context (self : Hydra) (env : Env).

Lemma json2dict_reads (json_path : string) :
  reads_files_only (HydraParser.json2dict json_path).
Proof.
  unfold HydraParser.json2dict, HydraParser.json_opener, HydraParser.json_load.
  reads_step.
Qed.

Lemma log_warnings_reads (hydra_messages : list string) :
  reads_files_only (log_warnings hydra_messages).
Proof. induction hydra_messages; simpl; reads_step. Qed.

Lemma raise_first_error_reads (hydra_messages : list string) :
  reads_files_only (raise_first_error hydra_messages).
Proof. induction hydra_messages; simpl; reads_step. Qed.

Lemma running_command_reads (command_string : string) :
  reads_files_only (_running_command env command_string).
Proof.
  unfold _running_command, decode.
  reads_step; first [apply log_warnings_reads | apply raise_first_error_reads].
Qed.

#[local] Hint Resolve json2dict_reads running_command_reads : reads.




End Independence.

(** ** The life of the temporary file *)

Section TemporaryFile.

Context (self : Hydra) (env : Env).

Lemma inside_log (lv : level) (m : payload) : is_inside (Log lv m) = true.
Proof. reflexivity. Qed.

Ltac inside_step :=
  pose proof inside_log as p_log;
  repeat first
    [ progress cbv zeta
    | solve [auto with trace]
    | apply emits_only_emit; reflexivity
    | apply json2dict_emits_logs; exact p_log
    | apply log_warnings_emits_logs; exact p_log
    | apply raise_first_error_emits_logs; exact p_log
    | apply user_and_pass_emits_logs; exact p_log
    | apply userpass_emits_logs; exact p_log
    | apply emits_only_bind; [|intros ?]
    | match goal with
      | |- emits_only _ (match ?x with _ => _ end) => destruct x
      | |- emits_only _ (if ?x then _ else _) => destruct x
      end ].

Lemma running_command_inside (command_string : string) :
  emits_only is_inside (_running_command env command_string).
Proof. unfold _running_command, decode. inside_step. Qed.

Lemma block_inside {A} (body : string -> M A) (st0 st : state) (before : list event) :
  (forall name, emits_only is_inside (body name)) ->
  trace st = trace st0 ++ before ->
  exists inside,
    during st0 (NamedTemporaryFile env body st).2
    = before ++ [TmpCreate (tmp_name env)] ++ inside ++ [TmpDelete (tmp_name env)] /\
    forallb is_inside inside = true.
Proof.
  intros Hb Hbefore. unfold NamedTemporaryFile.
  destruct (Hb (tmp_name env) (tmp_created (tmp_name env) st)) as (inside & Ht & Hin).
  destruct (body _ _) as [r st1]. simpl in *.
  exists inside. split; [|exact Hin].
  apply during_app. unfold tmp_deleted, record. simpl.
  by rewrite Ht, Hbefore, <- !app_assoc.
Qed.

(** X23. The life of the temporary file.  The events of a call of either
    entry point are either log records only, when the call stops at a
    check, or log records, the creation of the temporary file, then log
    records and launches of the process, and last the deletion of the
    temporary file: a call creates at most one temporary file, none when a
    check fails, and the process is started only while the file exists. *)
Theorem the_process_is_started_only_while_the_temporary_file_exists
    service port user_wordlist pass_wordlist userpass_wordlist_path threads export_type
    ignore_restore_file wait_time st :
  let shape (t : list event) :=
    forallb is_log t = true \/
    exists before inside,
      t = before ++ [TmpCreate (tmp_name env)] ++ inside ++ [TmpDelete (tmp_name env)] /\
      forallb is_log before = true /\ forallb is_inside inside = true in
  shape (during st
           (bruteforce self env service port user_wordlist pass_wordlist threads
              export_type ignore_restore_file wait_time st).2) /\
  shape (during st
           (bruteforce_with_userpass_wordlist self env service port
              userpass_wordlist_path threads export_type ignore_restore_file
              wait_time st).2).
Proof.
  intros shape. split.
  - rewrite bruteforce_run. simpl.
    destruct (warned_trace user_wordlist pass_wordlist st) as (_ & tw & Htw & Hlw).
    destruct (checks_trace INFO user_wordlist pass_wordlist threads st)
      as (_ & tc & Htc & Hlc).
    destruct (int env port) as [n|]; simpl; [|left; by apply (during_logs _ _ tw)].
    destruct (bool_decide (export_type ∈ valid_outputs)); simpl;
      [|left; by apply (during_logs _ _ tw)].
    destruct (bool_decide (lower env service ∈ supported_services self)); simpl.
    + right. exists tc.
      match goal with |- context [NamedTemporaryFile env ?body ?st1] =>
        destruct (block_inside body st st1 tc) as (inside & Hd & Hin) end.
      * intros name. pose proof running_command_inside as Hrunner. inside_step.
      * exact Htc.
      * exists inside. by rewrite Hd.
    + left.
      destruct (bool_decide (lower env service ∈ unsupported_services self)); simpl;
        (apply during_record; [by exists tc|reflexivity]).
  - rewrite bruteforce_with_userpass_wordlist_run. simpl.
    destruct (checks_trace WARNING (Some "") (Some "") threads st)
      as (_ & tc & Htc & Hlc).
    rewrite warned_present in Htc.
    destruct (is_file (fs st) (abspath env userpass_wordlist_path)); simpl;
      [|left; by rewrite during_same].
    destruct (int env port) as [n|]; simpl; [|left; by rewrite during_same].
    destruct (bool_decide (export_type ∈ valid_outputs)); simpl;
      [|left; by rewrite during_same].
    destruct (bool_decide (lower env service ∈ supported_services self)); simpl.
    + right. exists tc.
      match goal with |- context [NamedTemporaryFile env ?body ?st1] =>
        destruct (block_inside body st st1 tc) as (inside & Hd & Hin) end.
      * intros name. pose proof running_command_inside as Hrunner. inside_step.
      * exact Htc.
      * exists inside. by rewrite Hd.
    + left.
      destruct (bool_decide (lower env service ∈ unsupported_services self)); simpl;
        (apply during_record; [by exists tc|reflexivity]).
Qed.

End TemporaryFile.

(** ** The further properties on a concrete world *)

Section MoreRuns.

Import Demo.

Lemma json2dict_raises_only_these_witness :
  HydraDecodeError
  ∈ [OSError; UnicodeDecodeError; ValueError; RecursionError; TypeError; HydraDecodeError].
Proof.
  exact (proj1 (json2dict_raises_only_these "/tmp/out"
                  (State {[ "/tmp/out" := Malformed ]} 4 [])
                  (open_failure "/tmp/out") eq_refl)).
Defined.

Lemma port_that_is_not_a_number_witness :
  (bruteforce hydra (env 0 "" Malformed) "ssh" (PortStr "2x2") (Some "users.txt")
     (Some "pass.txt") 4 "json" true 2 start).1
  = Raise (Exn ValueError (Msg "The port number should be an integer, 2x2 was given.")).
Proof.
  exact (proj1 (proj2 (port_that_is_not_a_number_is_rejected hydra (env 0 "" Malformed)
                         "ssh" (PortStr "2x2") (Some "users.txt") (Some "pass.txt")
                         "combo.txt" 4 "json" true 2 start eq_refl eq_refl))).
Defined.

Lemma the_process_is_started_once_witness :
  launches (during start
    (bruteforce_with_userpass_wordlist hydra (env 0 "" (Document found)) "SSH"
       (PortStr "22") "combo.txt" 8 "json" false 3 start).2)
  = [["/usr/bin/hydra"; "ssh://10.0.0.5:22"; "-w"; "3"; "-C"; "/home/user/combo.txt";
      "-t"; "8"; "-o"; "/tmp/tmpk3x9"; "-b"; "json"]].
Proof.
  assert (Het : "json" ∈ valid_outputs) by (apply (bool_decide_unpack _); vm_compute; exact I).
  assert (Hsupp : lower (env 0 "" (Document found)) "SSH" ∈ supported_services hydra)
    by (apply (bool_decide_unpack _); vm_compute; exact I).
  exact (proj2 (the_process_is_started_once_with_the_built_command hydra
                  (env 0 "" (Document found)) "SSH" (PortStr "22") 22 "users.txt"
                  "pass.txt" "combo.txt" 8 "json" false 3 start eq_refl Het Hsupp)
           eq_refl eq_refl).
Defined.

Lemma the_call_ends_by_what_the_process_did_witness :
  (bruteforce hydra (env 255 "[ERROR] could not connect" (Document found)) "ssh"
     (PortInt 22) (Some "users.txt") (Some "pass.txt") 4 "json" true 2 start).1
  = Raise (Exn HydraError (Msg "[ERROR] could not connect")).
Proof.
  refine (proj2 (proj1 (proj2 (proj1
            (the_call_ends_by_what_the_process_did hydra
               (env 255 "[ERROR] could not connect" (Document found)) "ssh" (PortInt 22)
               (Some "users.txt") (Some "pass.txt") "combo.txt" 4 "json" true 2 start
               ["/usr/bin/hydra"; "ssh://10.0.0.5:22"; "-w"; "2"; "-L"; "users.txt"; "-P";
                "pass.txt"; "-t"; "4"; "-o"; "/tmp/tmpk3x9"; "-b"; "json"; "-I"]
               255 (Utf8 "[ERROR] could not connect")
               (<["/tmp/tmpk3x9" := Document found]>
                  (<["/tmp/tmpk3x9" := Malformed]> disk)) _) _)) _) _).
  - reflexivity.
  - vm_compute. reflexivity.
  - left. vm_compute. reflexivity.
  - discriminate.
Defined.

Lemma a_successful_call_witness :
  exists d,
    (bruteforce hydra (env 0 "" (Document found)) "ssh" (PortInt 22) (Some "users.txt")
       (Some "pass.txt") 4 "json" true 2 start).1 = Ok d /\
    Py.dict_of [(JStr "a", JStr "1"); (JStr "b", JStr "2")] = Ok d.
Proof.
  destruct (proj1
    (a_successful_call_returns_the_credentials_found hydra
       (env 0 "" (Document found)) "ssh" (PortInt 22) (Some "users.txt")
       (Some "pass.txt") "combo.txt" 4 "json" true 2 start
       ["/usr/bin/hydra"; "ssh://10.0.0.5:22"; "-w"; "2"; "-L"; "users.txt"; "-P";
        "pass.txt"; "-t"; "4"; "-o"; "/tmp/tmpk3x9"; "-b"; "json"; "-I"]
       ""
       (<["/tmp/tmpk3x9" := Document found]> (<["/tmp/tmpk3x9" := Malformed]> disk))
       [("results",
         JArr [JObj [("login", JStr "a"); ("password", JStr "1")];
               JObj [("login", JStr "b"); ("password", JStr "2")]])]
       [JObj [("login", JStr "a"); ("password", JStr "1")];
        JObj [("login", JStr "b"); ("password", JStr "2")]]
       [("a", JStr "1"); ("b", JStr "2")]
       eq_refl eq_refl eq_refl
       ltac:(repeat constructor; eexists; repeat split; reflexivity))
    ltac:(vm_compute; reflexivity)) as (d & Hrun & Hd & _).
  exists d. split; [exact Hrun|exact Hd].
Defined.

Lemma a_call_leaves_the_disk_witness :
  fs (bruteforce hydra Tidy.env "ssh" (PortInt 22) (Some "users.txt") (Some "pass.txt")
        4 "json" true 2 start).2 = disk.
Proof.
  refine (proj1 (a_call_leaves_the_disk_as_it_found_it hydra Tidy.env "ssh" (PortInt 22)
                   (Some "users.txt") (Some "pass.txt") "combo.txt" 4 "json" true 2 start
                   _ _)).
  - reflexivity.
  - intros argv files. simpl. by rewrite delete_insert_eq.
Defined.

Lemma the_entry_points_raise_only_these_witness :
  HydraNoWordlistGiven
  ∈ [ValueError; HydraUnsupportedServiceError; HydraUnknownServiceError;
     HydraNoWordlistGiven; OSError; HydraError; UnknownHydraError;
     UnicodeDecodeError; RecursionError; TypeError; HydraDecodeError].
Proof.
  exact (proj1 (the_entry_points_raise_only_these hydra (env 0 "" Malformed) "ssh"
                  (PortInt 22) None None "combo.txt" 4 "json" true 2 start
                  (Exn HydraNoWordlistGiven (Msg "user_wordlist is None")))
           eq_refl).
Defined.

Lemma the_arguments_have_no_whitespace_witness :
  "my users.txt"
  ∉ ["/usr/bin/hydra"; "ssh://10.0.0.5:22"; "-w"; "2"; "-l"; "my"; "users.txt"; "-P";
     "pass.txt"; "-t"; "4"; "-o"; "/tmp/tmpk3x9"; "-b"; "json"; "-I"].
Proof.
  refine (proj2 (the_arguments_of_the_process_have_no_whitespace hydra
                   (env 0 "" (Document found)) "ssh" (PortInt 22) (Some "my users.txt")
                   (Some "pass.txt") "combo.txt" 4 "json" true 2 start _ _)
            "my users.txt" eq_refl).
  left. apply (bool_decide_unpack _). vm_compute. exact I.
Defined.

Lemma never_started_on_a_wrong_type_witness :
  is_int (Dyn.PBool true) = true.
Proof.
  refine (proj1 (proj2 (proj2 (proj2 (proj2 (proj1
            (the_process_is_never_started_on_arguments_of_a_wrong_type hydra
               (env 0 "" (Document found)) (Dyn.PStr "ssh") (Dyn.PInt 22)
               (Dyn.PStr "users.txt") (Dyn.PStr "pass.txt") (Dyn.PStr "combo.txt")
               (Dyn.PBool true) (Dyn.PStr "json") (Dyn.PBool true) (Dyn.PInt 2) start)
            _)))))).
  vm_compute. discriminate.
Defined.

Lemma a_thread_count_given_as_text_witness :
  (Dyn.bruteforce hydra (env 0 "" Malformed) (Dyn.PStr "ssh") (Dyn.PInt 22)
     (Dyn.PStr "users.txt") (Dyn.PStr "pass.txt") (Dyn.PStr "4") (Dyn.PStr "json")
     (Dyn.PBool true) (Dyn.PInt 2) start).1
  = Raise (Exn TypeError (Msg "threads is <class 'str'>, expected <class 'int'>")).
Proof.
  exact (proj1 (a_thread_count_that_is_not_an_int_is_rejected hydra (env 0 "" Malformed)
                  "ssh" (Dyn.PInt 22) 22 (Some "users.txt") (Some "pass.txt") "combo.txt"
                  (Dyn.PStr "4") (Dyn.PStr "json") (Dyn.PBool true) (Dyn.PInt 2) start
                  eq_refl eq_refl eq_refl)).
Defined.

Lemma a_boolean_thread_count_witness :
  launches (during start
    (Dyn.bruteforce hydra (env 0 "" (Document found)) (Dyn.PStr "ssh") (Dyn.PInt 22)
       (Dyn.PStr "users.txt") (Dyn.PStr "pass.txt") (Dyn.PBool true) (Dyn.PStr "json")
       (Dyn.PBool true) (Dyn.PInt 2) start).2)
  = [["/usr/bin/hydra"; "ssh://10.0.0.5:22"; "-w"; "2"; "-L"; "users.txt"; "-P";
      "pass.txt"; "-t"; "True"; "-o"; "/tmp/tmpk3x9"; "-b"; "json"; "-I"]].
Proof.
  assert (Het : "json" ∈ valid_outputs) by (apply (bool_decide_unpack _); vm_compute; exact I).
  assert (Hsupp : lower (env 0 "" (Document found)) "ssh" ∈ supported_services hydra)
    by (apply (bool_decide_unpack _); vm_compute; exact I).
  assert (Hservice : lower (env 0 "" (Document found)) "ssh" ∉ service_without_user)
    by (apply (bool_decide_unpack _); vm_compute; exact I).
  exact (proj1 (the_counts_are_written_as_python_prints_them hydra
                  (env 0 "" (Document found)) "ssh" (Dyn.PInt 22) 22 "users.txt" "pass.txt"
                  "combo.txt" (Dyn.IBool true) (Dyn.IInt 2) "json" true start
                  eq_refl Het Hsupp) Hservice eq_refl).
Defined.



End MoreRuns.
